(** * Fake News Classifier dashboard: weekly aggregation, smoothing and tables

    A shallow embedding of [app.py].  The script is a straight line of pandas
    calls, so the embedding has two layers:

    - [Pandas]: the dataframe operations the script calls (value counts,
      reindexing, sorted group-by, means, rolling means, cross-tabulation,
      weekly periods, positional row access), each at the arguments the script
      passes;
    - [App]: the script itself, section by section, with the names it uses.

    They are followed by the definitions the specification is stated with,
    and then by the theorems: facts on the operations first, the claims of
    the specification after the facts they rest on.

    Numbers: counts are [nat], labels are [Z], and the floating-point columns
    (means and proportions) are exact rationals [Qc], whose equality is
    Leibniz equality.  A weekly mean is one division of a count by a count,
    so the double pandas stores is the rational of the model rounded once.
    The rolling mean adds and subtracts these numbers one after the other
    and its rounding does show: it is written once over any arithmetic
    ([Pandas.roll_mean]) and read both over the rationals
    ([Pandas.rolling_mean]) and over binary64
    ([Pandas.rolling_mean_binary64]).  A missing value (NaN) is [None].

    Timestamps are [Z], the nanoseconds since 1970-01-01T00:00 that a
    [datetime64[ns]] column holds; the least 64-bit integer is NaT, the
    missing timestamp. *)

From Stdlib Require Import String Ascii ZArith QArith Qcanon Lia Bool.
From Stdlib Require Import List Sorted Permutation.
From Stdlib Require PrimFloat.
Import ListNotations.

Set Implicit Arguments.
Set Warnings "-inexact-float".

(* ================================================================== *)
(** ** Exceptions *)

Inductive exn : Type :=
| ValueError
| KeyError
| IndexError
| AttributeError
| OutOfBoundsDatetime.

Inductive result (A : Type) : Type :=
| Ok (a : A)
| Raise (e : exn).

Arguments Ok {A} a.
Arguments Raise {A} e.

Definition bind {A B : Type} (m : result A) (k : A -> result B) : result B :=
  match m with
  | Ok a => k a
  | Raise e => Raise e
  end.

Notation "x <- m ;; k" := (bind m (fun x => k))
  (at level 61, m at next level, right associativity).

(* ================================================================== *)
(** ** Rational helpers *)

Definition Qc_of_Z (z : Z) : Qc := Q2Qc (inject_Z z).
Definition Qc_of_nat (n : nat) : Qc := Qc_of_Z (Z.of_nat n).
Definition Qc_of_bool (b : bool) : Qc := if b then 1%Qc else 0%Qc.

Fixpoint Qc_sum (xs : list Qc) : Qc :=
  match xs with
  | [] => 0%Qc
  | x :: xs' => (x + Qc_sum xs')%Qc
  end.

(* ================================================================== *)
(** ** The pandas operations used by the script *)

Module Pandas.

(** A two-dimensional table: row labels, column labels, and the cells row
    by row. *)
Record Frame (I C V : Type) : Type := mkFrame {
  index : list I;
  columns : list C;
  values : list (list V)
}.

(** *** Series.mean

    The mean of an empty series is NaN in pandas; the script only takes
    means of groups, which are never empty (lemma [groupby_group_nonempty]
    below), and of rolling windows guarded by [min_periods]. *)
Definition mean (xs : list Qc) : Qc :=
  (Qc_sum xs / Qc_of_nat (length xs))%Qc.

(** *** Series.value_counts, Series.get, Series.reindex *)
Section Series.
Variables (A : Type) (eqb : A -> A -> bool).

Definition count (a : A) (xs : list A) : nat :=
  length (filter (eqb a) xs).

(** the distinct values, in order of first occurrence *)
Fixpoint unique (xs : list A) : list A :=
  match xs with
  | [] => []
  | x :: xs' => x :: filter (fun y => negb (eqb x y)) (unique xs')
  end.

(** insertion by decreasing count, ahead of the entries of equal count *)
Fixpoint insert_desc (p : A * nat) (s : list (A * nat)) : list (A * nat) :=
  match s with
  | [] => [p]
  | q :: s' =>
      if (snd q <=? snd p)%nat then p :: s else q :: insert_desc p s'
  end.

Definition sort_desc (s : list (A * nat)) : list (A * nat) :=
  fold_right insert_desc [] s.

(** [value_counts()]: each distinct value with its number of occurrences,
    most frequent first *)
Definition value_counts (xs : list A) : list (A * nat) :=
  sort_desc (map (fun a => (a, count a xs)) (unique xs)).

(** [value_counts(normalize=True)]: relative frequencies *)
Definition value_counts_normalized (xs : list A) : list (A * Qc) :=
  map (fun p => (fst p, (Qc_of_nat (snd p) / Qc_of_nat (length xs))%Qc))
      (value_counts xs).

(** label lookup in a series *)
Fixpoint lookup (V : Type) (a : A) (s : list (A * V)) : option V :=
  match s with
  | [] => None
  | (k, v) :: s' => if eqb a k then Some v else lookup a s'
  end.

(** [s.get(a, default)] *)
Definition get (V : Type) (a : A) (s : list (A * V)) (default : V) : V :=
  match lookup a s with
  | Some v => v
  | None => default
  end.

(** [s.reindex(order, fill_value=fill)] *)
Definition reindex (V : Type) (order : list A) (fill_value : V)
    (s : list (A * V)) : list (A * V) :=
  map (fun a => (a, get a s fill_value)) order.

(** position of a column label *)
Fixpoint position (a : A) (cs : list A) : option nat :=
  match cs with
  | [] => None
  | c :: cs' =>
      if eqb a c then Some O
      else match position a cs' with
           | Some n => Some (S n)
           | None => None
           end
  end.
End Series.

(** *** groupby (sort=True)

    Groups appear in increasing key order; the rows of a group keep the
    order they have in the frame. *)
Section GroupBy.
Variables (K : Type) (cmp : K -> K -> comparison).

Definition same_key (a b : K) : bool :=
  match cmp a b with
  | Eq => true
  | _ => false
  end.

Fixpoint insert_key (k : K) (ks : list K) : list K :=
  match ks with
  | [] => [k]
  | k' :: ks' =>
      match cmp k k' with
      | Lt => k :: ks
      | Eq => ks
      | Gt => k' :: insert_key k ks'
      end
  end.

Definition sorted_keys (ks : list K) : list K :=
  fold_right insert_key [] ks.

Definition groupby (R : Type) (key : R -> K) (rows : list R)
    : list (K * list R) :=
  map (fun k => (k, filter (fun r => same_key (key r) k) rows))
      (sorted_keys (map key rows)).
End GroupBy.

(** [groupby] leaves out the rows whose key is missing (dropna=True, the
    default): what is grouped are the rows that have a key. *)
Definition dropna (R K : Type) (rows : list (R * option K)) : list (R * K) :=
  flat_map (fun p => match snd p with
                     | Some k => [(fst p, k)]
                     | None => []
                     end) rows.

(** *** rolling(window, min_periods).mean()

    The sliding computation of pandas ([roll_mean] with the bounds of a
    fixed window): a running sum kept by compensated (Kahan) summation, a
    running number of observations, the number of negative values in the
    window and the length of the run of equal values that ends at the last
    value added.  From one window to the next the values that leave are
    removed and the values that enter are added; the sum is built afresh
    only for the first window and for a window that shares nothing with
    the one before.  The mean is reported when at least [min_periods]
    observations are in the window, and is NaN otherwise.

    The computation is the same whatever the numbers are: [Arith] is what
    it asks of them. *)
Record Arith : Type := mkArith {
  num : Type;
  num_zero : num;
  num_add : num -> num -> num;
  num_sub : num -> num -> num;
  num_neg : num -> num;
  num_div : num -> num -> num;
  (** the cast of a count *)
  num_of_Z : Z -> num;
  (** [==] and [<]; a NaN is not equal to itself *)
  num_eqb : num -> num -> bool;
  num_ltb : num -> num -> bool;
  signbit : num -> bool
}.

Arguments num_zero : clear implicits.
Arguments num_add : clear implicits.
Arguments num_sub : clear implicits.
Arguments num_neg : clear implicits.
Arguments num_div : clear implicits.
Arguments num_of_Z : clear implicits.
Arguments num_eqb : clear implicits.
Arguments num_ltb : clear implicits.
Arguments signbit : clear implicits.

(** the bounds [start, end) of the fixed window that ends at position [i],
    clipped to the series *)
Definition window_start (window i : nat) : nat := S i - window.
Definition window_end (i : nat) : nat := S i.

(** the variables of [roll_mean] *)
Record roll_state (A : Arith) : Type := mkRoll {
  nobs : Z;
  sum_x : num A;
  neg_ct : Z;
  compensation_add : num A;
  compensation_remove : num A;
  num_consecutive_same_value : Z;
  prev_value : num A
}.

Section Rolling.
Variable A : Arith.
Variables (window min_periods : nat) (vals : list (num A)).

Definition add_mean (st : roll_state A) (val : num A) : roll_state A :=
  if num_eqb A val val then
    let y := num_sub A val (compensation_add st) in
    let t := num_add A (sum_x st) y in
    mkRoll A
      (nobs st + 1)
      t
      (if signbit A val then neg_ct st + 1 else neg_ct st)%Z
      (num_sub A (num_sub A t (sum_x st)) y)
      (compensation_remove st)
      (if num_eqb A val (prev_value st)
       then num_consecutive_same_value st + 1
       else 1)%Z
      val
  else st.

Definition remove_mean (st : roll_state A) (val : num A) : roll_state A :=
  if num_eqb A val val then
    let y := num_sub A (num_neg A val) (compensation_remove st) in
    let t := num_add A (sum_x st) y in
    mkRoll A
      (nobs st - 1)
      t
      (if signbit A val then neg_ct st - 1 else neg_ct st)%Z
      (compensation_add st)
      (num_sub A (num_sub A t (sum_x st)) y)
      (num_consecutive_same_value st)
      (prev_value st)
  else st.

(** the value reported for a window: the sum over the number of
    observations, but the last value itself when the whole window repeats
    it, and 0 when rounding gave the mean of values of one sign the other
    sign *)
Definition calc_mean (st : roll_state A) : option (num A) :=
  if ((Z.of_nat min_periods <=? nobs st) && (0 <? nobs st))%Z then
    let result := num_div A (sum_x st) (num_of_Z A (nobs st)) in
    Some
      (if (nobs st <=? num_consecutive_same_value st)%Z then prev_value st
       else if (neg_ct st =? 0)%Z && num_ltb A result (num_zero A)
            then num_zero A
       else if (neg_ct st =? nobs st)%Z && num_ltb A (num_zero A) result
            then num_zero A
       else result)
  else None.

Definition value_at (j : nat) : num A := nth j vals (num_zero A).

(** [values[lo:hi]] *)
Definition values_between (lo hi : nat) : list (num A) :=
  map value_at (seq lo (hi - lo)).

(** the state a window is built afresh from *)
Definition roll_setup (s : nat) : roll_state A :=
  mkRoll A 0 (num_zero A) 0 (num_zero A) (num_zero A) 0 (value_at s).

(** one turn of the loop over the windows.  (The bounds of fixed windows
    never decrease, so the branch pandas keeps for bounds that do is not
    taken.) *)
Definition roll_step (st : roll_state A) (i : nat) : roll_state A :=
  let s := window_start window i in
  let e := window_end i in
  if (i =? 0)%nat || (window_end (i - 1) <=? s)%nat then
    fold_left add_mean (values_between s e) (roll_setup s)
  else
    let removed :=
      fold_left remove_mean
        (values_between (window_start window (i - 1)) s) st in
    fold_left add_mean (values_between (window_end (i - 1)) e) removed.

Fixpoint roll_loop (st : roll_state A) (ixs : list nat)
    : list (option (num A)) :=
  match ixs with
  | [] => []
  | i :: ixs' =>
      let st' := roll_step st i in
      calc_mean st' :: roll_loop st' ixs'
  end.

Definition roll_mean : list (option (num A)) :=
  roll_loop (roll_setup 0) (seq 0 (length vals)).
End Rolling.

(** The exact reading: the numbers are rationals and nothing is rounded. *)
Definition exact : Arith :=
  mkArith 0%Qc Qcplus Qcminus Qcopp Qcdiv Qc_of_Z
    (fun a b => Qeq_bool a b)
    (fun a b => negb (Qle_bool b a))
    (fun a => negb (Qle_bool 0 a)).

(** [rolling(window, min_periods).mean()] over exact rationals.  pandas
    checks the two arguments when it builds the window and refuses
    [min_periods > window]; the script passes 4 and 1. *)
Definition rolling_mean (window min_periods : nat) (vals : list Qc)
    : list (option Qc) :=
  roll_mean exact window min_periods vals.

(** The reading of the program: the numbers are doubles and every
    operation rounds to the nearest. *)
Section Binary64.
Import PrimFloat.

(** the cast of a count to a double, exact below 2^53 *)
Fixpoint float_of_positive (p : positive) : float :=
  match p with
  | xH => 1%float
  | xO q => (2 * float_of_positive q)%float
  | xI q => (2 * float_of_positive q + 1)%float
  end.

Definition float_of_Z (z : Z) : float :=
  match z with
  | Z0 => 0%float
  | Zpos p => float_of_positive p
  | Zneg p => (- float_of_positive p)%float
  end.

Definition binary64 : Arith :=
  mkArith 0%float PrimFloat.add PrimFloat.sub PrimFloat.opp PrimFloat.div
    float_of_Z PrimFloat.eqb PrimFloat.ltb PrimFloat.get_sign.

Definition rolling_mean_binary64 (window min_periods : nat)
    (vals : list float) : list (option float) :=
  roll_mean binary64 window min_periods vals.
End Binary64.

(** *** Weekly periods: [dt.to_period("W")]

    The frequency "W" is W-SUN: a period runs from Monday to Sunday.  Day
    0 is Thursday 1970-01-01 and belongs to the period of ordinal 1. *)
Section Period.
Open Scope Z_scope.

Definition ns_per_day : Z := 86400000000000.

(** the values a [datetime64[ns]] cell holds: 64-bit signed, the least
    one being kept for NaT *)
Definition Timestamp_min : Z := -9223372036854775807.
Definition Timestamp_max : Z := 9223372036854775807.

Definition in_bounds (t : Z) : bool :=
  (Timestamp_min <=? t) && (t <=? Timestamp_max).

(** the missing timestamp *)
Definition NaT : Z := -9223372036854775808.

Definition isna (t : Z) : bool := t =? NaT.

(** days since 1970-01-01 of a timestamp *)
Definition unix_date (t : Z) : Z := t / ns_per_day.

(** ordinal of the weekly period holding a timestamp *)
Definition to_period_W (t : Z) : Z := (unix_date t + 3) / 7 + 1.

(** [dt.to_period("W")] on a cell of the column: the period of a missing
    timestamp is missing *)
Definition dt_to_period_W (t : Z) : option Z :=
  if isna t then None else Some (to_period_W t).

(** first and last day of a weekly period, as days since 1970-01-01 *)
Definition week_start_day (o : Z) : Z := o * 7 - 10.
Definition week_end_day (o : Z) : Z := o * 7 - 4.

(** midnight of the first day, in nanoseconds since 1970-01-01 *)
Definition start_ns (o : Z) : Z := week_start_day o * ns_per_day.

(** [Period.start_time]: the timestamp of that midnight, which must be
    one a timestamp can hold *)
Definition start_time (o : Z) : result Z :=
  if in_bounds (start_ns o) then Ok (start_ns o)
  else Raise OutOfBoundsDatetime.

(** [r.start_time] on a cell of a column of periods: a missing period is
    the object NaT, which has no such attribute *)
Definition cell_start_time (r : option Z) : result Z :=
  match r with
  | Some o => start_time o
  | None => Raise AttributeError
  end.

(** proleptic Gregorian date (year, month, day) of a day number *)
Definition civil_from_days (days : Z) : Z * Z * Z :=
  let z := days + 719468 in
  let era := z / 146097 in
  let doe := z - era * 146097 in
  let yoe := (doe - doe / 1460 + doe / 36524 - doe / 146096) / 365 in
  let doy := doe - (365 * yoe + yoe / 4 - yoe / 100) in
  let mp := (5 * doy + 2) / 153 in
  let d := doy - (153 * mp + 2) / 5 + 1 in
  let m := if mp <? 10 then mp + 3 else mp - 9 in
  let y := yoe + era * 400 in
  (if m <=? 2 then y + 1 else y, m, d).

Definition digit (n : Z) : ascii := ascii_of_N (48 + Z.to_N (n mod 10)).

Definition pad2 (n : Z) : string :=
  String (digit (n / 10)) (String (digit n) EmptyString).

Definition pad4 (n : Z) : string :=
  String (digit (n / 1000)) (String (digit (n / 100)) (pad2 n)).

(** a day printed as YYYY-MM-DD *)
Definition strftime_ymd (day : Z) : string :=
  let '(y, m, d) := civil_from_days day in
  (pad4 y ++ "-" ++ pad2 m ++ "-" ++ pad2 d)%string.

(** [str] of a weekly period: first day, a slash, last day *)
Definition period_str (o : Z) : string :=
  (strftime_ymd (week_start_day o) ++ "/"
     ++ strftime_ymd (week_end_day o))%string.

(** [astype(str)] on a cell of a column of periods: a missing period gives
    a missing text *)
Definition cell_astype_str (r : option Z) : option string :=
  option_map period_str r.
End Period.

(** *** unstack, fillna, column assignment and selection *)
Section Frames.
Variables (I V : Type).

(** [unstack()] of a series indexed by (group, value): one row per group,
    one column per value in increasing order, NaN where a group lacks
    the value *)
Definition unstack (s : list (I * list (string * V)))
    : Frame I string (option V) :=
  let cols := sorted_keys String.compare
                (flat_map (fun g => map fst (snd g)) s) in
  mkFrame (map fst s) cols
    (map (fun g => map (fun c => lookup String.eqb c (snd g)) cols) s).

Definition fillna (v : V) (f : Frame I string (option V))
    : Frame I string V :=
  mkFrame (index f) (columns f)
    (map (map (fun c => match c with Some x => x | None => v end))
         (values f)).

(** [f[c] = v] for a column label absent from [f] *)
Definition add_column (c : string) (v : V) (f : Frame I string V)
    : Frame I string V :=
  mkFrame (index f) (columns f ++ [c]) (map (fun r => r ++ [v]) (values f)).

(** [for s in order: if s not in f.columns: f[s] = v] *)
Definition ensure_columns (order : list string) (v : V)
    (f : Frame I string V) : Frame I string V :=
  fold_left
    (fun acc s =>
       if existsb (String.eqb s) (columns acc) then acc
       else add_column s v acc)
    order f.

Fixpoint positions (order cols : list string) : result (list nat) :=
  match order with
  | [] => Ok []
  | s :: order' =>
      match position String.eqb s cols with
      | Some n => ns <- positions order' cols ;; Ok (n :: ns)
      | None => Raise KeyError
      end
  end.

(** [f[order]]: the listed columns, in the listed order *)
Definition select_columns (dflt : V) (order : list string)
    (f : Frame I string V) : result (Frame I string V) :=
  ns <- positions order (columns f) ;;
  Ok (mkFrame (index f) order
        (map (fun r => map (fun n => nth n r dflt) ns) (values f))).

(** [f.reindex(columns=order, fill_value=v)] *)
Definition reindex_columns (order : list string) (v : V)
    (f : Frame I string V) : Frame I string V :=
  mkFrame (index f) order
    (map (fun r =>
            map (fun s => match position String.eqb s (columns f) with
                          | Some n => nth n r v
                          | None => v
                          end) order)
         (values f)).

(** [f.index = names]: the new labels must be as many as the rows, unless
    the frame has no column, and so no cell to keep in step with them *)
Definition set_index (J : Type) (names : list J) (f : Frame I string V)
    : result (Frame J string V) :=
  if (length names =? length (index f))%nat
  then Ok (mkFrame names (columns f) (values f))
  else match columns f with
       | [] => Ok (mkFrame names [] (map (fun _ => []) names))
       | _ :: _ => Raise ValueError
       end.
End Frames.

(** *** crosstab(rows, cols): counts of each (row value, column value)
    pair, over the values that occur, both in increasing order *)
Definition crosstab (rs : list Z) (cs : list string) : Frame Z string nat :=
  let idx := sorted_keys Z.compare rs in
  let cols := sorted_keys String.compare cs in
  let pairs := combine rs cs in
  mkFrame idx cols
    (map (fun r =>
            map (fun c =>
                   length (filter (fun p => Z.eqb (fst p) r
                                            && String.eqb (snd p) c) pairs))
                cols)
         idx).

(** *** iloc[i]: positional access, negative positions count from the end *)
Definition iloc (R : Type) (rows : list R) (i : Z) : result R :=
  let n := Z.of_nat (length rows) in
  let j := if (i <? 0)%Z then (i + n)%Z else i in
  if ((0 <=? j) && (j <? n))%Z
  then match nth_error rows (Z.to_nat j) with
       | Some r => Ok r
       | None => Raise IndexError
       end
  else Raise IndexError.

End Pandas.

(* ================================================================== *)
(** ** The dashboard script *)

Module App.
Import Pandas.

(** One line of the input file, without its timestamp.  A line has a
    label and a sentiment: the model takes files where the cells of these
    two columns are not empty. *)
Record Row : Type := mkRow {
  text : string;
  fake_news_label : Z;
  sentiment_label : string
}.

(** The loaded table.  The column [tweetcreatedts] is optional in the input
    file: a table either has it on every row or lacks it.  [T] is the type
    of its cells: the text read from the file, then a timestamp. *)
Inductive DataFrame (T : Type) : Type :=
| WithTimestamps (rows : list (Row * T))
| WithoutTimestamps (rows : list Row).

Arguments WithoutTimestamps {T} rows.

Definition records (T : Type) (df : DataFrame T) : list Row :=
  match df with
  | WithTimestamps rows => map fst rows
  | WithoutTimestamps rows => rows
  end.

Definition len (T : Type) (df : DataFrame T) : nat := length (records df).

(** ['tweetcreatedts' in df.columns] *)
Definition has_tweetcreatedts (T : Type) (df : DataFrame T) : bool :=
  match df with
  | WithTimestamps _ => true
  | WithoutTimestamps _ => false
  end.

(** *** Data loading

    [data] is what [read_csv] returned.  [to_datetime] is the parser of
    pandas: it reads the column as a whole (the format it settles on
    depends on all the cells), gives one timestamp per cell, NaT for an
    empty one, and raises on a column it cannot read. *)
Section Loader.
Variable to_datetime : list string -> result (list Z).

Definition load_data (data : DataFrame string) : result (DataFrame Z) :=
  match data with
  | WithTimestamps rows =>
      tweetcreatedts <- to_datetime (map snd rows) ;;
      Ok (WithTimestamps (combine (map fst rows) tweetcreatedts))
  | WithoutTimestamps rows => Ok (WithoutTimestamps rows)
  end.
End Loader.

(** *** 2. Distribution: Fake/Real and Sentiment *)
Definition label_order : list Z := [0%Z; 1%Z].
Definition label_names : list string := ["Real"%string; "Fake"%string].
Definition sent_order : list string :=
  ["Negative"%string; "Neutral"%string; "Positive"%string].

Definition label_counts (T : Type) (df : DataFrame T) : list (Z * nat) :=
  reindex Z.eqb label_order O
    (value_counts Z.eqb (map fake_news_label (records df))).

Definition sent_counts (T : Type) (df : DataFrame T) : list (string * nat) :=
  reindex String.eqb sent_order O
    (value_counts String.eqb (map sentiment_label (records df))).

(** *** 3. Rolling 4-week average *)
Record WeeklyAggregate : Type := mkWeekly {
  week : string;
  fake_news_rate : Qc;
  pos : Qc;
  neg : Qc;
  neu : Qc
}.

(** the frame with its added column "week": the period as text, missing
    where the timestamp is *)
Definition df_weekly_rolling (rows : list (Row * Z))
    : list (Row * option string) :=
  map (fun p => (fst p, cell_astype_str (dt_to_period_W (snd p)))) rows.

(** [(x == s).mean()] over a sentiment column *)
Definition share (s : string) (x : list Row) : Qc :=
  mean (map (fun r => Qc_of_bool (String.eqb (sentiment_label r) s)) x).

Definition agg (g : string * list (Row * string)) : WeeklyAggregate :=
  let x := map fst (snd g) in
  {| week := fst g;
     fake_news_rate := mean (map (fun r => Qc_of_Z (fake_news_label r)) x);
     pos := share "Positive" x;
     neg := share "Negative" x;
     neu := share "Neutral" x |}.

(** [groupby("week").agg(...).reset_index()]: the records without a week
    belong to no group; the others are grouped by the text of their week,
    the groups in increasing order of that text *)
Definition weekly (rows : list (Row * Z)) : list WeeklyAggregate :=
  map agg (groupby String.compare snd (dropna (df_weekly_rolling rows))).

Definition rolling_window : nat := 4.

(** The smoothed table, column by column. *)
Record Rolled : Type := mkRolled {
  r_week : list string;
  r_fake_news_rate : list (option Qc);
  r_pos : list (option Qc);
  r_neg : list (option Qc);
  r_neu : list (option Qc)
}.

(** [weekly[[...]].rolling(window, min_periods=1).mean()], one numeric
    column at a time, for a window pandas accepts (1 or more) *)
Definition rolling_numeric (window : nat) (w : list WeeklyAggregate)
    (field : WeeklyAggregate -> Qc) : list (option Qc) :=
  rolling_mean window 1 (map field w).

(** [pd.concat([weekly["week"], rolling_numeric], axis=1)]: the Smoother,
    for a given window *)
Definition smooth (window : nat) (w : list WeeklyAggregate) : Rolled :=
  {| r_week := map week w;
     r_fake_news_rate := rolling_numeric window w fake_news_rate;
     r_pos := rolling_numeric window w pos;
     r_neg := rolling_numeric window w neg;
     r_neu := rolling_numeric window w neu |}.

Definition weekly_rolled (rows : list (Row * Z)) : Rolled :=
  smooth rolling_window (weekly rows).

(** *** 4. Weekly sentiment proportion *)

(** the frame with its added column "week": the start of the period *)
Fixpoint df_weekly_stacked (rows : list (Row * Z))
    : result (list (Row * Z)) :=
  match rows with
  | [] => Ok []
  | p :: rows' =>
      t <- cell_start_time (dt_to_period_W (snd p)) ;;
      rest <- df_weekly_stacked rows' ;;
      Ok ((fst p, t) :: rest)
  end.

Definition weekly_stacked (rows : list (Row * Z))
    : result (Frame Z string Qc) :=
  stacked <- df_weekly_stacked rows ;;
  let counts :=
    map (fun g =>
           (fst g,
            value_counts_normalized String.eqb
              (map (fun p => sentiment_label (fst p)) (snd g))))
        (groupby Z.compare snd stacked) in
  let filled := fillna 0%Qc (unstack counts) in
  select_columns 0%Qc sent_order (ensure_columns sent_order 0%Qc filled).

(** *** 5. Confusion matrix: Fake/Real against sentiment *)
Definition conf_matrix (T : Type) (df : DataFrame T)
    : result (Frame string string nat) :=
  let ct := crosstab (map fake_news_label (records df))
                     (map sentiment_label (records df)) in
  named <- set_index label_names ct ;;
  Ok (reindex_columns sent_order O named).

(** *** 6. Emotional pulse: the count shown beside each sentiment *)
Definition pulse (T : Type) (df : DataFrame T) : list (string * nat) :=
  let sent_counts' :=
    value_counts String.eqb (map sentiment_label (records df)) in
  map (fun sent => (sent, get String.eqb sent sent_counts' O)) sent_order.

(** *** 7. Inspect example

    The slider is a widget of the page.  Streamlit first widens the two
    bounds until they are in order and hold the initial value.  The widget
    then returns its initial value until the reader moves it; [ui] is the
    position the session holds for it, if any, and a position outside the
    bounds is not kept: the widget goes back to its initial value. *)
Definition slider (min_value max_value value : Z) (ui : option Z) : Z :=
  let min_value1 := Z.min min_value max_value in
  let max_value1 := Z.max min_value1 max_value in
  let min_value2 := Z.min value min_value1 in
  let max_value2 := Z.max value max_value1 in
  match ui with
  | None => value
  | Some v =>
      if ((min_value2 <=? v) && (v <=? max_value2))%Z then v else value
  end.

Definition row_num (T : Type) (df : DataFrame T) (ui : option Z) : Z :=
  slider 0 (Z.of_nat (len df) - 1) 0 ui.

Definition row (T : Type) (df : DataFrame T) (ui : option Z) : result Row :=
  iloc (records df) (row_num df ui).

(** *** The whole page, top to bottom

    A section guarded by the presence of the timestamp column yields
    [None] when it is skipped.  An exception stops the script. *)
Record Views : Type := mkViews {
  fig_label : list (Z * nat);
  fig_sent : list (string * nat);
  fig3 : option Rolled;
  fig_stack : option (Frame Z string Qc);
  table5 : Frame string string nat;
  glyphs : list (string * nat);
  inspected : Row
}.

Definition section3 (df : DataFrame Z) : option Rolled :=
  match df with
  | WithTimestamps rows => Some (weekly_rolled rows)
  | WithoutTimestamps _ => None
  end.

Definition section4 (df : DataFrame Z)
    : result (option (Frame Z string Qc)) :=
  match df with
  | WithTimestamps rows => f <- weekly_stacked rows ;; Ok (Some f)
  | WithoutTimestamps _ => Ok None
  end.

Definition dashboard (df : DataFrame Z) (ui : option Z) : result Views :=
  let v_label := label_counts df in
  let v_sent := sent_counts df in
  let v3 := section3 df in
  v4 <- section4 df ;;
  v5 <- conf_matrix df ;;
  let v6 := pulse df in
  v7 <- row df ui ;;
  Ok (mkViews v_label v_sent v3 v4 v5 v6 v7).

End App.

(* ================================================================== *)
(** ** Specification-side definitions

    What the specification says of the Aggregator, the Smoother and the
    cross-tabulation, written from its words, and the vocabulary of the
    theorems: well-formed datasets, calendar weeks, scenarios. *)

(** *** Well-formed datasets *)

(** timestamps a [datetime64[ns]] column can hold, none of them missing *)
Definition timestamps_in_bounds (rows : list (App.Row * Z)) : Prop :=
  Forall (fun p => Pandas.in_bounds (snd p) = true) rows.

(** timestamps whose week starts at a midnight a timestamp can hold: what
    [start_time] asks for in section 4 *)
Definition week_starts_in_bounds (rows : list (App.Row * Z)) : Prop :=
  Forall (fun p =>
            Pandas.in_bounds (Pandas.start_ns (Pandas.to_period_W (snd p)))
            = true)
         rows.

(** labels 0 (real) or 1 (fake) *)
Definition binary_labels (x : list App.Row) : Prop :=
  Forall (fun r => App.fake_news_label r = 0%Z \/ App.fake_news_label r = 1%Z)
         x.

(** sentiments among Negative, Neutral, Positive *)
Definition known_sentiments (x : list App.Row) : Prop :=
  Forall (fun r => In (App.sentiment_label r) App.sent_order) x.

(** *** Calendar weeks *)

(** the weekly periods that hold a representable timestamp *)
Definition first_week : Z := -15249.
Definition last_week : Z := 15251.

(** day of the week of a day number, Monday being 0: day 0 is a Thursday *)
Definition weekday (day : Z) : Z := ((day + 3) mod 7)%Z.

(** the period of a row, and the periods of a frame in increasing order *)
Definition week_of (p : App.Row * Z) : Z := Pandas.to_period_W (snd p).

Definition weeks (rows : list (App.Row * Z)) : list Z :=
  Pandas.sorted_keys Z.compare (map week_of rows).

(** the calendar week of ordinal [o]: from its Monday at midnight up to the
    next Monday *)
Definition in_week (o t : Z) : bool :=
  ((Pandas.start_ns o <=? t) && (t <? Pandas.start_ns (o + 1)))%Z.

Definition week_records (o : Z) (rows : list (App.Row * Z)) : list App.Row :=
  map fst (filter (fun p => in_week o (snd p)) rows).

(** the texts of [n] consecutive periods after [o] increase, [prev] being
    the text of [o] *)
Fixpoint labels_increasing (n : nat) (o : Z) (prev : string) : bool :=
  match n with
  | O => true
  | S n' =>
      let cur := Pandas.period_str (o + 1) in
      String.ltb prev cur && labels_increasing n' (o + 1) cur
  end.

(** the order on keys that a comparison defines *)
Definition key_lt (K : Type) (cmp : K -> K -> comparison) (a b : K) : Prop :=
  cmp a b = Lt.

(** *** The Aggregator *)

(** Following the specification's words: the share of [n] records among
    [total]. *)
Definition proportion (n total : nat) : Qc :=
  (Qc_of_nat n / Qc_of_nat total)%Qc.

(** Following the specification's words: for the records [x] of a week,
    [fake_news_rate] is the count of records with label 1 over the count of
    records in the week, and [pos], [neg], [neu] are the proportions of the
    records with each sentiment. *)
Definition Aggregator_spec (o : Z) (x : list App.Row) : App.WeeklyAggregate :=
  let labels := map App.fake_news_label x in
  let sentiments := map App.sentiment_label x in
  {| App.week := Pandas.period_str o;
     App.fake_news_rate :=
       proportion (Pandas.count Z.eqb 1%Z labels) (length x);
     App.pos :=
       proportion (Pandas.count String.eqb "Positive"%string sentiments)
                  (length x);
     App.neg :=
       proportion (Pandas.count String.eqb "Negative"%string sentiments)
                  (length x);
     App.neu :=
       proportion (Pandas.count String.eqb "Neutral"%string sentiments)
                  (length x) |}.

(** The tolerance of the specification on sums of proportions. *)
Definition tolerance : Qc := Q2Qc 1e-9.

Definition within_tolerance (a b : Qc) : Prop :=
  (b - tolerance <= a /\ a <= b + tolerance)%Qc.

(** *** The Smoother *)

(** Following the specification's words: the arithmetic mean of the series
    over positions max(0, i-3)..i inclusive. *)
Definition Smoother_spec (xs : list Qc) (i : nat) : Qc :=
  let lo := Nat.max 0 (i - 3) in
  Pandas.mean (map (fun j => nth j xs 0%Qc) (seq lo (i - lo + 1))).

(** The weekly table read as a smoothed table: every value kept as it is. *)
Definition unsmoothed (w : list App.WeeklyAggregate) : App.Rolled :=
  {| App.r_week := map App.week w;
     App.r_fake_news_rate := map (fun a => Some (App.fake_news_rate a)) w;
     App.r_pos := map (fun a => Some (App.pos a)) w;
     App.r_neg := map (fun a => Some (App.neg a)) w;
     App.r_neu := map (fun a => Some (App.neu a)) w |}.

(** the positions of the window of the given width that ends just before
    position [k], and the values there *)
Definition window_positions (width k : nat) : list nat :=
  seq (k - width) (k - (k - width)).

Definition window_values (xs : list Qc) (width k : nat) : list Qc :=
  map (fun j => nth j xs 0%Qc) (window_positions width k).

(** a negative rational: the sign bit of the exact reading *)
Definition negative (q : Qc) : bool := Pandas.signbit Pandas.exact q.

(** What the variables of the sliding computation hold, over exact
    rationals, when the values [l] are in the window and the positions
    below [k] of the series [xs] have been read: the number, the sum and
    the number of negative values of [l], no compensation, and a run of
    values equal to the last one. *)
Definition roll_holds (xs l : list Qc) (k : nat)
    (st : Pandas.roll_state Pandas.exact) : Prop :=
  Pandas.nobs st = Z.of_nat (length l)
  /\ Pandas.sum_x st = Qc_sum l
  /\ Pandas.neg_ct st = Z.of_nat (length (filter negative l))
  /\ Pandas.compensation_add st = 0%Qc
  /\ Pandas.compensation_remove st = 0%Qc
  /\ (0 <= Pandas.num_consecutive_same_value st)%Z
  /\ (forall j,
        (Z.of_nat k - Pandas.num_consecutive_same_value st <= Z.of_nat j
         < Z.of_nat k)%Z ->
        nth j xs 0%Qc = Pandas.prev_value st).

(** the same once the window that ends just before position [k] is
    processed *)
Definition roll_inv (window : nat) (xs : list Qc) (k : nat)
    (st : Pandas.roll_state Pandas.exact) : Prop :=
  roll_holds xs (window_values xs window k) k st.

(** an equation between numbers of the exact reading is one between
    rationals *)
Ltac as_rational :=
  lazymatch goal with
  | |- @eq _ ?a ?b => change (@eq Qc a b)
  end.

Section Doubles.
Import PrimFloat.

(** two doubles less than the tolerance of the specification apart; a
    reported double that is so close to a stated one *)
Definition close_to (a b : float) : bool := (abs (a - b) <? 1e-9)%float.

Definition reported_close_to (v : option float) (b : float) : bool :=
  match v with
  | Some a => close_to a b
  | None => false
  end.
End Doubles.

(** *** The cross-tabulation *)

(** Following the specification's words: the number of records with a given
    label and a given sentiment. *)
Definition cell_count (l : Z) (s : string) (x : list App.Row) : nat :=
  length (filter (fun r => Z.eqb (App.fake_news_label r) l
                           && String.eqb (App.sentiment_label r) s) x).

(** Following the specification's words: the 2x3 table of counts, rows Real
    and Fake, columns Negative, Neutral, Positive. *)
Definition Crosstab_spec (x : list App.Row)
    : Pandas.Frame string string nat :=
  Pandas.mkFrame App.label_names App.sent_order
    (map (fun l => map (fun s => cell_count l s x) App.sent_order)
         App.label_order).

Definition table_total (I C : Type) (f : Pandas.Frame I C nat) : nat :=
  list_sum (map (@list_sum) (Pandas.values f)).

(** *** The stacked table *)

(** the frame of section 4 when every [start_time] succeeds *)
Definition stacked_rows (rows : list (App.Row * Z)) : list (App.Row * Z) :=
  map (fun p => (fst p, Pandas.start_ns (Pandas.to_period_W (snd p)))) rows.

(** the cell of a group under a column label, [d] standing for NaN *)
Definition cell (I V : Type) (d : V) (g : I * list (string * V))
    (c : string) : V :=
  Pandas.get String.eqb c (snd g) d.

(** the table of the groups [s] over the columns [cs] *)
Definition tabulate (I V : Type) (d : V) (s : list (I * list (string * V)))
    (cs : list string) : Pandas.Frame I string V :=
  Pandas.mkFrame (map fst s) cs (map (fun g => map (cell d g) cs) s).

(** the column labels that occur in some group, in increasing order *)
Definition all_keys (I V : Type) (s : list (I * list (string * V)))
    : list string :=
  Pandas.sorted_keys String.compare (flat_map (fun g => map fst (snd g)) s).

(** *** Scenarios *)

(** The scenario of the specification: five records in the week of Monday
    2021-01-04, from 09:00 on the Monday to the last second of the Sunday. *)
Definition scenario_rows : list (App.Row * Z) :=
  [ (App.mkRow "one" 1 "Positive", 1609750800000000000%Z);
    (App.mkRow "two" 0 "Negative", 1609804800000000000%Z);
    (App.mkRow "three" 1 "Positive", 1609977600000000000%Z);
    (App.mkRow "four" 0 "Neutral", 1610150400000000000%Z);
    (App.mkRow "five" 0 "Negative", 1610323199000000000%Z) ].

(** A dataset of real news only, and one of fake news only. *)
Definition all_real : App.DataFrame Z :=
  App.WithoutTimestamps [App.mkRow "only" 0 "Negative"].

Definition all_fake : App.DataFrame Z :=
  App.WithTimestamps
    [ (App.mkRow "first" 1 "Negative", 1609750800000000000%Z);
      (App.mkRow "second" 1 "Positive", 1609804800000000000%Z) ].

(** *** Further vocabulary *)

(** a record whose label is 0 or 1, a record whose sentiment is one of the
    three of [sent_order] *)
Definition binary_label (r : App.Row) : bool :=
  Z.eqb (App.fake_news_label r) 0 || Z.eqb (App.fake_news_label r) 1.

Definition known_sentiment (r : App.Row) : bool :=
  existsb (String.eqb (App.sentiment_label r)) App.sent_order.

(** a number between two bounds; a proportion is between 0 and 1 *)
Definition between (lo hi x : Qc) : Prop := (lo <= x /\ x <= hi)%Qc.


(** the records that have a timestamp, and the same with the text of
    their week beside them *)
Definition dated (rows : list (App.Row * Z)) : list (App.Row * Z) :=
  filter (fun p => negb (Pandas.isna (snd p))) rows.

Definition week_texts (rows : list (App.Row * Z))
    : list (App.Row * string) :=
  map (fun p => (fst p, Pandas.period_str (Pandas.to_period_W (snd p))))
      rows.

(** the sums of the columns of a table of counts with [n] columns *)
Definition column_sums (n : nat) (vals : list (list nat)) : list nat :=
  map (fun j => list_sum (map (fun r => nth j r O) vals)) (seq 0 n).

(** a table whose weeks, if it has timestamps, start at a midnight a
    timestamp can hold *)
Definition weeks_representable (df : App.DataFrame Z) : Prop :=
  match df with
  | App.WithTimestamps rows => week_starts_in_bounds rows
  | App.WithoutTimestamps _ => True
  end.

(** The file of [all_real] as [read_csv] returns it. *)
Definition all_real_as_read : App.DataFrame string :=
  App.WithoutTimestamps [App.mkRow "only" 0 "Negative"].

(** A dataset of no record at all, read from a file without the column
    [tweetcreatedts]. *)
Definition no_record : App.DataFrame Z := App.WithoutTimestamps [].

(** The scenario with two more records whose timestamp is missing. *)
Definition scenario_with_gaps : list (App.Row * Z) :=
  (App.mkRow "undated" 1 "Neutral", Pandas.NaT)
    :: scenario_rows ++ [(App.mkRow "lost" 0 "Positive", Pandas.NaT)].

(* ================================================================== *)
(** ** Facts on rationals, sums and means *)

Section RationalFacts.
Local Open Scope Qc_scope.

Lemma Qc_of_nat_0 : Qc_of_nat 0 = 0.
Proof. apply Qc_is_canon. reflexivity. Qed.

Lemma Qc_of_nat_S (n : nat) : Qc_of_nat (S n) = Qc_of_nat n + 1.
Proof.
  unfold Qc_of_nat, Qc_of_Z, Qcplus. apply Q2Qc_eq_iff.
  cbn [this Q2Qc]. rewrite Qred_correct, Nat2Z.inj_succ. unfold Z.succ.
  rewrite inject_Z_plus. reflexivity.
Qed.

Lemma Qc_of_nat_add (n m : nat) :
  Qc_of_nat (n + m) = Qc_of_nat n + Qc_of_nat m.
Proof.
  induction n as [|n IH]; simpl.
  - rewrite Qc_of_nat_0. ring.
  - rewrite !Qc_of_nat_S, IH. ring.
Qed.

Lemma Qc_of_nat_pos (n : nat) : (0 < n)%nat -> 0 < Qc_of_nat n.
Proof.
  intros H. unfold Qc_of_nat, Qc_of_Z, Qclt. cbn [this Q2Qc].
  rewrite !Qred_correct. unfold Qlt. simpl. lia.
Qed.

Lemma Qc_of_nat_nonzero (n : nat) : (0 < n)%nat -> Qc_of_nat n <> 0.
Proof.
  intros H E. apply Qc_of_nat_pos in H. rewrite E in H.
  exact (Qclt_not_le _ _ H (Qcle_refl _)).
Qed.

Lemma Qc_sum_app (xs ys : list Qc) :
  Qc_sum (xs ++ ys) = Qc_sum xs + Qc_sum ys.
Proof.
  induction xs as [|x xs IH]; simpl.
  - ring.
  - rewrite IH. ring.
Qed.

(** the sum of an indicator column is the number of rows it marks *)
Lemma Qc_sum_indicator (A : Type) (f : A -> bool) (xs : list A) :
  Qc_sum (map (fun a => Qc_of_bool (f a)) xs)
  = Qc_of_nat (length (filter f xs)).
Proof.
  induction xs as [|x xs IH]; simpl.
  - symmetry. apply Qc_of_nat_0.
  - rewrite IH. destruct (f x); simpl.
    + rewrite Qc_of_nat_S. ring.
    + ring.
Qed.

Lemma mean_indicator (A : Type) (f : A -> bool) (xs : list A) :
  Pandas.mean (map (fun a => Qc_of_bool (f a)) xs)
  = Qc_of_nat (length (filter f xs)) / Qc_of_nat (length xs).
Proof.
  unfold Pandas.mean. now rewrite Qc_sum_indicator, length_map.
Qed.

Lemma mean_singleton (x : Qc) : Pandas.mean [x] = x.
Proof.
  unfold Pandas.mean. simpl. rewrite Qc_of_nat_S, Qc_of_nat_0.
  field. discriminate.
Qed.
End RationalFacts.

(* ================================================================== *)
(** ** The rolling mean, whatever the arithmetic *)

Section RollingShape.
Import Pandas.
Variable A : Arith.

Lemma roll_loop_length (window minp : nat) (vals : list (num A))
    (st : roll_state A) (ixs : list nat) :
  length (roll_loop window minp vals st ixs) = length ixs.
Proof.
  revert st. induction ixs as [|i ixs IH]; intros st; cbn [roll_loop length].
  - reflexivity.
  - now rewrite IH.
Qed.

Lemma roll_mean_length (window minp : nat) (vals : list (num A)) :
  length (roll_mean A window minp vals) = length vals.
Proof. unfold roll_mean. now rewrite roll_loop_length, length_seq. Qed.

(** the first window is built afresh: the state before it is not read *)
Lemma roll_step_first (window : nat) (vals : list (num A))
    (st st' : roll_state A) :
  roll_step window vals st 0 = roll_step window vals st' 0.
Proof. reflexivity. Qed.

Lemma values_between_prefix (xs ys : list (num A)) (lo hi : nat) :
  (hi <= length xs)%nat ->
  values_between A (xs ++ ys) lo hi = values_between A xs lo hi.
Proof.
  intros H. unfold values_between. apply map_ext_in. intros j Hj.
  apply in_seq in Hj. unfold value_at. apply app_nth1. lia.
Qed.

(** a window that ends within a prefix of the series reads the prefix
    only *)
Lemma roll_step_prefix (w' : nat) (xs ys : list (num A))
    (st : roll_state A) (i : nat) :
  (i < length xs)%nat ->
  roll_step (S w') (xs ++ ys) st i = roll_step (S w') xs st i.
Proof.
  intros Hi. unfold roll_step, roll_setup, window_start, window_end.
  rewrite !values_between_prefix by lia.
  unfold value_at. rewrite app_nth1 by lia. reflexivity.
Qed.

Lemma roll_loop_prefix (w' minp : nat) (xs ys : list (num A))
    (st : roll_state A) (ixs : list nat) :
  Forall (fun i => (i < length xs)%nat) ixs ->
  roll_loop (S w') minp (xs ++ ys) st ixs = roll_loop (S w') minp xs st ixs.
Proof.
  intros H. revert st.
  induction H as [|i ixs Hi _ IH]; intros st; cbn [roll_loop].
  - reflexivity.
  - rewrite (roll_step_prefix w' xs ys st Hi). f_equal. apply IH.
Qed.

Lemma roll_loop_firstn (window minp : nat) (vals : list (num A))
    (st : roll_state A) (l1 l2 : list nat) :
  firstn (length l1) (roll_loop window minp vals st (l1 ++ l2))
  = roll_loop window minp vals st l1.
Proof.
  revert st. induction l1 as [|i l1 IH]; intros st;
    cbn [app roll_loop length firstn].
  - reflexivity.
  - f_equal. apply IH.
Qed.

(** values appended to the series leave the earlier outputs as they are:
    the rolling mean never looks ahead, rounding or not *)
Lemma roll_mean_prefix (w' minp : nat) (xs ys : list (num A)) :
  firstn (length xs) (roll_mean A (S w') minp (xs ++ ys))
  = roll_mean A (S w') minp xs.
Proof.
  unfold roll_mean. rewrite length_app, seq_app.
  pose proof (roll_loop_firstn (S w') minp (xs ++ ys)
                (roll_setup A (xs ++ ys) 0) (seq 0 (length xs))
                (seq (0 + length xs) (length ys))) as E.
  rewrite length_seq in E. rewrite E. clear E.
  destruct xs as [|x xs']; [reflexivity|].
  cbn [length seq roll_loop].
  rewrite (roll_step_first (S w') ((x :: xs') ++ ys)
             (roll_setup A ((x :: xs') ++ ys) 0) (roll_setup A (x :: xs') 0)).
  rewrite (roll_step_prefix w' (x :: xs') ys); [|cbn [length]; lia].
  f_equal. apply roll_loop_prefix.
  apply Forall_forall. intros i Hi. apply in_seq in Hi. cbn [length]. lia.
Qed.
End RollingShape.

(* ================================================================== *)
(** ** The rolling mean over exact rationals *)

Section ExactArithmetic.
Import Pandas.
Local Open Scope Qc_scope.

Lemma exact_eqb_refl (v : Qc) : num_eqb exact v v = true.
Proof. apply Qeq_bool_refl. Qed.

Lemma exact_eqb_true (a b : Qc) : num_eqb exact a b = true -> a = b.
Proof. intros H. apply Qc_is_canon, Qeq_bool_eq, H. Qed.

Lemma exact_ltb_true (a b : Qc) : num_ltb exact a b = true <-> a < b.
Proof.
  cbn [num_ltb exact]. rewrite negb_true_iff. split.
  - intros H. apply Qcnot_le_lt. intros Hle.
    apply (proj2 (Qle_bool_iff b a)) in Hle. congruence.
  - intros H. apply not_true_is_false. intros Hle.
    apply Qle_bool_iff in Hle. exact (Qclt_not_le _ _ H Hle).
Qed.

Lemma negative_true (v : Qc) : negative v = true <-> v < 0.
Proof. apply (exact_ltb_true v 0). Qed.

Lemma negative_false (v : Qc) : negative v = false <-> 0 <= v.
Proof.
  rewrite <- not_true_iff_false, negative_true. split.
  - apply Qcnot_lt_le.
  - intros H H'. exact (Qclt_not_le _ _ H' H).
Qed.

Lemma Qc_sum_nonneg (l : list Qc) :
  Forall (fun v => 0 <= v) l -> 0 <= Qc_sum l.
Proof.
  induction 1 as [|v l Hv _ IH]; cbn [Qc_sum]; [apply Qcle_refl|].
  replace 0 with (0 + 0) by ring. now apply Qcplus_le_compat.
Qed.

Lemma Qc_sum_nonpos (l : list Qc) :
  Forall (fun v => v <= 0) l -> Qc_sum l <= 0.
Proof.
  induction 1 as [|v l Hv _ IH]; cbn [Qc_sum]; [apply Qcle_refl|].
  replace 0 with (0 + 0) by ring. now apply Qcplus_le_compat.
Qed.

Lemma mean_times_length (l : list Qc) :
  l <> [] -> mean l * Qc_of_nat (length l) = Qc_sum l.
Proof.
  intros Hne. unfold mean. field. apply Qc_of_nat_nonzero.
  destruct l; [congruence|cbn [length]; lia].
Qed.

Lemma mean_sign (l : list Qc) :
  l <> [] ->
  (0 <= Qc_sum l -> 0 <= mean l) /\ (Qc_sum l <= 0 -> mean l <= 0).
Proof.
  intros Hne.
  assert (Hpos : 0 < Qc_of_nat (length l)).
  { apply Qc_of_nat_pos. destruct l; [congruence|cbn [length]; lia]. }
  pose proof (mean_times_length Hne) as E.
  split; intros H; apply (Qcmult_lt_0_le_reg_r _ _ _ Hpos); rewrite E;
    now replace (0 * Qc_of_nat (length l)) with 0 by ring.
Qed.

Lemma mean_of_equal (p : Qc) (l : list Qc) :
  l <> [] -> Forall (fun v => v = p) l -> mean l = p.
Proof.
  intros Hne H.
  assert (E : Qc_sum l = Qc_of_nat (length l) * p).
  { clear Hne. induction H as [|v l -> _ IH]; cbn [Qc_sum length].
    - rewrite Qc_of_nat_0. ring.
    - rewrite IH, Qc_of_nat_S. ring. }
  unfold mean. rewrite E. field. apply Qc_of_nat_nonzero.
  destruct l; [congruence|cbn [length]; lia].
Qed.

Lemma filter_all (A : Type) (p : A -> bool) (x : list A) :
  Forall (fun a => p a = true) x -> filter p x = x.
Proof.
  induction 1 as [|a x Ha _ IH]; cbn [filter]; [reflexivity|].
  now rewrite Ha, IH.
Qed.

Lemma filter_none (B : Type) (p : B -> bool) (l : list B) :
  length (filter p l) = O -> Forall (fun b => p b = false) l.
Proof.
  induction l as [|b l IH]; cbn [filter]; [constructor|].
  destruct (p b) eqn:E; cbn [length]; [discriminate|].
  intros H. constructor; auto.
Qed.

Lemma filter_every (B : Type) (p : B -> bool) (l : list B) :
  length (filter p l) = length l -> Forall (fun b => p b = true) l.
Proof.
  induction l as [|b l IH]; cbn [filter]; [constructor|].
  pose proof (filter_length_le p l) as Hle.
  destruct (p b) eqn:E; cbn [length]; intros H.
  - constructor; [exact E|]. apply IH. lia.
  - lia.
Qed.

(** *** One value added, one value removed *)

Lemma add_mean_exact (st : roll_state exact) (v : Qc) :
  compensation_add st = 0 ->
  add_mean st v
  = mkRoll exact (nobs st + 1) (sum_x st + v)
      (if negative v then neg_ct st + 1 else neg_ct st)%Z
      0 (compensation_remove st)
      (if num_eqb exact v (prev_value st)
       then num_consecutive_same_value st + 1 else 1)%Z
      v.
Proof.
  intros H. unfold add_mean. rewrite exact_eqb_refl, H.
  unfold negative. cbn [num_sub num_add exact].
  f_equal; as_rational; ring.
Qed.

Lemma remove_mean_exact (st : roll_state exact) (v : Qc) :
  compensation_remove st = 0 ->
  remove_mean st v
  = mkRoll exact (nobs st - 1) (sum_x st - v)
      (if negative v then neg_ct st - 1 else neg_ct st)%Z
      (compensation_add st) 0
      (num_consecutive_same_value st) (prev_value st).
Proof.
  intros H. unfold remove_mean. rewrite exact_eqb_refl, H.
  unfold negative. cbn [num_sub num_add num_neg exact].
  f_equal; as_rational; ring.
Qed.

Variable xs : list Qc.

Lemma roll_setup_holds (s k : nat) : roll_holds xs [] k (roll_setup exact xs s).
Proof.
  unfold roll_holds, roll_setup.
  cbn [nobs sum_x neg_ct compensation_add compensation_remove
       num_consecutive_same_value prev_value length filter Qc_sum].
  repeat split; try reflexivity. intros j Hj. lia.
Qed.

Lemma add_mean_holds (l : list Qc) (k : nat) (st : roll_state exact) :
  roll_holds xs l k st ->
  roll_holds xs (l ++ [nth k xs 0]) (S k) (add_mean st (nth k xs 0)).
Proof.
  intros (Hn & Hs & Hg & Ha & Hr & Hc & Hp).
  rewrite (add_mean_exact st _ Ha). unfold roll_holds.
  cbn [nobs sum_x neg_ct compensation_add compensation_remove
       num_consecutive_same_value prev_value].
  rewrite length_app, filter_app, length_app, Qc_sum_app.
  cbn [length filter Qc_sum].
  split; [rewrite Hn; lia|]. split; [rewrite Hs; as_rational; ring|].
  split; [rewrite Hg; destruct (negative (nth k xs 0)); cbn [length]; lia|].
  split; [reflexivity|]. split; [exact Hr|].
  destruct (num_eqb exact (nth k xs 0) (prev_value st)) eqn:E.
  - apply exact_eqb_true in E. split; [lia|].
    intros j Hj. destruct (Nat.eq_dec j k) as [->|Hne]; [reflexivity|].
    rewrite E. apply Hp. lia.
  - split; [lia|]. intros j Hj. f_equal. lia.
Qed.

Lemma remove_mean_holds (v : Qc) (l : list Qc) (k : nat)
    (st : roll_state exact) :
  roll_holds xs (v :: l) k st -> roll_holds xs l k (remove_mean st v).
Proof.
  intros (Hn & Hs & Hg & Ha & Hr & Hc & Hp).
  rewrite (remove_mean_exact st _ Hr). unfold roll_holds.
  cbn [nobs sum_x neg_ct compensation_add compensation_remove
       num_consecutive_same_value prev_value].
  cbn [length filter Qc_sum] in Hn, Hs, Hg.
  split; [rewrite Hn; lia|]. split; [rewrite Hs; as_rational; ring|].
  split; [rewrite Hg; destruct (negative v); cbn [length]; lia|].
  split; [exact Ha|]. split; [reflexivity|]. split; [exact Hc|exact Hp].
Qed.
End ExactArithmetic.

Section ExactWindows.
Import Pandas.
Local Open Scope Qc_scope.

Variables (w' : nat) (xs : list Qc).
Let window : nat := S w'.

Lemma window_length (k : nat) :
  length (window_values xs window k) = Nat.min k window.
Proof.
  unfold window_values, window_positions.
  rewrite length_map, length_seq. lia.
Qed.

Lemma values_between_exact (lo hi : nat) :
  values_between exact xs lo hi
  = map (fun j => nth j xs 0) (seq lo (hi - lo)).
Proof. reflexivity. Qed.

(** the window that ends at the first position, and every window of
    width 1, holds one value *)
Lemma window_single (k : nat) :
  (k = 0 \/ window = 1)%nat ->
  window_start window k = k
  /\ window_values xs window (S k) = [nth k xs 0].
Proof.
  unfold window_start, window_values, window_positions.
  intros [-> | E].
  - unfold window. replace (1 - S w')%nat with O by lia.
    split; reflexivity.
  - rewrite E. replace (S k - 1)%nat with k by lia.
    replace (S k - k)%nat with 1%nat by lia. split; reflexivity.
Qed.

(** while the window is not full it grows by the value read *)
Lemma window_grows (k : nat) :
  (k < window)%nat ->
  window_values xs window (S k)
  = window_values xs window k ++ [nth k xs 0].
Proof.
  intros H. unfold window_values, window_positions.
  replace (S k - window)%nat with O by lia.
  replace (k - window)%nat with O by lia.
  rewrite !Nat.sub_0_r. replace (S k) with (k + 1)%nat by lia.
  rewrite seq_app, map_app. reflexivity.
Qed.

(** once it is full it loses its first value and gains the value read *)
Lemma window_slides (k : nat) :
  (window <= k)%nat ->
  exists l,
    window_values xs window k = nth (k - window) xs 0 :: l
    /\ window_values xs window (S k) = l ++ [nth k xs 0].
Proof.
  intros H. unfold window_values, window_positions.
  exists (map (fun j => nth j xs 0) (seq (S (k - window)) w')).
  replace (k - (k - window))%nat with (S w') by (unfold window in *; lia).
  replace (S k - window)%nat with (S (k - window)) by lia.
  replace (S k - S (k - window))%nat with (w' + 1)%nat
    by (unfold window in *; lia).
  split; [reflexivity|].
  rewrite seq_app, map_app. cbn [seq map].
  replace (S (k - window) + w')%nat with k by (unfold window in *; lia).
  reflexivity.
Qed.

(** one turn of the loop keeps the variables in step with the window *)
Lemma roll_step_inv (k : nat) (st : roll_state exact) :
  k = O \/ roll_inv window xs k st ->
  roll_inv window xs (S k) (@roll_step exact window xs st k).
Proof.
  intros H. unfold roll_inv, roll_step, window_end.
  destruct ((k =? 0)%nat || (S (k - 1) <=? window_start window k)%nat)
    eqn:Efresh.
  - assert (Hone : (k = 0 \/ window = 1)%nat).
    { apply orb_true_iff in Efresh. destruct Efresh as [E|E].
      - left. now apply Nat.eqb_eq.
      - apply Nat.leb_le in E. unfold window_start in E.
        unfold window in *. lia. }
    destruct (window_single Hone) as [Es Ew]. rewrite Es, Ew.
    rewrite values_between_exact.
    replace (S k - k)%nat with 1%nat by lia. cbn [seq map fold_left].
    apply (add_mean_holds (xs := xs) (l := [])), roll_setup_holds.
  - apply orb_false_iff in Efresh. destruct Efresh as [E0 Ew].
    apply Nat.eqb_neq in E0. apply Nat.leb_gt in Ew.
    destruct H as [H|H]; [contradiction|].
    unfold roll_inv in H. unfold window_start in *.
    rewrite !values_between_exact.
    replace (S (k - 1)) with k in * by lia.
    replace (S k - k)%nat with 1%nat by lia. cbn [seq map fold_left].
    destruct (Nat.lt_ge_cases k window) as [Hlt|Hge].
    + replace (S k - window - (k - window))%nat with O by lia.
      cbn [seq map fold_left]. rewrite (window_grows Hlt).
      now apply add_mean_holds.
    + replace (S k - window - (k - window))%nat with 1%nat by lia.
      cbn [seq map fold_left].
      destruct (window_slides Hge) as [l [E1 E2]]. rewrite E2.
      rewrite E1 in H. apply add_mean_holds.
      now apply remove_mean_holds.
Qed.

(** and with [min_periods=1] the value reported for a window is its
    mean *)
Lemma calc_mean_inv (k : nat) (st : roll_state exact) :
  roll_inv window xs (S k) st ->
  calc_mean 1 st = Some (mean (window_values xs window (S k))).
Proof.
  intros (Hn & Hs & Hg & Ha & Hr & Hc & Hp).
  pose proof (window_length (S k)) as Hlen.
  set (l := window_values xs window (S k)) in *.
  assert (Hne : l <> []).
  { intros E. rewrite E in Hlen. cbn [length] in Hlen.
    unfold window in Hlen. lia. }
  destruct (mean_sign Hne) as [Hnonneg Hnonpos].
  unfold calc_mean. rewrite Hn.
  destruct (Z.leb_spec (Z.of_nat 1) (Z.of_nat (length l))) as [_|Hbad];
    [|lia].
  destruct (Z.ltb_spec 0 (Z.of_nat (length l))) as [_|Hbad]; [|lia].
  cbn [andb]. f_equal.
  assert (Er : num_div exact (sum_x st) (num_of_Z exact (Z.of_nat (length l)))
               = mean l).
  { rewrite Hs. reflexivity. }
  rewrite Er.
  destruct (Z.leb_spec (Z.of_nat (length l)) (num_consecutive_same_value st))
    as [Hrun|_].
  - symmetry. apply mean_of_equal; [exact Hne|].
    apply Forall_forall. intros v Hv. unfold l, window_values in Hv.
    apply in_map_iff in Hv. destruct Hv as [j [<- Hj]].
    unfold window_positions in Hj. apply in_seq in Hj.
    apply Hp. change (num exact) with Qc in *. unfold window in *. lia.
  - destruct ((neg_ct st =? 0)%Z && num_ltb exact (mean l) (num_zero exact))
      eqn:Eneg.
    { exfalso. apply andb_true_iff in Eneg. destruct Eneg as [E0 Elt].
      apply Z.eqb_eq in E0. apply exact_ltb_true in Elt.
      rewrite Hg in E0.
      assert (Hall : Forall (fun v => 0 <= v) l).
      { eapply Forall_impl; [|apply (filter_none negative); lia].
        intros v Hv. now apply negative_false. }
      exact (Qclt_not_le _ _ Elt (Hnonneg (Qc_sum_nonneg Hall))). }
    destruct ((neg_ct st =? Z.of_nat (length l))%Z
              && num_ltb exact (num_zero exact) (mean l)) eqn:Epos.
    { exfalso. apply andb_true_iff in Epos. destruct Epos as [E0 Elt].
      apply Z.eqb_eq in E0. apply exact_ltb_true in Elt.
      rewrite Hg in E0.
      assert (Hall : Forall (fun v => v <= 0) l).
      { eapply Forall_impl; [|apply (filter_every negative); lia].
        intros v Hv. apply Qclt_le_weak. now apply negative_true. }
      exact (Qclt_not_le _ _ Elt (Hnonpos (Qc_sum_nonpos Hall))). }
    reflexivity.
Qed.

Lemma roll_loop_inv (n a : nat) (st : roll_state exact) :
  a = O \/ roll_inv window xs a st ->
  @roll_loop exact window 1 xs st (seq a n)
  = map (fun i => Some (mean (window_values xs window (S i)))) (seq a n).
Proof.
  revert a st. induction n as [|n IH]; intros a st H;
    cbn [seq roll_loop map]; [reflexivity|].
  pose proof (roll_step_inv H) as Hinv.
  rewrite (calc_mean_inv Hinv). f_equal. apply IH. now right.
Qed.
End ExactWindows.

Section RollingMinOne.
Import Pandas.
Local Open Scope Qc_scope.

Lemma rolling_mean_windows (w' : nat) (xs : list Qc) :
  rolling_mean (S w') 1 xs
  = map (fun i => Some (mean (window_values xs (S w') (S i))))
        (seq 0 (length xs)).
Proof.
  unfold rolling_mean, roll_mean. apply roll_loop_inv. now left.
Qed.

Lemma window_4_spec (xs : list Qc) (i : nat) :
  mean (window_values xs 4 (S i)) = Smoother_spec xs i.
Proof.
  unfold Smoother_spec, window_values, window_positions.
  rewrite Nat.max_0_l.
  replace (S i - 4)%nat with (i - 3)%nat by lia.
  replace (S i - (i - 3))%nat with (i - (i - 3) + 1)%nat by lia.
  reflexivity.
Qed.

Lemma rolling_mean_4_spec (xs : list Qc) :
  rolling_mean 4 1 xs
  = map (fun i => Some (Smoother_spec xs i)) (seq 0 (length xs)).
Proof.
  rewrite rolling_mean_windows. apply map_ext. intros i.
  now rewrite window_4_spec.
Qed.

Lemma rolling_mean_length (window minp : nat) (xs : list Qc) :
  length (rolling_mean window minp xs) = length xs.
Proof. exact (roll_mean_length exact window minp xs). Qed.

Lemma map_nth_positions (A : Type) (d : A) (l : list A) :
  map (fun i => nth i l d) (seq 0 (length l)) = l.
Proof.
  induction l as [|a l IH]; cbn [length seq map nth].
  - reflexivity.
  - f_equal. rewrite <- seq_shift, map_map. exact IH.
Qed.

Lemma rolling_mean_window_1 (xs : list Qc) :
  rolling_mean 1 1 xs = map Some xs.
Proof.
  rewrite rolling_mean_windows.
  rewrite <- (map_nth_positions 0 xs) at 2. rewrite map_map.
  apply map_ext. intros i. f_equal.
  unfold window_values, window_positions.
  replace (S i - 1)%nat with i by lia.
  replace (S i - i)%nat with 1%nat by lia.
  cbn [seq map]. apply mean_singleton.
Qed.

Lemma rolling_mean_head (w' : nat) (x : Qc) (xs : list Qc) :
  hd_error (rolling_mean (S w') 1 (x :: xs)) = Some (Some x).
Proof.
  rewrite rolling_mean_windows. cbn [length seq map hd_error].
  do 2 f_equal. apply mean_singleton.
Qed.

(** values appended to the series leave the earlier outputs as they are *)
Lemma rolling_mean_prefix (w' : nat) (xs ys : list Qc) :
  firstn (length xs) (rolling_mean (S w') 1 (xs ++ ys))
  = rolling_mean (S w') 1 xs.
Proof.
  rewrite !rolling_mean_windows, length_app, seq_app, map_app.
  rewrite firstn_app, length_map, length_seq, Nat.sub_diag, firstn_O.
  rewrite app_nil_r.
  rewrite firstn_all2 by (rewrite length_map, length_seq; lia).
  apply map_ext_in. intros i Hi. apply in_seq in Hi. do 2 f_equal.
  unfold window_values, window_positions.
  apply map_ext_in. intros j Hj. apply in_seq in Hj.
  apply app_nth1. lia.
Qed.
End RollingMinOne.

(* ================================================================== *)
(** ** Sorted group-by *)

Section KeyInclusion.
Import Pandas.
Variables (K1 : Type) (cmp1 : K1 -> K1 -> comparison).

Lemma insert_key_incl (k x : K1) (ks : list K1) :
  In x (insert_key cmp1 k ks) -> x = k \/ In x ks.
Proof.
  induction ks as [|k' ks IH]; cbn [insert_key].
  - intros [H|[]]; auto.
  - destruct (cmp1 k k'); cbn [In]; intuition auto.
Qed.

Lemma sorted_keys_incl (x : K1) (ks : list K1) :
  In x (sorted_keys cmp1 ks) -> In x ks.
Proof.
  induction ks as [|k ks IH]; cbn [sorted_keys fold_right]; [auto|].
  intros H. apply insert_key_incl in H. cbn [In]. intuition auto.
Qed.
End KeyInclusion.

Section KeyTransfer.
Import Pandas.
Variables (K1 K2 : Type).
Variables (cmp1 : K1 -> K1 -> comparison) (cmp2 : K2 -> K2 -> comparison).
Variable f : K1 -> K2.

(** a relabelling of the keys that keeps their comparisons keeps the order
    of the groups *)
Lemma insert_key_map (k : K1) (ks : list K1) :
  (forall b, In b ks -> cmp2 (f k) (f b) = cmp1 k b) ->
  map f (insert_key cmp1 k ks) = insert_key cmp2 (f k) (map f ks).
Proof.
  induction ks as [|k' ks IH]; intros H; cbn [insert_key map].
  - reflexivity.
  - rewrite (H k' (or_introl eq_refl)).
    destruct (cmp1 k k'); cbn [map]; try reflexivity.
    f_equal. apply IH. intros b Hb. apply H. now right.
Qed.

Lemma sorted_keys_map (ks : list K1) :
  (forall a b, In a ks -> In b ks -> cmp2 (f a) (f b) = cmp1 a b) ->
  map f (sorted_keys cmp1 ks) = sorted_keys cmp2 (map f ks).
Proof.
  induction ks as [|k ks IH]; intros H; cbn [sorted_keys fold_right map].
  - reflexivity.
  - fold (sorted_keys cmp1 ks). fold (sorted_keys cmp2 (map f ks)).
    rewrite <- IH by (intros a b Ha Hb; apply H; now right).
    apply insert_key_map. intros b Hb. apply H; [now left|].
    right. now apply (@sorted_keys_incl _ cmp1).
Qed.

Lemma groupby_relabel (R : Type) (key : R -> K1) (rows : list R) :
  (forall a b, In a rows -> In b rows ->
     cmp2 (f (key a)) (f (key b)) = cmp1 (key a) (key b)) ->
  groupby cmp2 (fun r => f (key r)) rows
  = map (fun g => (f (fst g), snd g)) (groupby cmp1 key rows).
Proof.
  intros H. unfold groupby.
  assert (Hk : forall a b, In a (map key rows) -> In b (map key rows) ->
                 cmp2 (f a) (f b) = cmp1 a b).
  { intros a b Ha Hb. apply in_map_iff in Ha, Hb.
    destruct Ha as [ra [<- Ha]], Hb as [rb [<- Hb]]. now apply H. }
  rewrite <- (map_map key f).
  rewrite <- (@sorted_keys_map (map key rows) Hk), !map_map.
  apply map_ext_in. intros k Hin. cbn [fst snd]. f_equal.
  apply filter_ext_in. intros r Hr. unfold same_key.
  rewrite Hk; [reflexivity|now apply in_map|].
  now apply (@sorted_keys_incl _ cmp1).
Qed.
End KeyTransfer.

Section GroupByFacts.
Import Pandas.
Variables (K : Type) (cmp : K -> K -> comparison).

(** grouping a frame after a column was rewritten row by row *)
Lemma groupby_map (R S : Type) (h : R -> S) (key : S -> K) (rows : list R) :
  groupby cmp key (map h rows)
  = map (fun g => (fst g, map h (snd g)))
        (groupby cmp (fun r => key (h r)) rows).
Proof.
  unfold groupby. rewrite !map_map. apply map_ext. intros k.
  cbn [fst snd]. f_equal.
  induction rows as [|r rows IH]; cbn [map filter]; [reflexivity|].
  destruct (same_key cmp (key (h r)) k); cbn [map]; now rewrite IH.
Qed.

Hypothesis cmp_eq : forall a b, cmp a b = Eq <-> a = b.
Hypothesis cmp_antisym : forall a b, cmp b a = CompOpp (cmp a b).
Hypothesis cmp_trans :
  forall a b c, cmp a b = Lt -> cmp b c = Lt -> cmp a c = Lt.

Lemma same_key_true (a b : K) : same_key cmp a b = true <-> a = b.
Proof.
  unfold same_key. rewrite <- cmp_eq.
  destruct (cmp a b); split; intros; congruence.
Qed.

Lemma insert_key_In (k x : K) (ks : list K) :
  In x (insert_key cmp k ks) <-> x = k \/ In x ks.
Proof.
  split; [apply (@insert_key_incl _ cmp)|].
  induction ks as [|k' ks IH]; cbn [insert_key In].
  - intuition auto.
  - destruct (cmp k k') eqn:E; cbn [In].
    + apply cmp_eq in E. subst k'. intuition auto.
    + intuition auto.
    + intuition auto.
Qed.

Lemma sorted_keys_In (x : K) (ks : list K) :
  In x (sorted_keys cmp ks) <-> In x ks.
Proof.
  induction ks as [|k ks IH]; cbn [sorted_keys fold_right In]; [tauto|].
  fold (sorted_keys cmp ks). rewrite insert_key_In, IH. intuition auto.
Qed.

Lemma insert_key_sorted (k : K) (ks : list K) :
  StronglySorted (key_lt cmp) ks ->
  StronglySorted (key_lt cmp) (insert_key cmp k ks).
Proof.
  induction ks as [|k' ks IH]; intros Hs; cbn [insert_key].
  - repeat constructor.
  - inversion Hs as [|? ? Hs' Hall]; subst.
    destruct (cmp k k') eqn:E.
    + exact Hs.
    + constructor; [exact Hs|]. constructor; [exact E|].
      eapply Forall_impl; [|exact Hall]. intros c Hc.
      exact (cmp_trans E Hc).
    + constructor; [now apply IH|].
      apply Forall_forall. intros x Hx. apply insert_key_In in Hx.
      destruct Hx as [->|Hx].
      * unfold key_lt. rewrite cmp_antisym, E. reflexivity.
      * rewrite Forall_forall in Hall. now apply Hall.
Qed.

Lemma sorted_keys_sorted (ks : list K) :
  StronglySorted (key_lt cmp) (sorted_keys cmp ks).
Proof.
  induction ks as [|k ks IH]; cbn [sorted_keys fold_right].
  - constructor.
  - now apply insert_key_sorted.
Qed.

Lemma key_lt_irrefl (a : K) : ~ key_lt cmp a a.
Proof.
  unfold key_lt. intros H.
  assert (E : cmp a a = Eq) by now apply cmp_eq. congruence.
Qed.

Lemma sorted_NoDup (ks : list K) : StronglySorted (key_lt cmp) ks -> NoDup ks.
Proof.
  induction 1 as [|k ks Hs IH Hall]; constructor; [|exact IH].
  intros Hin. rewrite Forall_forall in Hall.
  exact (key_lt_irrefl (Hall _ Hin)).
Qed.

Lemma sorted_keys_NoDup (ks : list K) : NoDup (sorted_keys cmp ks).
Proof. apply sorted_NoDup, sorted_keys_sorted. Qed.

(** the keys of the groups, and what a group holds *)
Lemma groupby_keys (R : Type) (key : R -> K) (rows : list R) :
  map fst (groupby cmp key rows) = sorted_keys cmp (map key rows).
Proof. unfold groupby. rewrite map_map. cbn [fst]. apply map_id. Qed.

Lemma groupby_In (R : Type) (key : R -> K) (rows : list R)
    (g : K * list R) :
  In g (groupby cmp key rows) ->
  snd g = filter (fun r => same_key cmp (key r) (fst g)) rows
  /\ exists r, In r rows /\ key r = fst g.
Proof.
  unfold groupby. intros H. apply in_map_iff in H.
  destruct H as [k [<- Hk]]. cbn [fst snd]. split; [reflexivity|].
  apply sorted_keys_In, in_map_iff in Hk.
  destruct Hk as [r [E Hr]]. eauto.
Qed.

(** no group is empty: the means taken over groups never divide by zero *)
Lemma groupby_group_nonempty (R : Type) (key : R -> K) (rows : list R)
    (g : K * list R) :
  In g (groupby cmp key rows) -> snd g <> [].
Proof.
  intros H. apply groupby_In in H. destruct H as [E [r [Hr Hk]]].
  intros Hnil. rewrite Hnil in E.
  assert (Hin : In r (filter (fun r => same_key cmp (key r) (fst g)) rows)).
  { apply filter_In. split; [exact Hr|]. now apply same_key_true. }
  rewrite <- E in Hin. exact Hin.
Qed.
End GroupByFacts.

(* ================================================================== *)
(** ** Order of strings *)

Section StringOrder.
Lemma ascii_compare_lt_trans (a b c : ascii) :
  Ascii.compare a b = Lt -> Ascii.compare b c = Lt -> Ascii.compare a c = Lt.
Proof.
  unfold Ascii.compare. rewrite !N.compare_lt_iff. apply N.lt_trans.
Qed.

Lemma string_compare_refl (s : string) : String.compare s s = Eq.
Proof.
  induction s as [|a s IH]; cbn [String.compare]; [reflexivity|].
  unfold Ascii.compare. now rewrite N.compare_refl.
Qed.

Lemma string_compare_eq_iff (a b : string) :
  String.compare a b = Eq <-> a = b.
Proof.
  split; [apply String.compare_eq_iff|].
  intros ->. apply string_compare_refl.
Qed.

Lemma string_compare_antisym (a b : string) :
  String.compare b a = CompOpp (String.compare a b).
Proof. apply String.compare_antisym. Qed.

Lemma string_compare_lt_trans (a b c : string) :
  String.compare a b = Lt -> String.compare b c = Lt ->
  String.compare a c = Lt.
Proof.
  revert b c. induction a as [|x a IH]; intros [|y b] [|z c];
    cbn [String.compare]; try congruence.
  destruct (Ascii.compare x y) eqn:Exy; try discriminate.
  - apply Ascii.compare_eq_iff in Exy. subst y.
    destruct (Ascii.compare x z); try congruence. apply IH.
  - destruct (Ascii.compare y z) eqn:Eyz; try discriminate.
    + apply Ascii.compare_eq_iff in Eyz. subst z. now rewrite Exy.
    + now rewrite (ascii_compare_lt_trans _ _ _ Exy Eyz).
Qed.

Lemma string_same_key (a b : string) :
  Pandas.same_key String.compare a b = String.eqb a b.
Proof.
  unfold Pandas.same_key.
  destruct (String.eqb_spec a b) as [->|Hne].
  - now rewrite string_compare_refl.
  - destruct (String.compare a b) eqn:E; try reflexivity.
    now apply String.compare_eq_iff in E.
Qed.
End StringOrder.

(* ================================================================== *)
(** ** Weekly periods *)

Section PeriodFacts.
Import Pandas.
Local Open Scope Z_scope.

Lemma to_period_W_bounds (t : Z) :
  in_bounds t = true -> first_week <= to_period_W t <= last_week.
Proof.
  unfold in_bounds. rewrite andb_true_iff, !Z.leb_le. intros [Hlo Hhi].
  unfold to_period_W, unix_date, first_week, last_week.
  assert (H1 : Timestamp_min / ns_per_day <= t / ns_per_day)
    by (apply Z.div_le_mono; [reflexivity|exact Hlo]).
  assert (H2 : t / ns_per_day <= Timestamp_max / ns_per_day)
    by (apply Z.div_le_mono; [reflexivity|exact Hhi]).
  change (Timestamp_min / ns_per_day) with (-106752) in H1.
  change (Timestamp_max / ns_per_day) with 106751 in H2.
  assert (H3 : (-106752 + 3) / 7 <= (t / ns_per_day + 3) / 7)
    by (apply Z.div_le_mono; lia).
  assert (H4 : (t / ns_per_day + 3) / 7 <= (106751 + 3) / 7)
    by (apply Z.div_le_mono; lia).
  change ((-106752 + 3) / 7) with (-15250) in H3.
  change ((106751 + 3) / 7) with 15250 in H4.
  lia.
Qed.

(** a period holds the timestamps from its Monday at midnight up to the
    next Monday *)
Lemma to_period_W_spec (t o : Z) :
  to_period_W t = o <-> start_ns o <= t < start_ns (o + 1).
Proof.
  unfold to_period_W, unix_date, start_ns, week_start_day, ns_per_day.
  pose proof (Z.div_mod t 86400000000000 ltac:(lia)) as Ht.
  pose proof (Z.mod_pos_bound t 86400000000000 ltac:(lia)) as Hr.
  set (d := t / 86400000000000) in *.
  pose proof (Z.div_mod (d + 3) 7 ltac:(lia)) as Hd.
  pose proof (Z.mod_pos_bound (d + 3) 7 ltac:(lia)) as Hq.
  set (q := (d + 3) / 7) in *.
  split; intros H; lia.
Qed.

Lemma start_ns_compare (a b : Z) :
  Z.compare (start_ns a) (start_ns b) = Z.compare a b.
Proof.
  unfold start_ns, week_start_day, ns_per_day.
  destruct (Z.compare_spec a b) as [->|H|H].
  - apply Z.compare_refl.
  - apply Z.compare_lt_iff. lia.
  - apply Z.compare_gt_iff. lia.
Qed.

Lemma week_start_is_monday (o : Z) : weekday (week_start_day o) = 0.
Proof.
  unfold weekday, week_start_day.
  replace (o * 7 - 10 + 3) with ((o - 1) * 7) by lia.
  apply Z.mod_mul. lia.
Qed.

Lemma week_end_after_start (o : Z) : week_end_day o = week_start_day o + 6.
Proof. unfold week_end_day, week_start_day. lia. Qed.

Lemma period_holds_its_days (t : Z) :
  week_start_day (to_period_W t) <= unix_date t
  <= week_end_day (to_period_W t).
Proof.
  unfold to_period_W, week_start_day, week_end_day.
  pose proof (Z.div_mod (unix_date t + 3) 7 ltac:(lia)) as Hd.
  pose proof (Z.mod_pos_bound (unix_date t + 3) 7 ltac:(lia)) as Hq.
  lia.
Qed.

Lemma labels_increasing_step (n : nat) (o : Z) :
  labels_increasing n o (period_str o) = true ->
  forall k, 0 <= k < Z.of_nat n ->
    String.compare (period_str (o + k)) (period_str (o + k + 1)) = Lt.
Proof.
  revert o. induction n as [|n IH]; intros o H k Hk; [lia|].
  cbn [labels_increasing] in H. apply andb_true_iff in H.
  destruct H as [H1 H2].
  destruct (Z.eq_dec k 0) as [->|Hne].
  - rewrite Z.add_0_r. unfold String.ltb in H1.
    destruct (String.compare (period_str o) (period_str (o + 1)));
      congruence.
  - specialize (IH (o + 1) H2 (k - 1) ltac:(lia)).
    replace (o + 1 + (k - 1)) with (o + k) in IH by lia. exact IH.
Qed.

Lemma labels_increasing_all :
  labels_increasing (Z.to_nat (last_week - first_week)) first_week
    (period_str first_week) = true.
Proof. vm_compute. reflexivity. Qed.

Lemma period_str_next (o : Z) :
  first_week <= o < last_week ->
  String.compare (period_str o) (period_str (o + 1)) = Lt.
Proof.
  intros H.
  pose proof (labels_increasing_step _ _ labels_increasing_all
                (k := o - first_week)) as L.
  replace (first_week + (o - first_week)) with o in L by lia.
  apply L. rewrite Z2Nat.id; unfold first_week, last_week in *; lia.
Qed.

Lemma period_str_lt (a b : Z) :
  first_week <= a -> a < b -> b <= last_week ->
  String.compare (period_str a) (period_str b) = Lt.
Proof.
  intros Ha Hab Hb.
  remember (Z.to_nat (b - a - 1)) as n eqn:En.
  revert b Hab Hb En. induction n as [|n IH]; intros b Hab Hb En.
  - replace b with (a + 1) by lia. apply period_str_next. lia.
  - apply string_compare_lt_trans with (b := period_str (b - 1)).
    + apply IH; lia.
    + replace b with (b - 1 + 1) at 2 by lia. apply period_str_next. lia.
Qed.

Lemma period_str_compare (a b : Z) :
  first_week <= a <= last_week -> first_week <= b <= last_week ->
  String.compare (period_str a) (period_str b) = Z.compare a b.
Proof.
  intros Ha Hb. destruct (Z.compare_spec a b) as [->|H|H].
  - apply string_compare_refl.
  - apply period_str_lt; lia.
  - rewrite String.compare_antisym, period_str_lt by lia. reflexivity.
Qed.

Lemma period_str_inj (a b : Z) :
  first_week <= a <= last_week -> first_week <= b <= last_week ->
  period_str a = period_str b -> a = b.
Proof.
  intros Ha Hb E. apply Z.compare_eq.
  rewrite <- period_str_compare by assumption.
  rewrite E. apply string_compare_refl.
Qed.
End PeriodFacts.

(* ================================================================== *)
(** ** The weekly aggregate, week by week *)

Section WeeklyFacts.
Import Pandas App.
Local Open Scope Qc_scope.

Lemma in_week_period (o t : Z) : in_week o t = Z.eqb (to_period_W t) o.
Proof.
  unfold in_week. destruct (Z.eqb_spec (to_period_W t) o) as [E|E].
  - apply to_period_W_spec in E.
    apply andb_true_iff. rewrite Z.leb_le, Z.ltb_lt. exact E.
  - apply not_true_is_false. intros H. apply E, to_period_W_spec.
    apply andb_true_iff in H. now rewrite Z.leb_le, Z.ltb_lt in H.
Qed.

Lemma Z_same_key (a b : Z) : same_key Z.compare a b = Z.eqb a b.
Proof.
  unfold same_key.
  destruct (Z.compare_spec a b) as [->|H|H]; symmetry;
    [apply Z.eqb_refl|apply Z.eqb_neq; lia|apply Z.eqb_neq; lia].
Qed.

Lemma Z_compare_antisym (a b : Z) : Z.compare b a = CompOpp (Z.compare a b).
Proof. apply Z.compare_antisym. Qed.

Lemma Z_compare_lt_trans (a b c : Z) :
  Z.compare a b = Lt -> Z.compare b c = Lt -> Z.compare a c = Lt.
Proof. rewrite !Z.compare_lt_iff. apply Z.lt_trans. Qed.

Lemma weeks_In (rows : list (Row * Z)) (o : Z) :
  In o (weeks rows) <-> exists p, In p rows /\ to_period_W (snd p) = o.
Proof.
  unfold weeks.
  rewrite (sorted_keys_In Z.compare Z.compare_eq_iff), in_map_iff.
  split; intros [p [H1 H2]]; exists p; auto.
Qed.

Lemma weeks_sorted (rows : list (Row * Z)) :
  StronglySorted Z.lt (weeks rows).
Proof.
  unfold weeks.
  pose proof (sorted_keys_sorted Z.compare Z.compare_eq_iff Z_compare_antisym
                Z_compare_lt_trans (map week_of rows)) as H.
  revert H. generalize (sorted_keys Z.compare (map week_of rows)).
  induction 1 as [|k ks Hs IH Hall]; constructor; [exact IH|].
  eapply Forall_impl; [|exact Hall]. intros c Hc.
  now apply Z.compare_lt_iff.
Qed.

Lemma weeks_NoDup (rows : list (Row * Z)) : NoDup (weeks rows).
Proof.
  apply (sorted_keys_NoDup Z.compare Z.compare_eq_iff Z_compare_antisym
           Z_compare_lt_trans).
Qed.

Lemma weeks_in_range (rows : list (Row * Z)) (o : Z) :
  timestamps_in_bounds rows -> In o (weeks rows) ->
  (first_week <= o <= last_week)%Z.
Proof.
  intros Hb Ho. apply weeks_In in Ho. destruct Ho as [p [Hp <-]].
  apply to_period_W_bounds.
  unfold timestamps_in_bounds in Hb. rewrite Forall_forall in Hb.
  now apply Hb.
Qed.

Lemma groupby_weeks (rows : list (Row * Z)) :
  groupby Z.compare week_of rows
  = map (fun o => (o, filter (fun p => in_week o (snd p)) rows))
        (weeks rows).
Proof.
  unfold groupby, weeks. apply map_ext. intros o. f_equal.
  apply filter_ext. intros p. now rewrite Z_same_key, in_week_period.
Qed.

Lemma week_texts_records (l : list (Row * Z)) :
  map fst (week_texts l) = map fst l.
Proof. unfold week_texts. rewrite map_map. reflexivity. Qed.

(** a timestamp the column can hold is not the missing one *)
Lemma in_bounds_notna (t : Z) : in_bounds t = true -> isna t = false.
Proof.
  unfold in_bounds, isna, Timestamp_min, NaT.
  rewrite andb_true_iff, !Z.leb_le. intros [H _]. apply Z.eqb_neq. lia.
Qed.

Lemma dated_in_bounds (rows : list (Row * Z)) :
  timestamps_in_bounds rows -> dated rows = rows.
Proof.
  intros H. unfold dated. apply filter_all.
  eapply Forall_impl; [|exact H]. intros p Hp. cbv beta in Hp.
  now rewrite (in_bounds_notna _ Hp).
Qed.

Lemma dated_incl (rows : list (Row * Z)) : incl (dated rows) rows.
Proof. intros p Hp. apply filter_In in Hp. tauto. Qed.

(** What section 3 groups: the records that have a timestamp, each with
    the text of its week. *)
Lemma dropna_week_texts (rows : list (Row * Z)) :
  dropna (df_weekly_rolling rows) = week_texts (dated rows).
Proof.
  unfold dropna, df_weekly_rolling, week_texts, dated.
  induction rows as [|p rows IH]; cbn [map flat_map filter]; [reflexivity|].
  cbn [fst snd]. unfold dt_to_period_W at 1.
  destruct (isna (snd p)); cbn [cell_astype_str option_map negb app map];
    now rewrite IH.
Qed.

Lemma weekly_dated (rows : list (Row * Z)) :
  weekly rows
  = map agg (groupby String.compare snd (week_texts (dated rows))).
Proof. unfold weekly. now rewrite dropna_week_texts. Qed.

(** Section 3 groups by the text of the period; on representable
    timestamps this is the grouping by period, in the same order. *)
Lemma weekly_by_week (rows : list (Row * Z)) :
  timestamps_in_bounds rows ->
  weekly rows
  = map (fun o =>
           agg (period_str o,
                week_texts (filter (fun p => in_week o (snd p)) rows)))
        (weeks rows).
Proof.
  intros Hb. rewrite weekly_dated, (dated_in_bounds Hb).
  unfold week_texts at 1.
  rewrite groupby_map. cbn [snd].
  change (fun r : Row * Z => period_str (to_period_W (snd r)))
    with (fun r : Row * Z => period_str (week_of r)).
  rewrite (groupby_relabel Z.compare String.compare period_str).
  - rewrite groupby_weeks, !map_map. reflexivity.
  - intros a b Ha Hb'. unfold timestamps_in_bounds in Hb.
    rewrite Forall_forall in Hb.
    apply period_str_compare; apply to_period_W_bounds; now apply Hb.
Qed.

Lemma weekly_weeks (rows : list (Row * Z)) :
  timestamps_in_bounds rows ->
  map week (weekly rows) = map period_str (weeks rows).
Proof.
  intros Hb. rewrite weekly_by_week by exact Hb. now rewrite map_map.
Qed.

(** *** Means of the label and of the sentiment indicators *)

Lemma count_map (A B : Type) (eqb : B -> B -> bool) (f : A -> B) (b : B)
    (x : list A) :
  count eqb b (map f x) = length (filter (fun a => eqb b (f a)) x).
Proof.
  unfold count. induction x as [|a x IH]; cbn [map filter]; [reflexivity|].
  destruct (eqb b (f a)); cbn [length]; now rewrite IH.
Qed.

Lemma share_count (s : string) (x : list Row) :
  share s x
  = Qc_of_nat (count String.eqb s (map sentiment_label x))
    / Qc_of_nat (length x).
Proof.
  unfold share. rewrite mean_indicator, count_map. do 3 f_equal.
  apply filter_ext. intros r. apply String.eqb_sym.
Qed.

Lemma rate_count (x : list Row) :
  binary_labels x ->
  mean (map (fun r => Qc_of_Z (fake_news_label r)) x)
  = Qc_of_nat (count Z.eqb 1%Z (map fake_news_label x))
    / Qc_of_nat (length x).
Proof.
  intros Hb. rewrite count_map, <- mean_indicator. f_equal.
  apply map_ext_in. intros r Hr.
  unfold binary_labels in Hb. rewrite Forall_forall in Hb.
  destruct (Hb r Hr) as [E|E]; rewrite E; apply Qc_is_canon; reflexivity.
Qed.

Lemma known_sentiment_counts (x : list Row) :
  known_sentiments x ->
  (count String.eqb "Positive"%string (map sentiment_label x)
   + count String.eqb "Negative"%string (map sentiment_label x)
   + count String.eqb "Neutral"%string (map sentiment_label x))%nat = length x.
Proof.
  unfold known_sentiments, count.
  induction 1 as [|r x Hr Hx IH]; cbn [map filter length]; [reflexivity|].
  cbn [sent_order In] in Hr.
  destruct Hr as [E|[E|[E|[]]]]; rewrite <- E;
    repeat match goal with
           | |- context [String.eqb ?a ?b] =>
               let v := eval vm_compute in (String.eqb a b) in
               change (String.eqb a b) with v
           end;
    cbv beta iota; cbn [length]; lia.
Qed.

Lemma shares_sum_to_one (x : list Row) :
  x <> [] -> known_sentiments x ->
  share "Positive"%string x + share "Negative"%string x
  + share "Neutral"%string x = 1.
Proof.
  intros Hne Hk. rewrite !share_count.
  assert (Hn : Qc_of_nat (length x) <> 0).
  { apply Qc_of_nat_nonzero. destruct x; [congruence|cbn; lia]. }
  rewrite <- (known_sentiment_counts Hk) at 1 2 3.
  pose proof (known_sentiment_counts Hk) as E.
  rewrite <- E in Hn. rewrite !Qc_of_nat_add in *. field. exact Hn.
Qed.
End WeeklyFacts.

(* ================================================================== *)
(** ** The Aggregator against its specification *)

Section AggregatorFacts.
Import Pandas App.
Local Open Scope Qc_scope.

Lemma week_records_nonempty (rows : list (Row * Z)) (o : Z) :
  In o (weeks rows) -> week_records o rows <> [].
Proof.
  intros Ho. apply weeks_In in Ho. destruct Ho as [p [Hp E]].
  assert (Hin : In (fst p) (week_records o rows)).
  { unfold week_records. apply in_map, filter_In. split; [exact Hp|].
    rewrite in_week_period. now apply Z.eqb_eq. }
  intros Hnil. now rewrite Hnil in Hin.
Qed.

(** the weeks of the table are the calendar weeks that hold a record *)
Lemma weeks_hold_records (rows : list (Row * Z)) (o : Z) :
  In o (weeks rows) <-> week_records o rows <> [].
Proof.
  split; [apply week_records_nonempty|].
  unfold week_records. intros Hne.
  destruct (filter (fun p => in_week o (snd p)) rows) as [|p l] eqn:E;
    [now cbn in Hne|].
  assert (Hp : In p (filter (fun p => in_week o (snd p)) rows))
    by (rewrite E; now left).
  apply filter_In in Hp. destruct Hp as [Hp Hw].
  rewrite in_week_period in Hw. apply Z.eqb_eq in Hw.
  apply weeks_In. now exists p.
Qed.

Lemma week_records_incl (rows : list (Row * Z)) (o : Z) (r : Row) :
  In r (week_records o rows) -> In r (map fst rows).
Proof.
  unfold week_records. rewrite !in_map_iff. intros [p [E Hp]].
  apply filter_In in Hp. exists p. tauto.
Qed.

Lemma agg_week_records (rows : list (Row * Z)) (o : Z) :
  binary_labels (map fst rows) ->
  agg (period_str o,
       week_texts (filter (fun p => in_week o (snd p)) rows))
  = Aggregator_spec o (week_records o rows).
Proof.
  intros Hb. unfold agg, Aggregator_spec, proportion. cbn [fst snd].
  rewrite week_texts_records. fold (week_records o rows).
  rewrite !share_count, rate_count; [reflexivity|].
  unfold binary_labels in *. rewrite Forall_forall in *.
  intros r Hr. apply Hb. eapply week_records_incl, Hr.
Qed.

Lemma weekly_refines_spec (rows : list (Row * Z)) :
  timestamps_in_bounds rows -> binary_labels (map fst rows) ->
  weekly rows
  = map (fun o => Aggregator_spec o (week_records o rows)) (weeks rows).
Proof.
  intros Ht Hb. rewrite weekly_by_week by exact Ht.
  apply map_ext. intros o. now apply agg_week_records.
Qed.

Lemma weekly_In_group (rows : list (Row * Z)) (w : WeeklyAggregate) :
  In w (weekly rows) ->
  exists x, x <> [] /\ incl x (map fst rows)
    /\ pos w = share "Positive" x /\ neg w = share "Negative" x
    /\ neu w = share "Neutral" x.
Proof.
  rewrite weekly_dated. intros H. apply in_map_iff in H.
  destruct H as [g [<- Hg]]. exists (map fst (snd g)).
  split.
  - pose proof (groupby_group_nonempty String.compare
                  string_compare_eq_iff _ _ _ Hg) as Hne.
    destruct (snd g); [congruence|discriminate].
  - split; [|now cbn].
    apply (groupby_In String.compare string_compare_eq_iff) in Hg.
    destruct Hg as [E _]. rewrite E.
    intros r Hr. apply in_map_iff in Hr. destruct Hr as [p [<- Hp]].
    apply filter_In in Hp. destruct Hp as [Hp _].
    apply (in_map fst) in Hp. rewrite week_texts_records in Hp.
    apply in_map_iff in Hp. destruct Hp as [q [<- Hq]].
    apply in_map, dated_incl, Hq.
Qed.
End AggregatorFacts.

(* ================================================================== *)
(** ** Claims on the Aggregator *)

Section AggregatorClaims.
Import Pandas App.
Local Open Scope Qc_scope.

(** C1.  On a dataset with timestamps (representable ones, labels 0 or
    1), the weekly table has one row per calendar week that holds a record
    (a week running from a Monday at midnight up to the next Monday), in
    week order, and the row of a week is the one the specification
    describes: [fake_news_rate] is the number of records of the week with
    label 1 over the number of records of the week, and [pos], [neg],
    [neu] are the proportions of its records with each sentiment.  In
    particular a week whose five records carry the labels 1,0,1,0,0 and
    the sentiments Positive, Negative, Positive, Neutral, Negative gets the
    row 0.4, 0.4, 0.4, 0.2. *)
Theorem weekly_rates_per_week (rows : list (Row * Z)) :
  timestamps_in_bounds rows ->
  binary_labels (map fst rows) ->
  weekly rows
  = map (fun o => Aggregator_spec o (week_records o rows)) (weeks rows)
  /\ StronglySorted Z.lt (weeks rows)
  /\ (forall o, In o (weeks rows) <-> week_records o rows <> [])
  /\ (forall o,
        In o (weeks rows) ->
        map fake_news_label (week_records o rows) = [1; 0; 1; 0; 0]%Z ->
        map sentiment_label (week_records o rows)
        = ["Positive"; "Negative"; "Positive"; "Neutral"; "Negative"]%string ->
        In (mkWeekly (period_str o)
              (Q2Qc 0.4) (Q2Qc 0.4) (Q2Qc 0.4) (Q2Qc 0.2))
           (weekly rows)).
Proof.
  intros Ht Hb. pose proof (weekly_refines_spec Ht Hb) as E.
  split; [exact E|]. split; [apply weeks_sorted|].
  split; [apply weeks_hold_records|].
  intros o Ho Hl Hs. rewrite E. apply in_map_iff. exists o.
  split; [|exact Ho].
  unfold Aggregator_spec.
  assert (Hn : length (week_records o rows) = 5%nat)
    by (rewrite <- (length_map fake_news_label), Hl; reflexivity).
  rewrite Hl, Hs, Hn.
  f_equal; apply Qc_is_canon; reflexivity.
Qed.

Lemma weekly_rates_per_week_witness :
  In (mkWeekly "2021-01-04/2021-01-10"
        (Q2Qc 0.4) (Q2Qc 0.4) (Q2Qc 0.4) (Q2Qc 0.2))
     (weekly scenario_rows).
Proof.
  refine (proj2 (proj2 (proj2
            (weekly_rates_per_week (rows := scenario_rows) _ _)))
            2663%Z _ _ _).
  - repeat (apply Forall_cons; [reflexivity|]); apply Forall_nil.
  - repeat (apply Forall_cons; [cbn; auto|]); apply Forall_nil.
  - left. reflexivity.
  - reflexivity.
  - reflexivity.
Defined.

(** C3.  On a dataset with timestamps whose sentiments are the three known
    ones, every row of the weekly table has proportions [pos], [neg],
    [neu] that sum to 1 (a fortiori within the tolerance 1e-9), and the
    table has exactly one row per distinct week of the dataset: its week
    labels are those of a duplicate-free list of weeks that holds a week
    exactly when some record falls in it, and they are pairwise
    distinct. *)
Theorem weekly_proportions_sum_to_one (rows : list (Row * Z)) :
  timestamps_in_bounds rows ->
  known_sentiments (map fst rows) ->
  (forall w, In w (weekly rows) ->
     pos w + neg w + neu w = 1
     /\ within_tolerance (pos w + neg w + neu w) 1)
  /\ map week (weekly rows) = map period_str (weeks rows)
  /\ length (weekly rows) = length (weeks rows)
  /\ NoDup (weeks rows)
  /\ NoDup (map week (weekly rows))
  /\ (forall o, In o (weeks rows)
                <-> exists p, In p rows /\ to_period_W (snd p) = o).
Proof.
  intros Ht Hk.
  assert (Hsum : forall w, In w (weekly rows) -> pos w + neg w + neu w = 1).
  { intros w Hw. apply weekly_In_group in Hw.
    destruct Hw as [x [Hne [Hincl [-> [-> ->]]]]].
    apply shares_sum_to_one; [exact Hne|].
    unfold known_sentiments in *. rewrite Forall_forall in *.
    intros r Hr. apply Hk, Hincl, Hr. }
  pose proof (weekly_weeks Ht) as Hw.
  repeat split.
  - now apply Hsum.
  - rewrite (Hsum w H). unfold tolerance, Qcle. now vm_compute.
  - rewrite (Hsum w H). unfold tolerance, Qcle. now vm_compute.
  - exact Hw.
  - rewrite <- (length_map week), Hw. apply length_map.
  - apply weeks_NoDup.
  - rewrite Hw. apply NoDup_map_NoDup_ForallPairs; [|apply weeks_NoDup].
    intros a b Ha Hb. apply period_str_inj; eapply weeks_in_range; eauto.
  - apply weeks_In.
  - apply weeks_In.
Qed.

Lemma weekly_proportions_sum_to_one_witness :
  (forall w, In w (weekly scenario_rows) ->
     pos w + neg w + neu w = 1
     /\ within_tolerance (pos w + neg w + neu w) 1)
  /\ map week (weekly scenario_rows) = ["2021-01-04/2021-01-10"%string]
  /\ length (weekly scenario_rows) = 1%nat.
Proof.
  destruct (weekly_proportions_sum_to_one (rows := scenario_rows))
    as [H1 [H2 [H3 _]]].
  - repeat (apply Forall_cons; [reflexivity|]); apply Forall_nil.
  - repeat (apply Forall_cons; [cbn; auto|]); apply Forall_nil.
  - split; [exact H1|]. split; [exact H2|exact H3].
Defined.
End AggregatorClaims.

(* ================================================================== *)
(** ** Claims on the Smoother *)

Section SmootherClaims.
Import Pandas App.
Import PrimFloat.

(** C2, as the program computes it.  Read over exact rationals, the
    smoothed value of each numeric field at position i is, with window 4,
    the arithmetic mean of that field over positions max(0, i-3)..i
    inclusive, and the series 0.2, 0.4, 0.6, 0.8, 1.0 yields 0.2, 0.3, 0.4,
    0.5, 0.7.  Whatever the arithmetic, rounded or not, values that come
    later in the series do not change the earlier outputs.  Read over
    binary64, as the program runs, the same series yields 0.2,
    0.30000000000000004, 0.39999999999999997, 0.5, 0.7: each output is
    within 1e-9 of the stated one, and two of them are not the stated
    one. *)
Theorem smoother_trailing_mean (w : list WeeklyAggregate) :
  let out := smooth rolling_window w in
  let at_positions (field : WeeklyAggregate -> Qc) :=
    map (fun i => Some (Smoother_spec (map field w) i))
        (seq 0 (length w)) in
  (r_week out = map week w
   /\ r_fake_news_rate out = at_positions fake_news_rate
   /\ r_pos out = at_positions pos
   /\ r_neg out = at_positions neg
   /\ r_neu out = at_positions neu)
  /\ (forall (A : Arith) (min_periods : nat) (xs ys : list (num A)),
        firstn (length xs)
               (roll_mean A rolling_window min_periods (xs ++ ys))
        = roll_mean A rolling_window min_periods xs)
  /\ rolling_mean rolling_window 1
       (map Q2Qc [0.2; 0.4; 0.6; 0.8; 1.0]%Q)
     = map (fun q => Some (Q2Qc q)) [0.2; 0.3; 0.4; 0.5; 0.7]%Q
  /\ rolling_mean_binary64 rolling_window 1
       [0.2; 0.4; 0.6; 0.8; 1.0]%float
     = map Some
         [0.2; 0.30000000000000004; 0.39999999999999997; 0.5; 0.7]%float
  /\ Forall2 (fun v stated => reported_close_to v stated = true)
       (rolling_mean_binary64 rolling_window 1
          [0.2; 0.4; 0.6; 0.8; 1.0]%float)
       [0.2; 0.3; 0.4; 0.5; 0.7]%float.
Proof.
  cbv zeta. unfold smooth, rolling_numeric, rolling_window.
  cbn [r_week r_fake_news_rate r_pos r_neg r_neu].
  rewrite !rolling_mean_4_spec, !length_map.
  split; [repeat split|]. split; [|split; [|split]].
  - intros A min_periods xs ys. apply roll_mean_prefix.
  - cbn [map length seq].
    repeat (apply f_equal2;
            [apply f_equal, Qc_is_canon; vm_compute; reflexivity|]).
    reflexivity.
  - vm_compute. reflexivity.
  - assert (E : rolling_mean_binary64 4 1 [0.2; 0.4; 0.6; 0.8; 1.0]%float
                = map Some
                    [0.2; 0.30000000000000004; 0.39999999999999997;
                     0.5; 0.7]%float)
      by (vm_compute; reflexivity).
    rewrite E. cbn [map].
    repeat (constructor; [vm_compute; reflexivity|]). constructor.
Qed.

(** C2 as stated fails: in binary64 the second output of the scenario is
    0.30000000000000004 and not the double 0.3 (and the third is
    0.39999999999999997 and not the double 0.4). *)
Lemma smoother_scenario_is_rounded :
  rolling_mean_binary64 rolling_window 1 [0.2; 0.4; 0.6; 0.8; 1.0]%float
  <> map Some [0.2; 0.3; 0.4; 0.5; 0.7]%float.
Proof.
  intros H.
  apply (f_equal (fun l => match l with
                           | _ :: Some x :: _ => (x =? 0.3)%float
                           | _ => true
                           end)) in H.
  vm_compute in H. discriminate H.
Qed.

(** C4.  Whatever the window, every column of the smoothed table has as
    many rows as the weekly table.  With the window of the script the
    smoothing changes nothing on a table of no row or of one row, and its
    first row is the first weekly row; with a window of 1 it changes
    nothing at all. *)
Theorem smoother_shape (window : nat) (w : list WeeklyAggregate) :
  (length (r_week (smooth window w)) = length w
   /\ length (r_fake_news_rate (smooth window w)) = length w
   /\ length (r_pos (smooth window w)) = length w
   /\ length (r_neg (smooth window w)) = length w
   /\ length (r_neu (smooth window w)) = length w)
  /\ smooth rolling_window [] = unsmoothed []
  /\ (forall a, smooth rolling_window [a] = unsmoothed [a])
  /\ smooth 1 w = unsmoothed w
  /\ (forall a, let out := smooth rolling_window (a :: w) in
        hd_error (r_week out) = Some (week a)
        /\ hd_error (r_fake_news_rate out) = Some (Some (fake_news_rate a))
        /\ hd_error (r_pos out) = Some (Some (pos a))
        /\ hd_error (r_neg out) = Some (Some (neg a))
        /\ hd_error (r_neu out) = Some (Some (neu a))).
Proof.
  unfold smooth, rolling_numeric, unsmoothed, rolling_window.
  cbn [r_week r_fake_news_rate r_pos r_neg r_neu].
  rewrite !rolling_mean_length, !length_map.
  split; [repeat split|]. split; [reflexivity|]. split; [|split].
  - intros a. cbn [map]. rewrite !rolling_mean_windows.
    cbn [length seq map]. unfold window_values, window_positions.
    cbn [Nat.sub seq map nth]. now rewrite !mean_singleton.
  - rewrite !rolling_mean_window_1, !map_map. reflexivity.
  - intros a. cbv zeta. cbn [map]. rewrite !rolling_mean_head.
    repeat split.
Qed.
End SmootherClaims.

(* ================================================================== *)
(** ** The cross-tabulation *)

Section CrosstabFacts.
Import Pandas App.

Lemma position_Some (a : string) (cs : list string) (n : nat) :
  position String.eqb a cs = Some n -> nth_error cs n = Some a.
Proof.
  revert n. induction cs as [|c cs IH]; intros n; cbn [position].
  - discriminate.
  - destruct (String.eqb_spec a c) as [->|Hne].
    + intros [= <-]. reflexivity.
    + destruct (position String.eqb a cs) as [m|]; [|discriminate].
      intros [= <-]. cbn [nth_error]. now apply IH.
Qed.

Lemma position_None (a : string) (cs : list string) :
  position String.eqb a cs = None -> ~ In a cs.
Proof.
  induction cs as [|c cs IH]; cbn [position In]; [tauto|].
  destruct (String.eqb_spec a c) as [->|Hne]; [discriminate|].
  destruct (position String.eqb a cs); [discriminate|].
  intros _ [E|H]; [now apply Hne|now apply IH].
Qed.

Lemma position_In (a : string) (cs : list string) :
  In a cs -> exists n, position String.eqb a cs = Some n.
Proof.
  intros H. destruct (position String.eqb a cs) as [n|] eqn:E; [eauto|].
  now apply position_None in E.
Qed.

Lemma nth_map_at (A B : Type) (f : A -> B) (l : list A) (n : nat) (a : A)
    (d : B) :
  nth_error l n = Some a -> nth n (map f l) d = f a.
Proof.
  revert n. induction l as [|x l IH]; intros [|n]; cbn; try discriminate.
  - now intros [= ->].
  - apply IH.
Qed.

Lemma combine_columns (A B C : Type) (f : A -> B) (g : A -> C)
    (x : list A) :
  combine (map f x) (map g x) = map (fun a => (f a, g a)) x.
Proof. induction x as [|a x IH]; cbn; [reflexivity|now rewrite IH]. Qed.

Lemma filter_length_map (A B : Type) (h : A -> B) (p : B -> bool)
    (x : list A) :
  length (filter p (map h x)) = length (filter (fun a => p (h a)) x).
Proof.
  induction x as [|a x IH]; cbn [map filter]; [reflexivity|].
  destruct (p (h a)); cbn [length]; now rewrite IH.
Qed.

(** a cell of [crosstab] counts the records of its label and sentiment *)
Lemma crosstab_cells (x : list Row) :
  crosstab (map fake_news_label x) (map sentiment_label x)
  = mkFrame (sorted_keys Z.compare (map fake_news_label x))
      (sorted_keys String.compare (map sentiment_label x))
      (map (fun l =>
              map (fun s => cell_count l s x)
                  (sorted_keys String.compare (map sentiment_label x)))
           (sorted_keys Z.compare (map fake_news_label x))).
Proof.
  unfold crosstab, cell_count. f_equal.
  apply map_ext. intros l. apply map_ext. intros s.
  rewrite combine_columns, filter_length_map. reflexivity.
Qed.

Lemma cell_count_absent (l : Z) (s : string) (x : list Row) :
  ~ In s (map sentiment_label x) -> cell_count l s x = O.
Proof.
  intros H. unfold cell_count.
  induction x as [|r x IH]; cbn [filter]; [reflexivity|].
  cbn [map In] in H.
  destruct (String.eqb_spec (sentiment_label r) s) as [E|E]; [tauto|].
  rewrite andb_false_r. apply IH. tauto.
Qed.

(** the columns after [reindex(columns=sent_order, fill_value=0)] *)
Lemma reindexed_row (l : Z) (x : list Row) :
  let cols := sorted_keys String.compare (map sentiment_label x) in
  map (fun s => match position String.eqb s cols with
                | Some n => nth n (map (fun c => cell_count l c x) cols) O
                | None => O
                end) sent_order
  = map (fun s => cell_count l s x) sent_order.
Proof.
  cbv zeta. apply map_ext. intros s.
  destruct (position String.eqb s _) as [n|] eqn:E.
  - apply position_Some in E.
    exact (nth_map_at (fun c => cell_count l c x) _ _ O E).
  - apply position_None in E. symmetry. apply cell_count_absent.
    intros H. apply E.
    now apply (sorted_keys_In String.compare string_compare_eq_iff).
Qed.

(** the labels that occur, in increasing order *)
Lemma labels_both (x : list Row) :
  binary_labels x ->
  In 0%Z (map fake_news_label x) -> In 1%Z (map fake_news_label x) ->
  sorted_keys Z.compare (map fake_news_label x) = [0%Z; 1%Z].
Proof.
  intros Hb H0 H1.
  pose proof (sorted_keys_sorted Z.compare Z.compare_eq_iff
                Z_compare_antisym Z_compare_lt_trans
                (map fake_news_label x)) as Hs.
  pose proof (sorted_keys_In Z.compare Z.compare_eq_iff) as Hin.
  assert (Hall : forall k, In k (sorted_keys Z.compare
                                   (map fake_news_label x)) ->
                           k = 0%Z \/ k = 1%Z).
  { intros k Hk. apply (proj1 (Hin _ _)), in_map_iff in Hk.
    destruct Hk as [r [<- Hr]].
    unfold binary_labels in Hb. rewrite Forall_forall in Hb. now apply Hb. }
  apply (proj2 (Hin 0%Z _)) in H0. apply (proj2 (Hin 1%Z _)) in H1.
  revert Hs Hall H0 H1.
  generalize (sorted_keys Z.compare (map fake_news_label x)) as ks.
  unfold key_lt. intros ks Hs Hall H0 H1.
  destruct ks as [|a ks]; [contradiction|].
  inversion Hs as [|? ? Hs' Ha]; subst. rewrite Forall_forall in Ha.
  destruct ks as [|b ks].
  - destruct H0 as [->|[]], H1 as [E|[]]. discriminate.
  - inversion Hs' as [|? ? Hs'' Hb']; subst. rewrite Forall_forall in Hb'.
    assert (Hab : (a < b)%Z)
      by (apply Z.compare_lt_iff, Ha; now left).
    destruct (Hall a (or_introl eq_refl)) as [-> | ->];
      destruct (Hall b (or_intror (or_introl eq_refl))) as [-> | ->];
      try lia.
    destruct ks as [|c ks]; [reflexivity|].
    assert (Hbc : (1 < c)%Z) by (apply Z.compare_lt_iff, Hb'; now left).
    destruct (Hall c (or_intror (or_intror (or_introl eq_refl)))); lia.
Qed.

Lemma labels_lacking (x : list Row) :
  binary_labels x ->
  ~ In 0%Z (map fake_news_label x) \/ ~ In 1%Z (map fake_news_label x) ->
  (length (sorted_keys Z.compare (map fake_news_label x)) <= 1)%nat.
Proof.
  intros Hb Hlack.
  pose proof (sorted_keys_sorted Z.compare Z.compare_eq_iff
                Z_compare_antisym Z_compare_lt_trans
                (map fake_news_label x)) as Hs.
  pose proof (sorted_keys_In Z.compare Z.compare_eq_iff) as Hin.
  assert (Hall : forall k, In k (sorted_keys Z.compare
                                   (map fake_news_label x)) ->
                           (k = 0%Z \/ k = 1%Z)
                           /\ In k (map fake_news_label x)).
  { intros k Hk. apply (proj1 (Hin _ _)) in Hk. split; [|exact Hk].
    apply in_map_iff in Hk. destruct Hk as [r [<- Hr]].
    unfold binary_labels in Hb. rewrite Forall_forall in Hb. now apply Hb. }
  revert Hs Hall.
  generalize (sorted_keys Z.compare (map fake_news_label x)) as ks.
  unfold key_lt. intros ks Hs Hall.
  destruct ks as [|a [|b ks]]; cbn [length]; try lia.
  exfalso.
  inversion Hs as [|? ? Hs' Ha]; subst. rewrite Forall_forall in Ha.
  assert (Hab : (a < b)%Z) by (apply Z.compare_lt_iff, Ha; now left).
  destruct (Hall a (or_introl eq_refl)) as [[-> | ->] Ia];
    destruct (Hall b (or_intror (or_introl eq_refl))) as [[-> | ->] Ib];
    try lia.
  tauto.
Qed.

(** With both labels in the data the table is the one specified. *)
Lemma conf_matrix_both_labels (T : Type) (df : DataFrame T) :
  binary_labels (records df) ->
  In 0%Z (map fake_news_label (records df)) ->
  In 1%Z (map fake_news_label (records df)) ->
  conf_matrix df = Ok (Crosstab_spec (records df)).
Proof.
  intros Hb H0 H1. unfold conf_matrix, Crosstab_spec.
  rewrite crosstab_cells, (labels_both Hb H0 H1).
  unfold set_index, reindex_columns, label_names, label_order.
  cbn [index columns values length Nat.eqb bind map].
  do 2 f_equal. f_equal; [|f_equal]; apply reindexed_row.
Qed.

Lemma sorted_keys_nonempty (K : Type) (cmp : K -> K -> comparison)
    (ks : list K) :
  ks <> [] -> sorted_keys cmp ks <> [].
Proof.
  destruct ks as [|k ks]; [congruence|]. intros _.
  cbn [sorted_keys fold_right].
  destruct (fold_right (insert_key cmp) [] ks) as [|k' l];
    cbn [insert_key]; [discriminate|].
  destruct (cmp k k'); discriminate.
Qed.

(** With a label missing from the data, renaming the rows fails. *)
Lemma conf_matrix_lacking_label (T : Type) (df : DataFrame T) :
  binary_labels (records df) ->
  records df <> [] ->
  ~ In 0%Z (map fake_news_label (records df))
  \/ ~ In 1%Z (map fake_news_label (records df)) ->
  conf_matrix df = Raise ValueError.
Proof.
  intros Hb Hne Hlack. unfold conf_matrix.
  rewrite crosstab_cells. unfold set_index, label_names.
  cbn [index length columns].
  pose proof (labels_lacking Hb Hlack) as Hlen.
  destruct (Nat.eqb_spec 2 (length (sorted_keys Z.compare
              (map fake_news_label (records df))))) as [E|E]; [lia|].
  pose proof (@sorted_keys_nonempty _ String.compare
                (map sentiment_label (records df))) as Hcols.
  destruct (sorted_keys String.compare (map sentiment_label (records df))).
  - exfalso. apply Hcols; [|reflexivity].
    destruct (records df); [congruence|discriminate].
  - reflexivity.
Qed.

(** Without any record the cross-tabulation has no row and no column; the
    two row labels are accepted and the three columns are filled with 0. *)
Lemma conf_matrix_no_record (T : Type) (df : DataFrame T) :
  records df = [] -> conf_matrix df = Ok (Crosstab_spec (records df)).
Proof. intros E. unfold conf_matrix. rewrite E. reflexivity. Qed.

(** Each record falls in exactly one of the six cells. *)
Lemma crosstab_spec_total (x : list Row) :
  binary_labels x -> known_sentiments x ->
  table_total (Crosstab_spec x) = length x.
Proof.
  unfold table_total, Crosstab_spec, label_order, sent_order, cell_count.
  cbn [values map list_sum].
  intros Hb Hk. induction x as [|r x IH]; [reflexivity|].
  inversion Hb as [|? ? Hr Hb']; inversion Hk as [|? ? Hs Hk']; subst.
  specialize (IH Hb' Hk'). cbn [filter length].
  cbn [sent_order In] in Hs.
  destruct Hr as [El|El]; rewrite El;
    destruct Hs as [Es|[Es|[Es|[]]]]; rewrite <- Es;
    repeat match goal with
           | |- context [String.eqb ?a ?b] =>
               let v := eval vm_compute in (String.eqb a b) in
               change (String.eqb a b) with v
           | |- context [Z.eqb ?a ?b] =>
               let v := eval vm_compute in (Z.eqb a b) in
               change (Z.eqb a b) with v
           end;
    cbv beta iota; cbn [andb length];
    unfold list_sum in *; cbn [fold_right] in *; lia.
Qed.

(** The table, when there is one, is the one specified. *)
Lemma conf_matrix_cases (T : Type) (df : DataFrame T) :
  binary_labels (records df) ->
  ((records df = []
    \/ (In 0%Z (map fake_news_label (records df))
        /\ In 1%Z (map fake_news_label (records df))))
   /\ conf_matrix df = Ok (Crosstab_spec (records df)))
  \/ (records df <> []
      /\ (~ In 0%Z (map fake_news_label (records df))
          \/ ~ In 1%Z (map fake_news_label (records df)))
      /\ conf_matrix df = Raise ValueError).
Proof.
  intros Hb.
  destruct (records df) as [|r x] eqn:Ex.
  - left. split; [now left|]. rewrite <- Ex. apply conf_matrix_no_record, Ex.
  - rewrite <- Ex in *.
    assert (Hne : records df <> []) by (rewrite Ex; discriminate).
    destruct (in_dec Z.eq_dec 0%Z (map fake_news_label (records df)))
      as [H0|H0];
      [destruct (in_dec Z.eq_dec 1%Z (map fake_news_label (records df)))
        as [H1|H1]|].
    + left. split; [now right|]. now apply conf_matrix_both_labels.
    + right. split; [exact Hne|]. split; [now right|].
      apply conf_matrix_lacking_label; [exact Hb|exact Hne|now right].
    + right. split; [exact Hne|]. split; [now left|].
      apply conf_matrix_lacking_label; [exact Hb|exact Hne|now left].
Qed.

Lemma conf_matrix_total (T : Type) (df : DataFrame T)
    (t : Frame string string nat) :
  binary_labels (records df) -> known_sentiments (records df) ->
  conf_matrix df = Ok t -> table_total t = len df.
Proof.
  intros Hb Hk E.
  destruct (conf_matrix_cases df Hb) as [[_ E']|[_ [_ E']]];
    rewrite E' in E; [|discriminate].
  injection E as <-. now apply crosstab_spec_total.
Qed.
End CrosstabFacts.

(* ================================================================== *)
(** ** Value counts and the stacked table *)

Section ValueCountFacts.
Import Pandas.

Lemma lookup_Some_In (V : Type) (a : string) (s : list (string * V))
    (v : V) :
  lookup String.eqb a s = Some v -> In (a, v) s.
Proof.
  induction s as [|[k u] s IH]; cbn [lookup In]; [discriminate|].
  destruct (String.eqb_spec a k) as [->|Hne].
  - intros [= ->]. now left.
  - intros H. right. now apply IH.
Qed.

Lemma lookup_None_keys (V : Type) (a : string) (s : list (string * V)) :
  lookup String.eqb a s = None -> ~ In a (map fst s).
Proof.
  induction s as [|[k u] s IH]; cbn [lookup map fst In]; [tauto|].
  destruct (String.eqb_spec a k) as [->|Hne]; [discriminate|].
  intros H [E|Hin]; [now apply Hne|now apply IH].
Qed.

Lemma lookup_map_values (V W : Type) (h : V -> W) (a : string)
    (s : list (string * V)) :
  lookup String.eqb a (map (fun p => (fst p, h (snd p))) s)
  = option_map h (lookup String.eqb a s).
Proof.
  induction s as [|[k u] s IH]; cbn [lookup map fst snd]; [reflexivity|].
  destruct (String.eqb a k); [reflexivity|exact IH].
Qed.

Lemma unique_In (a : string) (xs : list string) :
  In a (unique String.eqb xs) <-> In a xs.
Proof.
  induction xs as [|x xs IH]; cbn [unique In]; [tauto|].
  rewrite filter_In, IH.
  destruct (String.eqb_spec x a) as [->|Hne]; cbn [negb].
  - intuition auto.
  - intuition auto.
Qed.

Lemma insert_desc_In (p q : string * nat) (s : list (string * nat)) :
  In p (insert_desc q s) <-> p = q \/ In p s.
Proof.
  induction s as [|r s IH]; cbn [insert_desc In].
  - intuition auto.
  - destruct (snd r <=? snd q)%nat; cbn [In]; [intuition auto|].
    rewrite IH. intuition auto.
Qed.

Lemma sort_desc_In (p : string * nat) (s : list (string * nat)) :
  In p (sort_desc s) <-> In p s.
Proof.
  induction s as [|q s IH]; cbn [sort_desc fold_right In]; [tauto|].
  fold (sort_desc s). rewrite insert_desc_In, IH. intuition auto.
Qed.

Lemma value_counts_In (xs : list string) (a : string) (n : nat) :
  In (a, n) (value_counts String.eqb xs)
  <-> In a xs /\ n = count String.eqb a xs.
Proof.
  unfold value_counts. rewrite sort_desc_In, in_map_iff. split.
  - intros [b [E Hb]]. injection E as -> <-.
    apply (proj1 (unique_In _ _)) in Hb.
    tauto.
  - intros [Ha ->]. exists a. split; [reflexivity|now apply unique_In].
Qed.

Lemma count_absent (xs : list string) (a : string) :
  ~ In a xs -> count String.eqb a xs = O.
Proof.
  unfold count. induction xs as [|x xs IH]; cbn [filter In];
    [reflexivity|].
  intros H. destruct (String.eqb_spec a x) as [->|Hne]; [tauto|].
  apply IH. tauto.
Qed.

(** the count read from [value_counts()], 0 when the value is absent *)
Lemma get_value_counts (xs : list string) (a : string) :
  get String.eqb a (value_counts String.eqb xs) O
  = count String.eqb a xs.
Proof.
  unfold get.
  destruct (lookup String.eqb a (value_counts String.eqb xs)) as [n|] eqn:E.
  - apply lookup_Some_In, value_counts_In in E. tauto.
  - apply lookup_None_keys in E. symmetry. apply count_absent.
    intros Ha. apply E. apply in_map_iff.
    exists (a, count String.eqb a xs). split; [reflexivity|].
    now apply value_counts_In.
Qed.

(** the frequency read from [value_counts(normalize=True)] *)
Lemma get_value_counts_normalized (xs : list string) (a : string) :
  get String.eqb a (value_counts_normalized String.eqb xs) 0%Qc
  = (Qc_of_nat (count String.eqb a xs) / Qc_of_nat (length xs))%Qc.
Proof.
  unfold get, value_counts_normalized.
  pose proof (lookup_map_values
                (fun n => (Qc_of_nat n / Qc_of_nat (length xs))%Qc)
                a (value_counts String.eqb xs)) as L.
  cbv beta in L. rewrite L. clear L.
  destruct (lookup String.eqb a (value_counts String.eqb xs)) as [n|] eqn:E;
    cbn [option_map].
  - apply lookup_Some_In, value_counts_In in E.
    destruct E as [_ ->]. reflexivity.
  - apply lookup_None_keys in E.
    rewrite count_absent.
    + rewrite Qc_of_nat_0. unfold Qcdiv. ring.
    + intros Ha. apply E. apply in_map_iff.
      exists (a, count String.eqb a xs). split; [reflexivity|].
      now apply value_counts_In.
Qed.
End ValueCountFacts.

Section StackedFrame.
Import Pandas.
Variables (I V : Type) (d : V).
Variable s : list (I * list (string * V)).

Lemma fillna_unstack : fillna d (unstack s) = tabulate d s (all_keys s).
Proof.
  unfold fillna, unstack, tabulate, all_keys.
  cbn [index columns values]. f_equal.
  rewrite map_map. apply map_ext. intros g. rewrite map_map. reflexivity.
Qed.

Lemma cell_outside (g : I * list (string * V)) (c : string) :
  In g s -> ~ In c (all_keys s) -> cell d g c = d.
Proof.
  intros Hg Hc. unfold cell, get.
  destruct (lookup String.eqb c (snd g)) as [v|] eqn:E; [|reflexivity].
  exfalso. apply Hc. unfold all_keys.
  apply (sorted_keys_In String.compare string_compare_eq_iff).
  apply in_flat_map. exists g. split; [exact Hg|].
  apply lookup_Some_In in E. apply in_map_iff. now exists (c, v).
Qed.

Lemma add_column_tabulate (cs : list string) (c : string) :
  (forall g, In g s -> cell d g c = d) ->
  add_column c d (tabulate d s cs) = tabulate d s (cs ++ [c]).
Proof.
  intros H. unfold add_column, tabulate. cbn [index columns values].
  f_equal. rewrite map_map. apply map_ext_in. intros g Hg.
  rewrite map_app. cbn [map]. now rewrite H.
Qed.

Lemma existsb_eqb_In (c : string) (cs : list string) :
  existsb (String.eqb c) cs = true <-> In c cs.
Proof.
  rewrite existsb_exists. split.
  - intros [x [Hx E]]. apply String.eqb_eq in E. now subst.
  - intros H. exists c. split; [exact H|apply String.eqb_refl].
Qed.

Lemma ensure_columns_tabulate (order cs : list string) :
  incl (all_keys s) cs ->
  exists cs',
    ensure_columns order d (tabulate d s cs) = tabulate d s cs'
    /\ incl cs cs' /\ incl order cs'.
Proof.
  unfold ensure_columns. revert cs.
  induction order as [|c order IH]; intros cs Hcs; cbn [fold_left].
  - exists cs. split; [reflexivity|]. split; [apply incl_refl|].
    intros x [].
  - cbn [columns tabulate].
    destruct (existsb (String.eqb c) cs) eqn:E.
    + destruct (IH cs Hcs) as [cs' [E1 [E2 E3]]]. exists cs'.
      split; [exact E1|]. split; [exact E2|].
      intros x [<-|Hx]; [|now apply E3].
      apply E2. now apply existsb_eqb_In.
    + rewrite add_column_tabulate.
      * destruct (IH (cs ++ [c])) as [cs' [E1 [E2 E3]]].
        { intros x Hx. apply in_or_app. left. now apply Hcs. }
        exists cs'. split; [exact E1|]. split.
        { intros x Hx. apply E2, in_or_app. now left. }
        intros x [<-|Hx]; [|now apply E3].
        apply E2, in_or_app. right. now left.
      * intros g Hg. apply cell_outside; [exact Hg|].
        intros Hin. apply Hcs in Hin.
        apply existsb_eqb_In in Hin. congruence.
Qed.

Lemma positions_incl (order cs : list string) :
  incl order cs ->
  exists ns, positions order cs = Ok ns
    /\ Forall2 (fun c n => nth_error cs n = Some c) order ns.
Proof.
  induction order as [|c order IH]; intros H; cbn [positions].
  - exists []. split; [reflexivity|constructor].
  - destruct (position_In c cs (H c (or_introl eq_refl))) as [n En].
    rewrite En.
    destruct IH as [ns [E1 E2]].
    { intros x Hx. apply H. now right. }
    rewrite E1. cbn [bind]. exists (n :: ns). split; [reflexivity|].
    constructor; [now apply position_Some|exact E2].
Qed.

Lemma select_columns_tabulate (order cs : list string) :
  incl order cs ->
  select_columns d order (tabulate d s cs) = Ok (tabulate d s order).
Proof.
  intros H. unfold select_columns. cbn [columns tabulate].
  destruct (positions_incl H) as [ns [E1 E2]]. rewrite E1. cbn [bind].
  unfold tabulate. cbn [index values]. do 2 f_equal.
  rewrite map_map. apply map_ext. intros g. clear H E1.
  induction E2 as [|c n order' ns' Hn _ IH]; cbn [map]; [reflexivity|].
  f_equal; [|exact IH].
  exact (nth_map_at (cell d g) cs n d Hn).
Qed.

(** the stacked table of section 4, cell by cell *)
Lemma stacked_pipeline (order : list string) :
  select_columns d order (ensure_columns order d (fillna d (unstack s)))
  = Ok (tabulate d s order).
Proof.
  rewrite fillna_unstack.
  destruct (ensure_columns_tabulate order (incl_refl (all_keys s)))
    as [cs' [E1 [_ E3]]].
  rewrite E1. now apply select_columns_tabulate.
Qed.
End StackedFrame.

(* ================================================================== *)
(** ** Claims on the tables of the whole dataset *)

Section TableClaims.
Import Pandas App.

(** C6.  The cross-tabulation is meant to be the 2x3 table with absent
    combinations filled with 0.  On a dataset of real news only the
    script fails instead: [crosstab] yields the single row of label 0 and
    naming the rows Real and Fake raises.  (The label chart of section 2,
    on the same data, does fill the absent label with 0.) *)
Theorem conf_matrix_all_real_raises :
  conf_matrix all_real = Raise ValueError
  /\ label_counts all_real = [(0%Z, 1%nat); (1%Z, 0%nat)].
Proof. split; reflexivity. Qed.

(** C7.  The six cells are meant to sum to the number of records.  On a
    dataset of two fake news and no real one the script produces no table
    at all. *)
Theorem conf_matrix_all_fake_no_table :
  len all_fake = 2%nat
  /\ conf_matrix all_fake = Raise ValueError
  /\ forall t, conf_matrix all_fake <> Ok t.
Proof. repeat split. intros t. discriminate. Qed.

(** *** The row inspector *)

(** The slider of the page on a dataset that is not empty: its bounds are
    0 and the last position, and a position outside them is not kept. *)
Lemma row_num_spec (T : Type) (df : DataFrame T) (ui : option Z) :
  records df <> [] ->
  row_num df ui
  = match ui with
    | None => 0%Z
    | Some v =>
        if ((0 <=? v) && (v <=? Z.of_nat (len df) - 1))%Z then v else 0%Z
    end.
Proof.
  intros Hne. unfold row_num, slider.
  assert (Hpos : (1 <= Z.of_nat (len df))%Z).
  { unfold len. destruct (records df); [congruence|cbn [length]; lia]. }
  destruct ui as [v|]; [|reflexivity]. cbv zeta.
  replace (Z.min 0 (Z.of_nat (len df) - 1)) with 0%Z by lia.
  replace (Z.max 0 (Z.of_nat (len df) - 1)) with (Z.of_nat (len df) - 1)%Z
    by lia.
  replace (Z.min 0 0) with 0%Z by lia.
  replace (Z.max 0 (Z.of_nat (len df) - 1)) with (Z.of_nat (len df) - 1)%Z
    by lia.
  reflexivity.
Qed.

Lemma row_num_range (T : Type) (df : DataFrame T) (ui : option Z) :
  records df <> [] ->
  (0 <= row_num df ui <= Z.of_nat (len df) - 1)%Z.
Proof.
  intros Hne. rewrite (row_num_spec df ui Hne).
  assert (Hpos : (1 <= Z.of_nat (len df))%Z).
  { unfold len. destruct (records df); [congruence|cbn [length]; lia]. }
  destruct ui as [v|]; [|lia].
  destruct (Z.leb_spec 0 v); destruct (Z.leb_spec v (Z.of_nat (len df) - 1));
    cbn [andb]; lia.
Qed.

Lemma iloc_in_range (R : Type) (x : list R) (i : Z) :
  (0 <= i < Z.of_nat (length x))%Z ->
  exists r, iloc x i = Ok r /\ nth_error x (Z.to_nat i) = Some r.
Proof.
  intros Hi. unfold iloc.
  destruct (Z.ltb_spec i 0) as [H|_]; [lia|].
  destruct (Z.leb_spec 0 i) as [_|H]; [|lia].
  destruct (Z.ltb_spec i (Z.of_nat (length x))) as [_|H]; [|lia].
  cbn [andb].
  destruct (nth_error x (Z.to_nat i)) as [r|] eqn:E; [eauto|].
  apply nth_error_None in E. lia.
Qed.

Lemma row_runs (T : Type) (df : DataFrame T) (ui : option Z) :
  records df <> [] ->
  exists r, row df ui = Ok r
    /\ nth_error (records df) (Z.to_nat (row_num df ui)) = Some r.
Proof.
  intros Hne. pose proof (row_num_range df ui Hne) as Hr.
  apply iloc_in_range. unfold len in Hr. lia.
Qed.

(** C8.  On a dataset that is not empty, whatever position the session
    holds for the slider, the row number stays between 0 and the number of
    records minus 1 and the lookup returns the record at that position.
    A position within the range is taken as it is, 0 and the last one
    included; a position outside the range is rejected: the slider goes
    back to its initial value and row 0 is shown. *)
Theorem row_lookup_in_bounds (T : Type) (df : DataFrame T)
    (ui : option Z) :
  records df <> [] ->
  let last := (Z.of_nat (len df) - 1)%Z in
  (0 <= row_num df ui <= last)%Z
  /\ (exists r, row df ui = Ok r
                /\ nth_error (records df) (Z.to_nat (row_num df ui))
                   = Some r)
  /\ row_num df None = 0%Z
  /\ row_num df (Some 0%Z) = 0%Z
  /\ row_num df (Some last) = last
  /\ (forall v, (0 <= v <= last)%Z -> row_num df (Some v) = v)
  /\ (forall v, (v < 0 \/ last < v)%Z -> row_num df (Some v) = 0%Z).
Proof.
  intros Hne. cbv zeta.
  assert (Hpos : (1 <= Z.of_nat (len df))%Z).
  { unfold len. destruct (records df); [congruence|cbn [length]; lia]. }
  assert (Hin : forall v, (0 <= v <= Z.of_nat (len df) - 1)%Z ->
                          row_num df (Some v) = v).
  { intros v Hv. rewrite (row_num_spec df (Some v) Hne).
    destruct (Z.leb_spec 0 v); [|lia].
    destruct (Z.leb_spec v (Z.of_nat (len df) - 1)); [|lia]. reflexivity. }
  split; [now apply row_num_range|]. split; [now apply row_runs|].
  split; [now rewrite (row_num_spec df None Hne)|].
  split; [apply Hin; lia|]. split; [apply Hin; lia|]. split; [exact Hin|].
  intros v Hv. rewrite (row_num_spec df (Some v) Hne).
  destruct (Z.leb_spec 0 v);
    destruct (Z.leb_spec v (Z.of_nat (len df) - 1)); cbn [andb];
    reflexivity || lia.
Qed.

Lemma row_lookup_in_bounds_witness :
  row (WithTimestamps scenario_rows) (Some 0%Z)
  = Ok (mkRow "one" 1 "Positive")
  /\ row (WithTimestamps scenario_rows) (Some 4%Z)
     = Ok (mkRow "five" 0 "Negative")
  /\ row_num (WithTimestamps scenario_rows) (Some 7%Z) = 0%Z
  /\ row_num (WithTimestamps scenario_rows) (Some (-7)%Z) = 0%Z
  /\ exists v,
       dashboard (WithTimestamps scenario_rows) (Some 7%Z) = Ok v
       /\ inspected v = mkRow "one" 1 "Positive".
Proof.
  assert (Hne : records (WithTimestamps scenario_rows) <> [])
    by discriminate.
  destruct (row_lookup_in_bounds (WithTimestamps scenario_rows)
              (Some 7%Z) Hne)
    as [_ [_ [_ [_ [_ [_ Hout]]]]]].
  split; [vm_compute; reflexivity|]. split; [vm_compute; reflexivity|].
  split; [apply Hout; right; vm_compute; reflexivity|].
  split; [apply Hout; left; vm_compute; reflexivity|].
  eexists. split; [vm_compute; reflexivity|reflexivity].
Defined.

(** *** The counts of sections 2 and 6 *)

Lemma sent_counts_pulse (T : Type) (df : DataFrame T) :
  sent_counts df = pulse df
  /\ pulse df
     = map (fun s => (s, count String.eqb s (map sentiment_label (records df))))
           sent_order.
Proof.
  unfold sent_counts, pulse, reindex. split; [reflexivity|].
  apply map_ext. intros s. now rewrite get_value_counts.
Qed.

(** *** A file without the timestamp column *)

(** Without the column the page renders as soon as both labels occur in the
    data: every view but the two weekly ones is there. *)
Lemma dashboard_without_timestamps (x : list Row) (ui : option Z) :
  binary_labels x ->
  In 0%Z (map fake_news_label x) -> In 1%Z (map fake_news_label x) ->
  exists r,
    dashboard (WithoutTimestamps x) ui
    = Ok (mkViews (label_counts (WithoutTimestamps (T := Z) x))
                  (sent_counts (WithoutTimestamps (T := Z) x))
                  None None (Crosstab_spec x)
                  (pulse (WithoutTimestamps (T := Z) x)) r)
    /\ In r x.
Proof.
  intros Hb H0 H1.
  assert (Hne : records (WithoutTimestamps (T := Z) x) <> []).
  { cbn [records]. destruct x; [contradiction|discriminate]. }
  destruct (row_runs (WithoutTimestamps (T := Z) x) ui Hne) as [r [Er En]].
  exists r. split; [|eapply nth_error_In, En].
  unfold dashboard. cbn [section4 bind].
  rewrite (conf_matrix_both_labels (WithoutTimestamps (T := Z) x) Hb H0 H1).
  cbn [bind]. rewrite Er. reflexivity.
Qed.

(** C9.  A file without the column [tweetcreatedts] whose records are all
    real news: loading returns the table as read, whatever the date parser
    does; sections 3 and 4 are skipped; the label chart shows 1 and 0 and
    the sentiment chart 1, 0 and 0.  But the cross-tabulation is not
    computed: naming its single row Real and Fake raises, and the script
    stops there, before the sentiment counts of section 6 and the row
    inspector, wherever the slider stands. *)
Theorem missing_timestamps_all_real_stops
    (to_datetime : list string -> result (list Z)) (ui : option Z) :
  load_data to_datetime all_real_as_read = Ok all_real
  /\ has_tweetcreatedts all_real = false
  /\ section3 all_real = None
  /\ section4 all_real = Ok None
  /\ label_counts all_real = [(0%Z, 1%nat); (1%Z, 0%nat)]
  /\ sent_counts all_real
     = [("Negative"%string, 1%nat); ("Neutral"%string, 0%nat);
        ("Positive"%string, 0%nat)]
  /\ conf_matrix all_real = Raise ValueError
  /\ dashboard all_real ui = Raise ValueError.
Proof. repeat split. Qed.
End TableClaims.

(* ================================================================== *)
(** ** The two weekly pipelines *)

Section StackedFacts.
Import Pandas App.
Local Open Scope Qc_scope.

(** a timestamp whose week starts at a midnight that a timestamp can hold
    is not the missing one *)
Lemma week_start_notna (t : Z) :
  in_bounds (start_ns (to_period_W t)) = true -> isna t = false.
Proof.
  intros H. unfold isna. apply Z.eqb_neq. intros ->.
  vm_compute in H. discriminate H.
Qed.

Lemma df_weekly_stacked_ok (rows : list (Row * Z)) :
  week_starts_in_bounds rows ->
  df_weekly_stacked rows = Ok (stacked_rows rows).
Proof.
  induction 1 as [|p rows Hp _ IH]; cbn [df_weekly_stacked]; [reflexivity|].
  unfold dt_to_period_W. rewrite (week_start_notna _ Hp).
  cbn [cell_start_time]. unfold start_time. rewrite Hp. cbn [bind].
  rewrite IH. reflexivity.
Qed.

Lemma groupby_start_times (rows : list (Row * Z)) :
  groupby Z.compare snd (stacked_rows rows)
  = map (fun o =>
           (start_ns o,
            stacked_rows (filter (fun p => in_week o (snd p)) rows)))
        (weeks rows).
Proof.
  unfold stacked_rows at 1. rewrite groupby_map. cbn [snd].
  change (fun r : Row * Z => start_ns (to_period_W (snd r)))
    with (fun r : Row * Z => start_ns (week_of r)).
  rewrite (groupby_relabel Z.compare Z.compare start_ns).
  - rewrite groupby_weeks, !map_map. reflexivity.
  - intros a b _ _. apply start_ns_compare.
Qed.

Lemma stacked_rows_sentiments (l : list (Row * Z)) :
  map (fun p => sentiment_label (fst p)) (stacked_rows l)
  = map sentiment_label (map fst l).
Proof. unfold stacked_rows. rewrite !map_map. reflexivity. Qed.

(** Section 4, week by week: the index holds the starts of the weeks in
    increasing order, the columns are Negative, Neutral, Positive, and a
    cell is the share of its sentiment among the records of its week. *)
Lemma weekly_stacked_by_week (rows : list (Row * Z)) :
  week_starts_in_bounds rows ->
  weekly_stacked rows
  = Ok (mkFrame (map start_ns (weeks rows)) sent_order
          (map (fun o =>
                  map (fun s => share s (week_records o rows)) sent_order)
               (weeks rows))).
Proof.
  intros Hs. unfold weekly_stacked.
  rewrite (df_weekly_stacked_ok Hs). cbn [bind].
  rewrite stacked_pipeline. unfold tabulate.
  rewrite groupby_start_times, !map_map. cbn [fst snd].
  do 2 f_equal. apply map_ext. intros o. apply map_ext. intros s.
  unfold cell. cbn [snd].
  rewrite stacked_rows_sentiments, get_value_counts_normalized.
  fold (week_records o rows).
  now rewrite share_count, length_map.
Qed.

Lemma weekly_sentiment_columns (rows : list (Row * Z)) :
  timestamps_in_bounds rows ->
  map (fun w => [neg w; neu w; pos w]) (weekly rows)
  = map (fun o => map (fun s => share s (week_records o rows)) sent_order)
        (weeks rows).
Proof.
  intros Ht. rewrite (weekly_by_week Ht), map_map.
  apply map_ext. intros o. unfold agg. cbn [neg neu pos fst snd map].
  rewrite week_texts_records. reflexivity.
Qed.

(** A timestamp in the first, cut week of the representable range: the
    start of its week cannot be built, and section 4 stops there. *)
Example weekly_stacked_first_week :
  in_bounds Timestamp_min = true
  /\ weekly_stacked [(mkRow "early" 0 "Neutral", Timestamp_min)]
     = Raise OutOfBoundsDatetime.
Proof. split; reflexivity. Qed.

End StackedFacts.

Section PipelineClaims.
Import Pandas App.
Local Open Scope Qc_scope.

(** C10.  On a dataset with timestamps (representable, as are the starts
    of their weeks), the stacked table of section 4 and the weekly table
    of section 3 have one row per week of the data, in the same order, the
    first labelled by the start of the week and the second by the text of
    the period; and row by row the Negative, Neutral and Positive
    proportions of section 4 are the [neg], [neu] and [pos] of
    section 3. *)
Theorem weekly_pipelines_agree (rows : list (Row * Z)) :
  timestamps_in_bounds rows ->
  week_starts_in_bounds rows ->
  exists f,
    weekly_stacked rows = Ok f
    /\ columns f = ["Negative"; "Neutral"; "Positive"]%string
    /\ values f = map (fun w => [neg w; neu w; pos w]) (weekly rows)
    /\ index f = map start_ns (weeks rows)
    /\ map week (weekly rows) = map period_str (weeks rows).
Proof.
  intros Ht Hs. eexists. split; [now apply weekly_stacked_by_week|].
  cbn [columns values index]. split; [reflexivity|].
  split; [symmetry; now apply weekly_sentiment_columns|].
  split; [reflexivity|now apply weekly_weeks].
Qed.

Lemma weekly_pipelines_agree_witness :
  exists f,
    weekly_stacked scenario_rows = Ok f
    /\ columns f = ["Negative"; "Neutral"; "Positive"]%string
    /\ values f
       = map (fun w => [neg w; neu w; pos w]) (weekly scenario_rows)
    /\ index f = [1609718400000000000%Z]
    /\ map week (weekly scenario_rows) = ["2021-01-04/2021-01-10"%string].
Proof.
  destruct (weekly_pipelines_agree (rows := scenario_rows))
    as [f [H1 [H2 [H3 [H4 H5]]]]].
  - repeat (apply Forall_cons; [vm_compute; reflexivity|]); apply Forall_nil.
  - repeat (apply Forall_cons; [vm_compute; reflexivity|]); apply Forall_nil.
  - exists f. repeat split; assumption.
Defined.

(** C5.  The weekly table of section 3 is meant to label a week by its
    start date.  On the five records of the scenario, which fall in the
    week that starts on Monday 2021-01-04, it labels the week with the text
    of the period, start date, slash, end date; the stacked table of
    section 4 labels the same week with the midnight that starts it, whose
    date is the start date.  So no row of the weekly table carries the
    start date of the week of any record. *)
Theorem weekly_label_is_period_text :
  map to_period_W (map snd scenario_rows)
  = [2663; 2663; 2663; 2663; 2663]%Z
  /\ strftime_ymd (week_start_day 2663) = "2021-01-04"%string
  /\ weekday (week_start_day 2663) = 0%Z
  /\ map week (weekly scenario_rows) = ["2021-01-04/2021-01-10"%string]
  /\ (exists f, weekly_stacked scenario_rows = Ok f
                /\ index f = [start_ns 2663]
                /\ map (fun t => strftime_ymd (unix_date t)) (index f)
                   = ["2021-01-04"%string])
  /\ ~ (exists w p, In w (weekly scenario_rows) /\ In p scenario_rows
         /\ week w = strftime_ymd (week_start_day (to_period_W (snd p)))).
Proof.
  split; [vm_compute; reflexivity|]. split; [vm_compute; reflexivity|].
  split; [vm_compute; reflexivity|]. split; [vm_compute; reflexivity|].
  split.
  - eexists. split; [vm_compute; reflexivity|].
    split; vm_compute; reflexivity.
  - intros [w [p [Hw [Hp E]]]].
    assert (Hweek : map week (weekly scenario_rows)
                    = ["2021-01-04/2021-01-10"%string])
      by (vm_compute; reflexivity).
    apply (in_map week) in Hw. rewrite Hweek in Hw.
    destruct Hw as [Hw|[]]. rewrite <- Hw in E.
    repeat (destruct Hp as [<-|Hp]; [vm_compute in E; discriminate E|]).
    exact Hp.
Qed.
End PipelineClaims.

(* ================================================================== *)
(** ** Value counts over any column *)

Section AnyValueCounts.
Import Pandas.
Variables (A : Type) (eqb : A -> A -> bool).
Hypothesis eqb_spec : forall a b, reflect (a = b) (eqb a b).

Lemma any_lookup_Some_In (V : Type) (a : A) (s : list (A * V)) (v : V) :
  lookup eqb a s = Some v -> In (a, v) s.
Proof.
  induction s as [|[k u] s IH]; cbn [lookup In]; [discriminate|].
  destruct (eqb_spec a k) as [->|Hne].
  - intros [= ->]. now left.
  - intros H. right. now apply IH.
Qed.

Lemma any_lookup_None_keys (V : Type) (a : A) (s : list (A * V)) :
  lookup eqb a s = None -> ~ In a (map fst s).
Proof.
  induction s as [|[k u] s IH]; cbn [lookup map fst In]; [tauto|].
  destruct (eqb_spec a k) as [->|Hne]; [discriminate|].
  intros H [E|Hin]; [now apply Hne|now apply IH].
Qed.

Lemma any_unique_In (a : A) (xs : list A) :
  In a (unique eqb xs) <-> In a xs.
Proof.
  induction xs as [|x xs IH]; cbn [unique In]; [tauto|].
  rewrite filter_In, IH.
  destruct (eqb_spec x a) as [->|Hne]; cbn [negb]; intuition auto.
Qed.

Lemma any_insert_desc_In (p q : A * nat) (s : list (A * nat)) :
  In p (insert_desc q s) <-> p = q \/ In p s.
Proof.
  induction s as [|r s IH]; cbn [insert_desc In].
  - intuition auto.
  - destruct (snd r <=? snd q)%nat; cbn [In]; [intuition auto|].
    rewrite IH. intuition auto.
Qed.

Lemma any_sort_desc_In (p : A * nat) (s : list (A * nat)) :
  In p (sort_desc s) <-> In p s.
Proof.
  induction s as [|q s IH]; cbn [sort_desc fold_right In]; [tauto|].
  fold (sort_desc s). rewrite any_insert_desc_In, IH. intuition auto.
Qed.

Lemma any_value_counts_In (xs : list A) (a : A) (n : nat) :
  In (a, n) (value_counts eqb xs) <-> In a xs /\ n = count eqb a xs.
Proof.
  unfold value_counts. rewrite any_sort_desc_In, in_map_iff. split.
  - intros [b [E Hb]]. injection E as -> <-.
    apply (proj1 (any_unique_In _ _)) in Hb. tauto.
  - intros [Ha ->]. exists a. split; [reflexivity|now apply any_unique_In].
Qed.

Lemma any_count_absent (xs : list A) (a : A) :
  ~ In a xs -> count eqb a xs = O.
Proof.
  unfold count. induction xs as [|x xs IH]; cbn [filter In]; [reflexivity|].
  intros H. destruct (eqb_spec a x) as [->|Hne]; [tauto|].
  apply IH. tauto.
Qed.

(** the count read from [value_counts()] under a label, with 0 for a label
    that does not occur *)
Lemma any_get_value_counts (xs : list A) (a : A) :
  get eqb a (value_counts eqb xs) O = count eqb a xs.
Proof.
  unfold get.
  destruct (lookup eqb a (value_counts eqb xs)) as [n|] eqn:E.
  - apply any_lookup_Some_In, any_value_counts_In in E. tauto.
  - apply any_lookup_None_keys in E. symmetry. apply any_count_absent.
    intros Ha. apply E. apply in_map_iff.
    exists (a, count eqb a xs). split; [reflexivity|].
    now apply any_value_counts_In.
Qed.

(** the entries of [value_counts()] are the distinct values, once each *)
Lemma any_value_counts_keys (xs : list A) (a : A) :
  In a (map fst (value_counts eqb xs)) <-> In a xs.
Proof.
  rewrite in_map_iff. split.
  - intros [[b n] [<- H]]. apply any_value_counts_In in H. tauto.
  - intros H. exists (a, count eqb a xs). split; [reflexivity|].
    now apply any_value_counts_In.
Qed.
End AnyValueCounts.

(* ================================================================== *)
(** ** The counts of the two distribution charts and of the glyphs *)

Section ChartFacts.
Import Pandas App.

Lemma count_labels (l : Z) (x : list Row) :
  count Z.eqb l (map fake_news_label x)
  = length (filter (fun r => Z.eqb (fake_news_label r) l) x).
Proof.
  rewrite count_map. f_equal. apply filter_ext. intros r. apply Z.eqb_sym.
Qed.

Lemma count_sentiments (s : string) (x : list Row) :
  count String.eqb s (map sentiment_label x)
  = length (filter (fun r => String.eqb (sentiment_label r) s) x).
Proof.
  rewrite count_map. f_equal. apply filter_ext. intros r.
  apply String.eqb_sym.
Qed.

Lemma binary_label_split (x : list Row) :
  (length (filter (fun r => Z.eqb (fake_news_label r) 0) x)
   + length (filter (fun r => Z.eqb (fake_news_label r) 1) x))%nat
  = length (filter binary_label x).
Proof.
  unfold binary_label.
  induction x as [|r x IH]; cbn [filter length]; [reflexivity|].
  destruct (Z.eqb_spec (fake_news_label r) 0) as [E|E].
  - rewrite E. cbn [Z.eqb orb length]. lia.
  - destruct (Z.eqb_spec (fake_news_label r) 1); cbn [orb length]; lia.
Qed.

Lemma known_sentiment_split (x : list Row) :
  (length (filter (fun r => String.eqb (sentiment_label r) "Negative") x)
   + length (filter (fun r => String.eqb (sentiment_label r) "Neutral") x)
   + length (filter (fun r => String.eqb (sentiment_label r) "Positive")
                    x))%nat
  = length (filter known_sentiment x).
Proof.
  unfold known_sentiment, sent_order. cbn [existsb].
  induction x as [|r x IH]; cbn [filter length]; [reflexivity|].
  destruct (String.eqb_spec (sentiment_label r) "Negative") as [E|E].
  - rewrite E. cbn [orb length].
    change (String.eqb "Negative" "Neutral") with false.
    change (String.eqb "Negative" "Positive") with false. lia.
  - destruct (String.eqb_spec (sentiment_label r) "Neutral") as [E'|E'].
    + rewrite E'. cbn [orb length].
      change (String.eqb "Neutral" "Positive") with false. lia.
    + destruct (String.eqb (sentiment_label r) "Positive");
        cbn [orb length]; lia.
Qed.

(** X1.  The label chart always has its two bars, Real then Fake: the
    numbers of records with label 0 and with label 1, a label that does
    not occur counting 0.  Records with any other label are in neither
    bar: the two bars add up to the number of records labelled 0 or 1. *)
Theorem label_chart_counts (T : Type) (df : DataFrame T) :
  let x := records df in
  let real := length (filter (fun r => Z.eqb (fake_news_label r) 0) x) in
  let fake := length (filter (fun r => Z.eqb (fake_news_label r) 1) x) in
  label_counts df = [(0%Z, real); (1%Z, fake)]
  /\ (real + fake)%nat = length (filter binary_label x)
  /\ (real + fake <= len df)%nat.
Proof.
  cbv zeta. unfold label_counts, reindex, label_order. cbn [map].
  rewrite !(any_get_value_counts Z.eqb Z.eqb_spec), !count_labels.
  split; [reflexivity|]. rewrite binary_label_split.
  split; [reflexivity|]. apply filter_length_le.
Qed.

(** X2.  The sentiment chart of section 2 and the glyph lines of section 6
    show the same three counts, for Negative, Neutral and Positive in that
    order: the number of records with that sentiment, 0 for a sentiment
    that does not occur.  Records with any other sentiment are counted
    nowhere: the three counts add up to the number of records with a known
    sentiment. *)
Theorem sentiment_counts_agree (T : Type) (df : DataFrame T) :
  let x := records df in
  let n (s : string) :=
    length (filter (fun r => String.eqb (sentiment_label r) s) x) in
  sent_counts df = pulse df
  /\ pulse df
     = [("Negative"%string, n "Negative"%string);
        ("Neutral"%string, n "Neutral"%string);
        ("Positive"%string, n "Positive"%string)]
  /\ list_sum (map snd (pulse df)) = length (filter known_sentiment x)
  /\ (list_sum (map snd (pulse df)) <= len df)%nat.
Proof.
  cbv zeta.
  assert (E : pulse df
     = [("Negative"%string,
         length (filter (fun r => String.eqb (sentiment_label r) "Negative")
                        (records df)));
        ("Neutral"%string,
         length (filter (fun r => String.eqb (sentiment_label r) "Neutral")
                        (records df)));
        ("Positive"%string,
         length (filter (fun r => String.eqb (sentiment_label r) "Positive")
                        (records df)))]).
  { unfold pulse, sent_order. cbn [map].
    rewrite !(any_get_value_counts String.eqb String.eqb_spec).
    rewrite !count_sentiments.
    reflexivity. }
  split; [reflexivity|]. split; [exact E|].
  rewrite E. cbn [map snd list_sum fold_right].
  rewrite Nat.add_0_r, Nat.add_assoc, known_sentiment_split.
  split; [reflexivity|]. apply filter_length_le.
Qed.
End ChartFacts.

(* ================================================================== *)
(** ** More on the cross-tabulation and on the page *)

Section TableFacts.
Import Pandas App.

Lemma filter_both (A : Type) (p q : A -> bool) (x : list A) :
  filter (fun a => p a && q a) x = filter q (filter p x).
Proof.
  induction x as [|a x IH]; cbn [filter]; [reflexivity|].
  destruct (p a); cbn [andb filter]; [|exact IH].
  destruct (q a); now rewrite IH.
Qed.

Lemma binary_labels_filter (x : list Row) :
  binary_labels x -> filter binary_label x = x.
Proof.
  intros H. apply filter_all. eapply Forall_impl; [|exact H].
  intros r [E|E]; unfold binary_label; rewrite E; reflexivity.
Qed.

Lemma known_sentiments_filter (x : list Row) :
  known_sentiments x -> filter known_sentiment x = x.
Proof.
  intros H. apply filter_all. eapply Forall_impl; [|exact H].
  intros r Hr. unfold known_sentiment. apply existsb_exists.
  exists (sentiment_label r). split; [exact Hr|apply String.eqb_refl].
Qed.

Lemma cell_count_nested (l : Z) (s : string) (x : list Row) :
  cell_count l s x
  = length (filter (fun r => String.eqb (sentiment_label r) s)
                   (filter (fun r => Z.eqb (fake_news_label r) l) x)).
Proof. unfold cell_count. now rewrite filter_both. Qed.

Lemma cell_count_nested' (l : Z) (s : string) (x : list Row) :
  cell_count l s x
  = length (filter (fun r => Z.eqb (fake_news_label r) l)
                   (filter (fun r => String.eqb (sentiment_label r) s) x)).
Proof.
  unfold cell_count. rewrite <- filter_both. f_equal.
  apply filter_ext. intros r. apply andb_comm.
Qed.

(** a row of the table adds up to the records of its label that have a
    known sentiment *)
Lemma crosstab_row_sum (l : Z) (x : list Row) :
  list_sum (map (fun s => cell_count l s x) sent_order)
  = length (filter known_sentiment
                   (filter (fun r => Z.eqb (fake_news_label r) l) x)).
Proof.
  unfold sent_order. cbn [map list_sum fold_right].
  rewrite !cell_count_nested, Nat.add_0_r, Nat.add_assoc.
  apply known_sentiment_split.
Qed.

(** a column of the table adds up to the records of its sentiment that
    have label 0 or 1 *)
Lemma crosstab_column_sum (s : string) (x : list Row) :
  (cell_count 0 s x + cell_count 1 s x)%nat
  = length (filter binary_label
                   (filter (fun r => String.eqb (sentiment_label r) s) x)).
Proof. rewrite !cell_count_nested'. apply binary_label_split. Qed.

Lemma crosstab_spec_total_known (x : list Row) :
  binary_labels x ->
  table_total (Crosstab_spec x) = length (filter known_sentiment x).
Proof.
  intros Hb. unfold table_total, Crosstab_spec, label_order.
  cbn [values map list_sum fold_right].
  rewrite !crosstab_row_sum, Nat.add_0_r.
  rewrite <- !filter_both.
  rewrite (filter_ext (fun r => Z.eqb (fake_news_label r) 0
                                && known_sentiment r)
             (fun r => known_sentiment r && Z.eqb (fake_news_label r) 0))
    by (intros r; apply andb_comm).
  rewrite (filter_ext (fun r => Z.eqb (fake_news_label r) 1
                                && known_sentiment r)
             (fun r => known_sentiment r && Z.eqb (fake_news_label r) 1))
    by (intros r; apply andb_comm).
  rewrite !filter_both, binary_label_split.
  rewrite binary_labels_filter; [reflexivity|].
  unfold binary_labels in *. rewrite Forall_forall in *.
  intros r Hr. apply Hb. apply filter_In in Hr. tauto.
Qed.

(** X3.  On labels 0 and 1, every record having one of the three
    sentiments, the cross-tabulation is produced exactly when the dataset
    has no record at all or both labels occur in it.  It is then the table
    of the counts of each label with each sentiment, rows Real and Fake,
    columns Negative, Neutral, Positive (all 0 without records); otherwise
    some record is there, a label is missing and the script stops on a
    ValueError. *)
Theorem conf_matrix_iff_both_labels (T : Type) (df : DataFrame T) :
  binary_labels (records df) ->
  known_sentiments (records df) ->
  ((exists t, conf_matrix df = Ok t)
   <-> records df = []
       \/ (In 0%Z (map fake_news_label (records df))
           /\ In 1%Z (map fake_news_label (records df))))
  /\ (forall t, conf_matrix df = Ok t ->
        index t = ["Real"; "Fake"]%string
        /\ columns t = ["Negative"; "Neutral"; "Positive"]%string
        /\ values t
           = map (fun l => map (fun s => cell_count l s (records df))
                               ["Negative"; "Neutral"; "Positive"]%string)
                 [0%Z; 1%Z])
  /\ (forall e, conf_matrix df = Raise e ->
        e = ValueError /\ records df <> []
        /\ (~ In 0%Z (map fake_news_label (records df))
            \/ ~ In 1%Z (map fake_news_label (records df)))).
Proof.
  intros Hb _.
  destruct (conf_matrix_cases df Hb) as [[Hok E]|[Hne [Hl E]]]; rewrite E.
  - split; [split; [tauto|eexists; reflexivity]|].
    split; [|discriminate].
    intros t [= <-]. repeat split.
  - split; [split; [intros [t Ht]; discriminate|tauto]|].
    split; [discriminate|]. intros e [= <-]. tauto.
Qed.

Lemma conf_matrix_iff_both_labels_witness :
  (exists t, conf_matrix (WithTimestamps scenario_rows) = Ok t
     /\ values t = [[2; 1; 0]; [0; 0; 2]]%nat)
  /\ (exists t, conf_matrix no_record = Ok t
        /\ values t = [[0; 0; 0]; [0; 0; 0]]%nat).
Proof.
  assert (Hb : binary_labels (records (WithTimestamps scenario_rows)))
    by (repeat (apply Forall_cons; [cbn; auto|]); apply Forall_nil).
  assert (Hk : known_sentiments (records (WithTimestamps scenario_rows)))
    by (repeat (apply Forall_cons; [cbn; auto|]); apply Forall_nil).
  destruct (conf_matrix_iff_both_labels (WithTimestamps scenario_rows)
              Hb Hk) as [[_ Hex] [Hval _]].
  destruct (conf_matrix_iff_both_labels no_record
              (Forall_nil _) (Forall_nil _)) as [[_ Hex0] [Hval0 _]].
  split.
  - destruct Hex as [t Ht]; [right; split; cbn; auto|].
    exists t. split; [exact Ht|].
    destruct (Hval t Ht) as [_ [_ Hv]]. rewrite Hv. reflexivity.
  - destruct Hex0 as [t Ht]; [now left|].
    exists t. split; [exact Ht|].
    destruct (Hval0 t Ht) as [_ [_ Hv]]. rewrite Hv. reflexivity.
Defined.

(** X4.  When the cross-tabulation is produced on labels 0 and 1 and known
    sentiments, its margins are the two distribution charts: the sums of
    its rows are the counts of the label chart and the sums of its columns
    are the counts of the sentiment chart. *)
Theorem conf_matrix_margins (T : Type) (df : DataFrame T)
    (t : Frame string string nat) :
  binary_labels (records df) ->
  known_sentiments (records df) ->
  conf_matrix df = Ok t ->
  map (@list_sum) (values t) = map snd (label_counts df)
  /\ column_sums 3 (values t) = map snd (sent_counts df).
Proof.
  intros Hb Hk E.
  destruct (conf_matrix_cases df Hb) as [[_ E']|[_ [_ E']]];
    rewrite E' in E; [|discriminate].
  injection E as <-.
  unfold Crosstab_spec, label_order. cbn [values map].
  rewrite !crosstab_row_sum.
  unfold label_counts, sent_counts, reindex, label_order, sent_order.
  cbn [map snd].
  rewrite !(any_get_value_counts Z.eqb Z.eqb_spec), !count_labels.
  rewrite !(any_get_value_counts String.eqb String.eqb_spec),
    !count_sentiments.
  split.
  - rewrite !known_sentiments_filter; [reflexivity| |].
    all: unfold known_sentiments in *; rewrite Forall_forall in *;
      intros r Hr; apply Hk; apply filter_In in Hr; tauto.
  - unfold column_sums. cbn [seq map nth list_sum fold_right].
    rewrite !Nat.add_0_r, !crosstab_column_sum.
    rewrite !binary_labels_filter; [reflexivity| | |].
    all: unfold binary_labels in *; rewrite Forall_forall in *;
      intros r Hr; apply Hb; apply filter_In in Hr; tauto.
Qed.

Lemma conf_matrix_margins_witness :
  exists t, conf_matrix (WithTimestamps scenario_rows) = Ok t
    /\ map (@list_sum) (values t) = [3; 2]%nat
    /\ column_sums 3 (values t) = [2; 1; 2]%nat.
Proof.
  assert (Hb : binary_labels (records (WithTimestamps scenario_rows)))
    by (repeat (apply Forall_cons; [cbn; auto|]); apply Forall_nil).
  assert (Hk : known_sentiments (records (WithTimestamps scenario_rows)))
    by (repeat (apply Forall_cons; [cbn; auto|]); apply Forall_nil).
  exists (Crosstab_spec (records (WithTimestamps scenario_rows))).
  assert (E : conf_matrix (WithTimestamps scenario_rows)
              = Ok (Crosstab_spec (records (WithTimestamps scenario_rows))))
    by reflexivity.
  destruct (conf_matrix_margins (WithTimestamps scenario_rows) Hb Hk E)
    as [H1 H2].
  split; [exact E|]. split; [rewrite H1|rewrite H2]; reflexivity.
Defined.

(** X5.  When the cross-tabulation is produced on labels 0 and 1, a record
    whose sentiment is not one of the three columns is in no cell: the six
    cells add up to the number of records with a known sentiment, which is
    at most the number of records. *)
Theorem conf_matrix_counts_known_sentiments (T : Type) (df : DataFrame T)
    (t : Frame string string nat) :
  binary_labels (records df) ->
  conf_matrix df = Ok t ->
  table_total t = length (filter known_sentiment (records df))
  /\ (table_total t <= len df)%nat.
Proof.
  intros Hb E.
  destruct (conf_matrix_cases df Hb) as [[_ E']|[_ [_ E']]];
    rewrite E' in E; [|discriminate].
  injection E as <-. rewrite (crosstab_spec_total_known Hb).
  split; [reflexivity|apply filter_length_le].
Qed.

Lemma conf_matrix_counts_known_sentiments_witness :
  exists t,
    conf_matrix (WithoutTimestamps (T := Z)
                   [mkRow "a" 0 "Negative"; mkRow "b" 1 "Mixed";
                    mkRow "c" 1 "Neutral"]) = Ok t
    /\ table_total t = 2%nat.
Proof.
  eexists. split; [reflexivity|].
  refine (proj1 (@conf_matrix_counts_known_sentiments Z
            (WithoutTimestamps
               [mkRow "a" 0 "Negative"; mkRow "b" 1 "Mixed";
                mkRow "c" 1 "Neutral"]) _ _ eq_refl)).
  repeat (apply Forall_cons; [cbn; auto|]); apply Forall_nil.
Defined.
End TableFacts.

(* ================================================================== *)
(** ** The page as a whole *)

Section PageFacts.
Import Pandas App.

Lemma section4_runs (df : DataFrame Z) :
  weeks_representable df ->
  exists o, section4 df = Ok o
    /\ (o = None <-> has_tweetcreatedts df = false).
Proof.
  destruct df as [rows|rows]; cbn [weeks_representable section4
                                   has_tweetcreatedts].
  - intros H. rewrite (weekly_stacked_by_week H). cbn [bind].
    eexists. split; [reflexivity|]. split; discriminate.
  - intros _. exists None. repeat split.
Qed.

Lemma row_no_record (T : Type) (df : DataFrame T) (ui : option Z) :
  records df = [] -> row df ui = Raise IndexError.
Proof.
  intros E. unfold row, iloc. rewrite E. cbn [length Z.of_nat].
  generalize (row_num df ui). intros i.
  destruct (Z.ltb_spec i 0) as [H|H].
  - rewrite Z.add_0_r. destruct (Z.leb_spec 0 i); [lia|]. reflexivity.
  - destruct (Z.ltb_spec i 0); [lia|]. now rewrite andb_false_r.
Qed.

(** What the page does, on labels 0 and 1 and weeks that start at a
    representable midnight. *)
Lemma dashboard_cases (df : DataFrame Z) (ui : option Z) :
  binary_labels (records df) ->
  weeks_representable df ->
  (In 0%Z (map fake_news_label (records df))
   /\ In 1%Z (map fake_news_label (records df))
   /\ exists o r,
        section4 df = Ok o
        /\ (o = None <-> has_tweetcreatedts df = false)
        /\ In r (records df)
        /\ dashboard df ui
           = Ok (mkViews (label_counts df) (sent_counts df) (section3 df) o
                         (Crosstab_spec (records df)) (pulse df) r))
  \/ (records df = [] /\ dashboard df ui = Raise IndexError)
  \/ (records df <> []
      /\ (~ In 0%Z (map fake_news_label (records df))
          \/ ~ In 1%Z (map fake_news_label (records df)))
      /\ dashboard df ui = Raise ValueError).
Proof.
  intros Hb Hw. unfold dashboard.
  destruct (section4_runs df Hw) as [o [E4 Ho]]. rewrite E4. cbn [bind].
  destruct (conf_matrix_cases df Hb) as [[[Hnil|[H0 H1]] E5]|[Hne [Hl E5]]];
    rewrite E5; cbn [bind].
  - right. left. split; [exact Hnil|].
    now rewrite (row_no_record df ui Hnil).
  - left. split; [exact H0|]. split; [exact H1|].
    assert (Hne : records df <> []).
    { destruct (records df); [contradiction|discriminate]. }
    destruct (row_runs df ui Hne) as [r [E7 Hr]]. rewrite E7. cbn [bind].
    exists o, r. split; [reflexivity|]. split; [exact Ho|].
    split; [eapply nth_error_In, Hr|reflexivity].
  - right. right. now split.
Qed.

(** X7.  On labels 0 and 1, every record having one of the three
    sentiments (and weeks that start at a representable midnight), the
    page renders exactly when both labels occur in the data.  It then
    shows the specified cross-tabulation, the same sentiment counts in
    sections 2 and 6, a record of the dataset in the inspector, and the
    two weekly views exactly when the timestamp column is there.  When
    there are records but a label is missing, the script stops at the
    cross-tabulation on a ValueError, before the glyphs and the inspector;
    on a file without the timestamp column and without records it passes
    the cross-tabulation and stops at the inspector on an IndexError. *)
Theorem dashboard_renders_iff_both_labels (df : DataFrame Z)
    (ui : option Z) :
  binary_labels (records df) ->
  known_sentiments (records df) ->
  weeks_representable df ->
  ((exists v, dashboard df ui = Ok v)
   <-> In 0%Z (map fake_news_label (records df))
       /\ In 1%Z (map fake_news_label (records df)))
  /\ (forall v, dashboard df ui = Ok v ->
        fig_label v = label_counts df
        /\ fig_sent v = glyphs v
        /\ table5 v = Crosstab_spec (records df)
        /\ In (inspected v) (records df)
        /\ (fig3 v = None <-> has_tweetcreatedts df = false)
        /\ (fig_stack v = None <-> has_tweetcreatedts df = false))
  /\ (records df <> [] ->
      forall e, dashboard df ui = Raise e -> e = ValueError)
  /\ (records df = [] -> has_tweetcreatedts df = false ->
      conf_matrix df = Ok (Crosstab_spec [])
      /\ dashboard df ui = Raise IndexError).
Proof.
  intros Hb _ Hw.
  destruct (dashboard_cases df ui Hb Hw)
    as [[H0 [H1 [o [r [E4 [Ho [Hr E]]]]]]]|[[Hnil E]|[Hne [Hl E]]]];
    rewrite E.
  - split; [split; [tauto|eexists; reflexivity]|].
    split; [|split; [discriminate|]].
    + intros v [= <-].
      cbn [fig_label fig_sent table5 glyphs inspected fig3 fig_stack].
      split; [reflexivity|]. split; [reflexivity|]. split; [reflexivity|].
      split; [exact Hr|]. split; [|exact Ho].
      destruct df; cbn [section3 has_tweetcreatedts]; split; discriminate
        || reflexivity.
    + intros Hnil. rewrite Hnil in H0. destruct H0.
  - split; [split; [intros [v Hv]; discriminate|]|].
    + rewrite Hnil. intros [[] _].
    + split; [discriminate|]. split; [congruence|].
      intros _ _. split; [|reflexivity].
      pose proof (conf_matrix_no_record df Hnil) as C.
      rewrite Hnil in C. exact C.
  - split; [split; [intros [v Hv]; discriminate|tauto]|].
    split; [discriminate|]. split; [now intros _ e [= <-]|].
    intros Hnil. contradiction.
Qed.

Lemma dashboard_renders_iff_both_labels_witness :
  (exists v, dashboard (WithTimestamps scenario_rows) (Some 3%Z) = Ok v
     /\ inspected v = mkRow "four" 0 "Neutral")
  /\ dashboard all_real None = Raise ValueError
  /\ dashboard no_record None = Raise IndexError.
Proof.
  assert (Hb : binary_labels (records (WithTimestamps scenario_rows)))
    by (repeat (apply Forall_cons; [cbn; auto|]); apply Forall_nil).
  assert (Hk : known_sentiments (records (WithTimestamps scenario_rows)))
    by (repeat (apply Forall_cons; [cbn; auto|]); apply Forall_nil).
  assert (Hw : weeks_representable (WithTimestamps scenario_rows))
    by (repeat (apply Forall_cons; [vm_compute; reflexivity|]);
        apply Forall_nil).
  split; [|split].
  - destruct (dashboard_renders_iff_both_labels
                (WithTimestamps scenario_rows) (Some 3%Z) Hb Hk Hw)
      as [[_ Hex] _].
    destruct Hex as [v Hv]; [split; cbn; auto|].
    exists v. split; [exact Hv|].
    assert (E : exists v', dashboard (WithTimestamps scenario_rows)
                             (Some 3%Z) = Ok v'
                           /\ inspected v' = mkRow "four" 0 "Neutral")
      by (eexists; split; [vm_compute; reflexivity|reflexivity]).
    destruct E as [v' [Hv' Hi]]. rewrite Hv in Hv'.
    injection Hv' as <-. exact Hi.
  - assert (Hb' : binary_labels (records all_real))
      by (repeat (apply Forall_cons; [cbn; auto|]); apply Forall_nil).
    assert (Hk' : known_sentiments (records all_real))
      by (repeat (apply Forall_cons; [cbn; auto|]); apply Forall_nil).
    destruct (dashboard_renders_iff_both_labels all_real None Hb' Hk' I)
      as [_ [_ [Herr _]]].
    destruct (dashboard all_real None) as [v|e] eqn:E.
    + vm_compute in E. discriminate E.
    + f_equal. apply Herr; [discriminate|reflexivity].
  - destruct (dashboard_renders_iff_both_labels no_record None
                (Forall_nil _) (Forall_nil _) I) as [_ [_ [_ Hnil]]].
    now apply Hnil.
Defined.
End PageFacts.

(* ================================================================== *)
(** ** Groups as a partition *)

Section PartitionFacts.
Import Pandas.
Variables (K R : Type) (cmp : K -> K -> comparison) (key : R -> K).
Hypothesis cmp_eq : forall a b, cmp a b = Eq <-> a = b.

Lemma filter_split_perm (p : R -> bool) (l : list R) :
  Permutation (filter p l ++ filter (fun r => negb (p r)) l) l.
Proof.
  induction l as [|a l IH]; cbn [filter]; [constructor|].
  destruct (p a); cbn [negb app].
  - now constructor.
  - symmetry. apply Permutation_cons_app. now symmetry.
Qed.

Lemma groups_partition (ks : list K) (rows : list R) :
  NoDup ks -> (forall r, In r rows -> In (key r) ks) ->
  Permutation
    (flat_map (fun k => filter (fun r => same_key cmp (key r) k) rows) ks)
    rows.
Proof.
  intros Hnd. revert rows.
  induction Hnd as [|k ks Hk Hnd IH]; intros rows Hin; cbn [flat_map].
  - destruct rows as [|r rows]; [constructor|].
    destruct (Hin r (or_introl eq_refl)).
  - set (rest := filter (fun r => negb (same_key cmp (key r) k)) rows).
    assert (Hrest : forall r, In r rest -> In (key r) ks).
    { intros r Hr. apply filter_In in Hr. destruct Hr as [Hr Hne].
      destruct (Hin r Hr) as [E|E]; [|exact E].
      rewrite <- E in Hne.
      rewrite (proj2 (same_key_true cmp cmp_eq _ _) eq_refl) in Hne.
      discriminate. }
    assert (Hsame : flat_map (fun k' => filter
                       (fun r => same_key cmp (key r) k') rows) ks
                    = flat_map (fun k' => filter
                       (fun r => same_key cmp (key r) k') rest) ks).
    { rewrite !flat_map_concat_map. f_equal. apply map_ext_in.
      intros k' Hk'. unfold rest. rewrite <- filter_both.
      apply filter_ext. intros r.
      destruct (same_key cmp (key r) k') eqn:E; [|now rewrite andb_false_r].
      apply (same_key_true cmp cmp_eq) in E. rewrite andb_true_r.
      destruct (same_key cmp (key r) k) eqn:E'; [|reflexivity].
      apply (same_key_true cmp cmp_eq) in E'. congruence. }
    rewrite Hsame.
    eapply Permutation_trans;
      [apply Permutation_app_head, (IH rest Hrest)|].
    apply filter_split_perm.
Qed.

(** the groups of [groupby] hold every row once *)
Lemma groupby_partition
    (cmp_antisym : forall a b, cmp b a = CompOpp (cmp a b))
    (cmp_trans : forall a b c, cmp a b = Lt -> cmp b c = Lt -> cmp a c = Lt)
    (rows : list R) :
  Permutation (flat_map snd (groupby cmp key rows)) rows.
Proof.
  unfold groupby. rewrite flat_map_concat_map, map_map. cbn [snd].
  rewrite <- flat_map_concat_map. apply groups_partition.
  - now apply sorted_keys_NoDup.
  - intros r Hr. apply (sorted_keys_In cmp cmp_eq). now apply in_map.
Qed.
End PartitionFacts.

Section WeeklyPartition.
Import Pandas App.

Lemma map_flat_map (A B C : Type) (f : A -> list B) (h : B -> C)
    (l : list A) :
  map h (flat_map f l) = flat_map (fun a => map h (f a)) l.
Proof.
  induction l as [|a l IH]; cbn [flat_map map]; [reflexivity|].
  now rewrite map_app, IH.
Qed.

Lemma length_flat_map (A B : Type) (f : A -> list B) (l : list A) :
  length (flat_map f l) = list_sum (map (fun a => length (f a)) l).
Proof.
  induction l as [|a l IH]; cbn [flat_map map list_sum fold_right];
    [reflexivity|].
  rewrite length_app, IH. reflexivity.
Qed.

Lemma nonempty_groups_count (A B : Type) (l : list (A * list B)) :
  Forall (fun g => snd g <> []) l ->
  (length l <= list_sum (map (fun g => length (snd g)) l))%nat.
Proof.
  unfold list_sum.
  induction 1 as [|g l Hg _ IH]; cbn [length map fold_right]; [lia|].
  destruct (snd g); [congruence|cbn [length]; lia].
Qed.

(** X8.  The weekly grouping of section 3 leaves out the records whose
    timestamp is missing, loses no other record and counts none twice: its
    groups, one per row of the weekly table and none of them empty, hold
    together every record that has a timestamp exactly once.  So the weekly
    table has at most as many rows as the dataset has records with a
    timestamp. *)
Theorem weekly_groups_partition (rows : list (Row * Z)) :
  let groups :=
    groupby String.compare snd (dropna (df_weekly_rolling rows)) in
  Permutation (flat_map (fun g => map fst (snd g)) groups)
              (map fst (dated rows))
  /\ list_sum (map (fun g => length (snd g)) groups) = length (dated rows)
  /\ length (weekly rows) = length groups
  /\ Forall (fun g => snd g <> []) groups
  /\ (length (weekly rows) <= length (dated rows) <= length rows)%nat.
Proof.
  cbv zeta. rewrite dropna_week_texts.
  assert (Hne : Forall (fun g : string * list (Row * string) => snd g <> [])
                  (groupby String.compare snd (week_texts (dated rows)))).
  { apply Forall_forall. intros g Hg.
    exact (groupby_group_nonempty String.compare string_compare_eq_iff
             _ _ _ Hg). }
  pose proof (groupby_partition String.compare snd string_compare_eq_iff
                string_compare_antisym string_compare_lt_trans
                (week_texts (dated rows))) as P.
  assert (Hsum : list_sum (map (fun g : string * list (Row * string) =>
                                  length (snd g))
                             (groupby String.compare snd
                                (week_texts (dated rows))))
                 = length (dated rows)).
  { rewrite <- length_flat_map, (Permutation_length P).
    unfold week_texts. apply length_map. }
  assert (Hlen : length (weekly rows)
                 = length (groupby String.compare snd
                             (week_texts (dated rows)))).
  { rewrite weekly_dated. apply length_map. }
  split; [|split; [|split; [|split]]].
  - rewrite <- map_flat_map, <- (week_texts_records (dated rows)).
    now apply Permutation_map.
  - exact Hsum.
  - exact Hlen.
  - exact Hne.
  - split.
    + rewrite Hlen, <- Hsum. apply nonempty_groups_count, Hne.
    + unfold dated. apply filter_length_le.
Qed.

(** Two records without a timestamp added to the scenario change nothing
    in the weekly table. *)
Example weekly_leaves_out_undated :
  length scenario_with_gaps = 7%nat
  /\ dated scenario_with_gaps = scenario_rows
  /\ weekly scenario_with_gaps = weekly scenario_rows.
Proof.
  split; [reflexivity|]. split; [reflexivity|].
  rewrite (weekly_dated scenario_with_gaps). now rewrite weekly_dated.
Qed.
End WeeklyPartition.

(* ================================================================== *)
(** ** Means stay between the bounds of their values *)

Section MeanBounds.
Import Pandas.
Local Open Scope Qc_scope.

Lemma Qc_sum_between (lo hi : Qc) (xs : list Qc) :
  Forall (between lo hi) xs ->
  Qc_of_nat (length xs) * lo <= Qc_sum xs
  /\ Qc_sum xs <= Qc_of_nat (length xs) * hi.
Proof.
  induction 1 as [|x xs [Hlo Hhi] _ [IHlo IHhi]]; cbn [length Qc_sum].
  - rewrite Qc_of_nat_0.
    replace (0 * lo) with 0 by ring. replace (0 * hi) with 0 by ring.
    split; apply Qcle_refl.
  - rewrite Qc_of_nat_S. split.
    + replace ((Qc_of_nat (length xs) + 1) * lo)
        with (lo + Qc_of_nat (length xs) * lo) by ring.
      now apply Qcplus_le_compat.
    + replace ((Qc_of_nat (length xs) + 1) * hi)
        with (hi + Qc_of_nat (length xs) * hi) by ring.
      now apply Qcplus_le_compat.
Qed.

Lemma mean_between (lo hi : Qc) (xs : list Qc) :
  xs <> [] -> Forall (between lo hi) xs -> between lo hi (mean xs).
Proof.
  intros Hne H. destruct (Qc_sum_between H) as [Hlo Hhi].
  assert (Hpos : 0 < Qc_of_nat (length xs)).
  { apply Qc_of_nat_pos. destruct xs; [congruence|cbn; lia]. }
  assert (Hnz : Qc_of_nat (length xs) <> 0).
  { intros E. rewrite E in Hpos. exact (Qclt_not_le _ _ Hpos (Qcle_refl _)). }
  assert (E : mean xs * Qc_of_nat (length xs) = Qc_sum xs).
  { unfold mean. field. exact Hnz. }
  split; apply (Qcmult_lt_0_le_reg_r _ _ _ Hpos); rewrite E.
  - now rewrite Qcmult_comm.
  - now rewrite (Qcmult_comm hi).
Qed.

Lemma Qc_of_bool_unit (b : bool) : between 0 1 (Qc_of_bool b).
Proof. destruct b; split; unfold Qcle; cbn; discriminate. Qed.

End MeanBounds.

(* ================================================================== *)
(** ** Ranges and shapes of the weekly views *)

Section WeeklyRanges.
Import Pandas App.
Local Open Scope Qc_scope.

Lemma share_between (s : string) (x : list Row) :
  x <> [] -> between 0 1 (share s x).
Proof.
  intros Hne. unfold share. apply mean_between.
  - destruct x; [congruence|discriminate].
  - apply Forall_map, Forall_forall. intros r _. apply Qc_of_bool_unit.
Qed.

Lemma rate_between (x : list Row) :
  x <> [] -> binary_labels x ->
  between 0 1 (mean (map (fun r => Qc_of_Z (fake_news_label r)) x)).
Proof.
  intros Hne Hb. apply mean_between.
  - destruct x; [congruence|discriminate].
  - apply Forall_map. eapply Forall_impl; [|exact Hb].
    intros r [E|E]; rewrite E; split; unfold Qcle; cbn; discriminate.
Qed.

Lemma weekly_In_fields (rows : list (Row * Z)) (w : WeeklyAggregate) :
  In w (weekly rows) ->
  exists x, x <> [] /\ incl x (map fst rows)
    /\ fake_news_rate w = mean (map (fun r => Qc_of_Z (fake_news_label r)) x)
    /\ pos w = share "Positive" x /\ neg w = share "Negative" x
    /\ neu w = share "Neutral" x.
Proof.
  rewrite weekly_dated. intros H. apply in_map_iff in H.
  destruct H as [g [<- Hg]]. exists (map fst (snd g)).
  split.
  - pose proof (groupby_group_nonempty String.compare
                  string_compare_eq_iff _ _ _ Hg) as Hne.
    destruct (snd g); [congruence|discriminate].
  - split; [|now cbn].
    apply (groupby_In String.compare string_compare_eq_iff) in Hg.
    destruct Hg as [E _]. rewrite E.
    intros r Hr. apply in_map_iff in Hr. destruct Hr as [p [<- Hp]].
    apply filter_In in Hp. destruct Hp as [Hp _].
    apply (in_map fst) in Hp. rewrite week_texts_records in Hp.
    apply in_map_iff in Hp. destruct Hp as [q [<- Hq]].
    apply in_map, dated_incl, Hq.
Qed.

Lemma weekly_fields_between (rows : list (Row * Z)) :
  binary_labels (map fst rows) ->
  Forall (fun w => between 0 1 (fake_news_rate w) /\ between 0 1 (pos w)
                   /\ between 0 1 (neg w) /\ between 0 1 (neu w))
         (weekly rows).
Proof.
  intros Hb. apply Forall_forall. intros w Hw.
  apply weekly_In_fields in Hw.
  destruct Hw as [x [Hne [Hincl [-> [-> [-> ->]]]]]].
  split; [|repeat split; now apply share_between].
  apply rate_between; [exact Hne|].
  unfold binary_labels in *. rewrite Forall_forall in *.
  intros r Hr. apply Hb, Hincl, Hr.
Qed.

(** X9.  On labels 0 and 1 every number of the weekly table is a
    proportion: [fake_news_rate], [pos], [neg] and [neu] of every week lie
    between 0 and 1. *)
Theorem weekly_rates_are_proportions (rows : list (Row * Z))
    (w : WeeklyAggregate) :
  binary_labels (map fst rows) ->
  In w (weekly rows) ->
  between 0 1 (fake_news_rate w) /\ between 0 1 (pos w)
  /\ between 0 1 (neg w) /\ between 0 1 (neu w).
Proof.
  intros Hb Hw. pose proof (weekly_fields_between rows Hb) as H.
  rewrite Forall_forall in H. now apply H.
Qed.

Lemma weekly_rates_are_proportions_witness :
  let w := nth 0 (weekly scenario_rows) (mkWeekly "" 0 0 0 0) in
  between 0 1 (fake_news_rate w) /\ between 0 1 (pos w)
  /\ between 0 1 (neg w) /\ between 0 1 (neu w).
Proof.
  cbv zeta.
  apply (@weekly_rates_are_proportions scenario_rows).
  - repeat (apply Forall_cons; [cbn; auto|]); apply Forall_nil.
  - apply nth_In. vm_compute. lia.
Defined.




(** X11.  The chart of section 3 is well formed on every dataset with
    timestamps: its week labels increase strictly in the order of strings,
    so none is repeated; the four series have one point per label; and no
    point is NaN. *)
Theorem weekly_rolled_axes (rows : list (Row * Z)) :
  let out := weekly_rolled rows in
  let n := length (r_week out) in
  r_week out = map week (weekly rows)
  /\ StronglySorted (fun a b => String.compare a b = Lt) (r_week out)
  /\ NoDup (r_week out)
  /\ (length (r_fake_news_rate out) = n /\ length (r_pos out) = n
      /\ length (r_neg out) = n /\ length (r_neu out) = n)
  /\ (Forall (fun v => v <> None) (r_fake_news_rate out)
      /\ Forall (fun v => v <> None) (r_pos out)
      /\ Forall (fun v => v <> None) (r_neg out)
      /\ Forall (fun v => v <> None) (r_neu out)).
Proof.
  cbv zeta. unfold weekly_rolled, smooth, rolling_numeric, rolling_window.
  cbn [r_week r_fake_news_rate r_pos r_neg r_neu].
  assert (E : map week (weekly rows)
              = sorted_keys String.compare
                  (map snd (dropna (df_weekly_rolling rows)))).
  { unfold weekly. rewrite map_map. cbn [week agg].
    rewrite <- (map_map fst (fun k : string => k)), map_id.
    apply groupby_keys. }
  split; [reflexivity|]. rewrite E. split; [|split; [|split]].
  - apply (sorted_keys_sorted String.compare string_compare_eq_iff
             string_compare_antisym string_compare_lt_trans).
  - apply (sorted_keys_NoDup String.compare string_compare_eq_iff
             string_compare_antisym string_compare_lt_trans).
  - rewrite <- E, !rolling_mean_length, !length_map. repeat split.
  - rewrite !rolling_mean_4_spec.
    repeat split; apply Forall_map, Forall_forall; intros i _; discriminate.
Qed.




End WeeklyRanges.

(* ================================================================== *)
(** ** Weeks in time, unknown sentiments *)

Section WeekAssignment.
Import Pandas.
Local Open Scope Z_scope.

(** X13.  The weekly period of a timestamp never decreases with time: a
    later timestamp falls in the same week or in a later one.  A week
    lasts seven days exactly: it holds the timestamps from the midnight
    that starts it up to seven days later, that midnight is in the week,
    and a timestamp seven days later is in the next week. *)
Theorem week_assignment_monotone (t1 t2 : Z) :
  t1 <= t2 ->
  to_period_W t1 <= to_period_W t2
  /\ start_ns (to_period_W t1) <= t1 < start_ns (to_period_W t1)
                                      + 7 * ns_per_day
  /\ to_period_W (start_ns (to_period_W t1)) = to_period_W t1
  /\ to_period_W (t1 + 7 * ns_per_day) = to_period_W t1 + 1.
Proof.
  intros H.
  pose proof (proj1 (to_period_W_spec t1 _) eq_refl) as B1.
  pose proof (proj1 (to_period_W_spec t2 _) eq_refl) as B2.
  assert (Hstep : forall o, start_ns (o + 1) = start_ns o + 7 * ns_per_day)
    by (intros o; unfold start_ns, week_start_day, ns_per_day; lia).
  assert (Hmono : forall a b, a < b -> start_ns a < start_ns b)
    by (intros a b Hab; unfold start_ns, week_start_day, ns_per_day; lia).
  split; [|split; [|split]].
  - destruct (Z_le_gt_dec (to_period_W t1) (to_period_W t2)) as [Hle|Hgt];
      [exact Hle|].
    exfalso.
    assert (to_period_W t2 + 1 <= to_period_W t1) by lia.
    assert (start_ns (to_period_W t2 + 1) <= start_ns (to_period_W t1)).
    { destruct (Z.eq_dec (to_period_W t2 + 1) (to_period_W t1)) as [->|Hne];
        [lia|]. apply Z.lt_le_incl, Hmono. lia. }
    lia.
  - rewrite <- Hstep. exact B1.
  - apply to_period_W_spec. pose proof (Hmono (to_period_W t1)
                                         (to_period_W t1 + 1)). lia.
  - apply to_period_W_spec. rewrite !Hstep. rewrite Hstep in B1. lia.
Qed.

Lemma week_assignment_monotone_witness :
  to_period_W 1609750800000000000 <= to_period_W 1610323199000000000
  /\ to_period_W (1609750800000000000 + 7 * ns_per_day) = 2664.
Proof.
  destruct (@week_assignment_monotone 1609750800000000000
              1610323199000000000) as [H1 [_ [_ H4]]].
  - vm_compute. discriminate.
  - split; [exact H1|]. rewrite H4. reflexivity.
Defined.
End WeekAssignment.

Section AnySentiment.
Import Pandas App.
Local Open Scope Qc_scope.


End AnySentiment.

(* ================================================================== *)
(** ** The order of the records does not matter *)

Section SortedUnique.
Import Pandas.
Variables (K : Type) (cmp : K -> K -> comparison).
Hypothesis cmp_eq : forall a b, cmp a b = Eq <-> a = b.
Hypothesis cmp_antisym : forall a b, cmp b a = CompOpp (cmp a b).
Hypothesis cmp_trans :
  forall a b c, cmp a b = Lt -> cmp b c = Lt -> cmp a c = Lt.

Lemma sorted_same_elements (l1 l2 : list K) :
  StronglySorted (key_lt cmp) l1 -> StronglySorted (key_lt cmp) l2 ->
  (forall x, In x l1 <-> In x l2) -> l1 = l2.
Proof.
  intros H1. revert l2.
  induction H1 as [|a l1 Hs1 IH Ha]; intros l2 H2 Hin.
  - destruct l2 as [|b l2]; [reflexivity|].
    destruct (proj2 (Hin b) (or_introl eq_refl)).
  - destruct H2 as [|b l2 Hs2 Hb].
    + destruct (proj1 (Hin a) (or_introl eq_refl)).
    + rewrite Forall_forall in Ha, Hb.
      assert (Hab : a = b).
      { destruct (proj1 (Hin a) (or_introl eq_refl)) as [E|Ia]; [auto|].
        destruct (proj2 (Hin b) (or_introl eq_refl)) as [E|Ib]; [auto|].
        exfalso. apply (@key_lt_irrefl _ cmp cmp_eq a).
        exact (cmp_trans (Ha _ Ib) (Hb _ Ia)). }
      subst b. f_equal. apply IH; [exact Hs2|].
      intros x. split; intros Hx.
      * destruct (proj1 (Hin x) (or_intror Hx)) as [E|Hx']; [|exact Hx'].
        subst x. exfalso.
        exact (@key_lt_irrefl _ cmp cmp_eq a (Ha _ Hx)).
      * destruct (proj2 (Hin x) (or_intror Hx)) as [E|Hx']; [|exact Hx'].
        subst x. exfalso.
        exact (@key_lt_irrefl _ cmp cmp_eq a (Hb _ Hx)).
Qed.

Lemma sorted_keys_perm (ks ks' : list K) :
  Permutation ks ks' -> sorted_keys cmp ks = sorted_keys cmp ks'.
Proof.
  intros P. apply sorted_same_elements.
  - now apply sorted_keys_sorted.
  - now apply sorted_keys_sorted.
  - intros x. rewrite !(sorted_keys_In cmp cmp_eq).
    split; apply Permutation_in; [exact P|now symmetry].
Qed.
End SortedUnique.

Section OrderIndependence.
Import Pandas App.
Local Open Scope Qc_scope.

Lemma filter_perm (A : Type) (p : A -> bool) (l l' : list A) :
  Permutation l l' -> Permutation (filter p l) (filter p l').
Proof.
  induction 1 as [|a l l' _ IH|a b l|l l' l'' _ IH1 _ IH2]; cbn [filter].
  - constructor.
  - destruct (p a); [now constructor|exact IH].
  - destruct (p a), (p b); try apply Permutation_refl.
    apply perm_swap.
  - now transitivity (filter p l').
Qed.

Lemma Qc_sum_perm (l l' : list Qc) :
  Permutation l l' -> Qc_sum l = Qc_sum l'.
Proof.
  induction 1 as [|a l l' _ IH|a b l|l l' l'' _ IH1 _ IH2]; cbn [Qc_sum].
  - reflexivity.
  - now rewrite IH.
  - ring.
  - now rewrite IH1.
Qed.

Lemma mean_perm (A : Type) (f : A -> Qc) (l l' : list A) :
  Permutation l l' -> mean (map f l) = mean (map f l').
Proof.
  intros P. unfold mean.
  rewrite (Qc_sum_perm (Permutation_map f P)), !length_map.
  now rewrite (Permutation_length P).
Qed.

Lemma agg_perm (k : string) (l l' : list (Row * string)) :
  Permutation l l' -> agg (k, l) = agg (k, l').
Proof.
  intros P. unfold agg, share. cbn [fst snd].
  pose proof (Permutation_map fst P) as P'.
  now rewrite !(mean_perm _ P').
Qed.

Lemma weekly_perm (rows rows' : list (Row * Z)) :
  Permutation rows rows' -> weekly rows = weekly rows'.
Proof.
  intros P. rewrite !weekly_dated. unfold groupby. rewrite !map_map.
  assert (P' : Permutation (week_texts (dated rows))
                           (week_texts (dated rows')))
    by (unfold week_texts, dated; now apply Permutation_map, filter_perm).
  rewrite (sorted_keys_perm String.compare string_compare_eq_iff
             string_compare_antisym string_compare_lt_trans
             (Permutation_map snd P')).
  apply map_ext. intros k. apply agg_perm. now apply filter_perm.
Qed.

(** X16.  The weekly table and its smoothed version do not depend on the
    order of the records in the file: two datasets with the same records
    in any order give the same rows, week by week. *)
Theorem weekly_order_independent (rows rows' : list (Row * Z)) :
  Permutation rows rows' ->
  weekly rows = weekly rows' /\ weekly_rolled rows = weekly_rolled rows'.
Proof.
  intros P. pose proof (weekly_perm P) as E.
  split; [exact E|]. unfold weekly_rolled. now rewrite E.
Qed.

Lemma weekly_order_independent_witness :
  weekly scenario_rows = weekly (rev scenario_rows).
Proof.
  refine (proj1 (@weekly_order_independent scenario_rows
                   (rev scenario_rows) _)).
  apply Permutation_rev.
Defined.

Lemma cell_count_perm (l : Z) (s : string) (x x' : list Row) :
  Permutation x x' -> cell_count l s x = cell_count l s x'.
Proof.
  intros P. unfold cell_count. apply Permutation_length.
  now apply filter_perm.
Qed.

(** X17.  The label chart, the sentiment chart, the glyph counts and the
    cross-tabulation (or its failure) do not depend on the order of the
    records either. *)
Theorem tables_order_independent (T : Type) (df df' : DataFrame T) :
  Permutation (records df) (records df') ->
  label_counts df = label_counts df'
  /\ sent_counts df = sent_counts df'
  /\ pulse df = pulse df'
  /\ conf_matrix df = conf_matrix df'.
Proof.
  intros P.
  assert (Hl : forall l, length (filter (fun r => Z.eqb (fake_news_label r) l)
                                        (records df))
                         = length (filter (fun r =>
                                             Z.eqb (fake_news_label r) l)
                                          (records df')))
    by (intros l; apply Permutation_length; now apply filter_perm).
  assert (Hs : forall s, length (filter (fun r =>
                                           String.eqb (sentiment_label r) s)
                                        (records df))
                         = length (filter (fun r =>
                                             String.eqb (sentiment_label r) s)
                                          (records df')))
    by (intros s; apply Permutation_length; now apply filter_perm).
  assert (Ep : pulse df = pulse df').
  { unfold pulse. apply map_ext. intros s.
    now rewrite !(any_get_value_counts String.eqb String.eqb_spec),
      !count_sentiments, Hs. }
  split; [|split; [|split]].
  - unfold label_counts, reindex. apply map_ext. intros l.
    now rewrite !(any_get_value_counts Z.eqb Z.eqb_spec), !count_labels, Hl.
  - exact Ep.
  - exact Ep.
  - unfold conf_matrix. rewrite !crosstab_cells.
    rewrite (sorted_keys_perm Z.compare Z.compare_eq_iff Z_compare_antisym
               Z_compare_lt_trans (Permutation_map fake_news_label P)).
    rewrite (sorted_keys_perm String.compare string_compare_eq_iff
               string_compare_antisym string_compare_lt_trans
               (Permutation_map sentiment_label P)).
    do 3 f_equal. apply map_ext. intros l. apply map_ext. intros s.
    now apply cell_count_perm.
Qed.

Lemma tables_order_independent_witness :
  conf_matrix (WithTimestamps scenario_rows)
  = conf_matrix (WithTimestamps (rev scenario_rows)).
Proof.
  refine (proj2 (proj2 (proj2
            (@tables_order_independent Z (WithTimestamps scenario_rows)
               (WithTimestamps (rev scenario_rows)) _)))).
  cbn [records]. rewrite map_rev. apply Permutation_rev.
Defined.
End OrderIndependence.
